(** * s2s: Sigma rule to Splunk saved search (s2s.py)

    A shallow embedding of [src/s2s.py] and the properties of its
    validators, translator call, saved-search manager, job runner and
    orchestrator.

    Strings are Rocq [string]s: a character is a code point below 256,
    the range in which Python's character classes ([str.isspace], the
    decimal digits of [int()] and of [\d]) are fixed by the tables of the
    interpreter.  Python integers are [Z].  The outside world (environment,
    terminal, converter process, Splunk service) is a record of oracles;
    a run yields the list of the effects it performed, with the exceptions
    the world raised, and how it ended. *)

From Stdlib Require Import ZArith List String Ascii Bool Lia.
Import ListNotations.

Open Scope string_scope.
Open Scope Z_scope.

(** ** Python strings *)

Definition code (c : ascii) : N := N_of_ascii c.

(** [str.isspace] on one character, as [str.split()] and [str.strip()]
    use it: TAB..CR, FS..US, space, NEL and NBSP. *)
Definition is_space (c : ascii) : bool :=
  let n := code c in
  ((9 <=? n) && (n <=? 13) || (28 <=? n) && (n <=? 32)
   || (n =? 133) || (n =? 160))%N.

(** The decimal digits, for [int()] and for [\d]. *)
Definition is_digit (c : ascii) : bool :=
  let n := code c in ((48 <=? n) && (n <=? 57))%N.

Definition digit_val (c : ascii) : Z := Z.of_N (code c) - 48.

(** The white space [int()] skips: Py_ISSPACE below 127, and the two
    characters above that the conversion to ASCII maps to a space. *)
Definition is_int_space (c : ascii) : bool :=
  let n := code c in
  ((9 <=? n) && (n <=? 13) || (n =? 32) || (n =? 133) || (n =? 160))%N.

Fixpoint all_chars (p : ascii -> bool) (s : string) : bool :=
  match s with
  | EmptyString => true
  | String c r => p c && all_chars p r
  end.

Fixpoint lstrip (p : ascii -> bool) (s : string) : string :=
  match s with
  | EmptyString => EmptyString
  | String c r => if p c then lstrip p r else s
  end.

Fixpoint rstrip (p : ascii -> bool) (s : string) : string :=
  match s with
  | EmptyString => EmptyString
  | String c r =>
      match rstrip p r with
      | EmptyString => if p c then EmptyString else String c EmptyString
      | r' => String c r'
      end
  end.

(** [s.strip()] *)
Definition py_strip (s : string) : string := rstrip is_space (lstrip is_space s).

(** [s.split()]: the maximal runs of characters that are not white space.
    [cur] is the field being read, in reverse. *)
Fixpoint rev_string (acc s : string) : string :=
  match s with
  | EmptyString => acc
  | String c r => rev_string (String c acc) r
  end.

Definition flush (cur : string) (k : list string) : list string :=
  match cur with
  | EmptyString => k
  | _ => rev_string EmptyString cur :: k
  end.

Fixpoint split_ws (cur : string) (s : string) : list string :=
  match s with
  | EmptyString => flush cur []
  | String c r =>
      if is_space c then flush cur (split_ws EmptyString r)
      else split_ws (String c cur) r
  end.

Definition py_split (s : string) : list string := split_ws EmptyString s.

(** [s.split(sep, 1)] for a one-character separator: a list of one or
    two strings. *)
Fixpoint split_first (sep : ascii) (s : string) : option (string * string) :=
  match s with
  | EmptyString => None
  | String c r =>
      if Ascii.eqb c sep then Some (EmptyString, r)
      else match split_first sep r with
           | Some (a, b) => Some (String c a, b)
           | None => None
           end
  end.

Definition py_split1 (sep : ascii) (s : string) : list string :=
  match split_first sep s with
  | Some (a, b) => [a; b]
  | None => [s]
  end.

(** [int(s)]: optional white space, an optional sign, decimal digits with
    single underscores between them, optional white space.  [None] is
    ValueError.  A literal of more than [max_str_digits] digits is
    refused too. *)
Definition max_str_digits : nat := 4300.

Fixpoint scan_digits (s : string) (acc : Z) (n : nat) (prev_us : bool)
  : option (Z * nat * string) :=
  match s with
  | EmptyString => if prev_us then None else Some (acc, n, EmptyString)
  | String c r =>
      if is_digit c then scan_digits r (10 * acc + digit_val c) (S n) false
      else if Ascii.eqb c "_" then
        if prev_us then None else scan_digits r acc n true
      else if prev_us then None else Some (acc, n, s)
  end.

(** The literal after the sign. *)
Definition parse_unsigned (s : string) : option Z :=
  match s with
  | String c _ =>
      if Ascii.eqb c "_" then None
      else
        match scan_digits s 0 0 false with
        | Some (v, n, rest) =>
            if (n =? 0)%nat then None
            else if (max_str_digits <? n)%nat then None
            else if all_chars is_int_space rest then Some v
            else None
        | None => None
        end
  | EmptyString => None
  end.

Definition py_int (s : string) : option Z :=
  let s1 := lstrip is_int_space s in
  match s1 with
  | String c r =>
      if Ascii.eqb c "+" then parse_unsigned r
      else if Ascii.eqb c "-" then option_map Z.opp (parse_unsigned r)
      else parse_unsigned s1
  | EmptyString => None
  end.

(** [str(n)] for an integer. *)
Definition digit_char (d : Z) : ascii := ascii_of_N (Z.to_N (48 + d)).

Fixpoint nat_digits (fuel : nat) (n : Z) (acc : string) : string :=
  match fuel with
  | O => acc
  | S f =>
      let acc' := String (digit_char (n mod 10)) acc in
      if n <? 10 then acc' else nat_digits f (n / 10) acc'
  end.

Definition py_str_int (n : Z) : string :=
  if n <? 0 then String "-" (nat_digits (S (Z.to_nat (Z.log2 (- n)))) (- n) EmptyString)
  else nat_digits (S (Z.to_nat (Z.log2 n))) n EmptyString.

(** ** Regular expressions

    The fragment of [re] that [cron_pattern] uses: literal characters, the
    class [\d], concatenation, alternation and [*]; [x+] is [x x*].
    Matching is by derivatives; for a pattern anchored at both ends the
    backtracking matcher of [re] finds a match exactly when the string is
    in the language. *)

Inductive regex : Type :=
| ReNone
| ReEps
| ReChar (c : ascii)
| ReDigit
| ReCat (r1 r2 : regex)
| ReAlt (r1 r2 : regex)
| ReStar (r : regex).

Definition RePlus (r : regex) : regex := ReCat r (ReStar r).

Fixpoint nullable (r : regex) : bool :=
  match r with
  | ReNone => false
  | ReEps => true
  | ReChar _ => false
  | ReDigit => false
  | ReCat r1 r2 => nullable r1 && nullable r2
  | ReAlt r1 r2 => nullable r1 || nullable r2
  | ReStar _ => true
  end.

Fixpoint deriv (c : ascii) (r : regex) : regex :=
  match r with
  | ReNone => ReNone
  | ReEps => ReNone
  | ReChar d => if Ascii.eqb c d then ReEps else ReNone
  | ReDigit => if is_digit c then ReEps else ReNone
  | ReCat r1 r2 =>
      if nullable r1 then ReAlt (ReCat (deriv c r1) r2) (deriv c r2)
      else ReCat (deriv c r1) r2
  | ReAlt r1 r2 => ReAlt (deriv c r1) (deriv c r2)
  | ReStar r1 => ReCat (deriv c r1) (ReStar r1)
  end.

Fixpoint re_fullmatch (r : regex) (s : string) : bool :=
  match s with
  | EmptyString => nullable r
  | String c s' => re_fullmatch (deriv c r) s'
  end.

(** [s] without a final line feed, when it has one. *)
Fixpoint chop_newline (s : string) : option string :=
  match s with
  | EmptyString => None
  | String c EmptyString => if Ascii.eqb c "010" then Some EmptyString else None
  | String c r =>
      match chop_newline r with
      | Some r' => Some (String c r')
      | None => None
      end
  end.

(** [re.compile('^(' + r + ')$').match(s)] is not None: [$] matches at
    the end of the string and also just before a line feed that ends it. *)
Definition re_match_anchored (r : regex) (s : string) : bool :=
  re_fullmatch r s ||
  match chop_newline s with
  | Some s' => re_fullmatch r s'
  | None => false
  end.

Definition digits : regex := RePlus ReDigit.

(** [(\*|\d+|\*/\d+|\d+(,\d+)*|\d+-\d+)] *)
Definition cron_pattern : regex :=
  ReAlt (ReChar "*")
  (ReAlt digits
  (ReAlt (ReCat (ReChar "*") (ReCat (ReChar "/") digits))
  (ReAlt (ReCat digits (ReStar (ReCat (ReChar ",") digits)))
         (ReCat digits (ReCat (ReChar "-") digits))))).

(** ** Exceptions and results *)

Inductive exn : Type :=
| KeyboardInterrupt
| SystemExit (code : Z)
| ArgumentTypeError (msg : string)
| ValueError (msg : string)
| FileNotFoundError (msg : string)
| CalledProcessError (returncode : Z) (stderr : string)
| ConnectionRefusedError (msg : string)
| TimeoutError (msg : string)
| AuthenticationError (status : Z) (msg : string)
| HTTPError (status : Z) (msg : string)
| KeyError (msg : string)
| OtherError (name msg : string).

(** A pure computation that may raise. *)
Inductive pyresult (A : Type) : Type :=
| Ok (a : A)
| Raise (e : exn).
Arguments Ok {A} a.
Arguments Raise {A} e.

Definition pyresult_bind {A B} (r : pyresult A) (f : A -> pyresult B) : pyresult B :=
  match r with
  | Ok a => f a
  | Raise e => Raise e
  end.

(** ** Floating point

    [execute_search] parses a float, multiplies it by the integer 100 and
    formats it with [.1f].  The development is parametric in these three
    operations of the interpreter. *)
Class FloatOps : Type := {
  pyfloat : Type;
  py_float : string -> option pyfloat;        (* [float(s)], [None] is ValueError *)
  float_mul_int : pyfloat -> Z -> pyfloat;     (* [x * n] *)
  format_f1 : pyfloat -> string                (* [f"{x:.1f}"] *)
}.

(** ** The outside world *)

(** What [service.saved_searches.create] returns. *)
Record SavedSearch : Type := {
  ss_name : string;
  ss_search : string;
  ss_cron_schedule : string;
  ss_is_scheduled : bool;
  ss_description : string
}.

(** Python values that travel between the functions of the script. *)
Inductive pyobj : Type :=
| PStr (s : string)
| PSavedSearch (d : SavedSearch).

(** A search job: the answer of the [k]-th call of [is_ready()] and the
    fields read with [job[key]]. *)
Record Job : Type := {
  job_is_ready : nat -> pyresult bool;
  job_get : string -> pyresult string
}.

(** The connected [splunklib] service. *)
Record Service : Type := {
  saved_searches_create :
    string -> string -> string -> bool -> string -> pyresult SavedSearch;
  saved_searches_delete : string -> pyresult unit;
  jobs_create : pyobj -> pyresult Job
}.

(** How starting a child process ends. *)
Inductive exec_result : Type :=
| ExecNotFound
| ExecExited (returncode : Z) (stdout stderr : string)
| ExecRaises (e : exn).

Record World : Type := {
  w_getenv : string -> option string;   (* after [load_dotenv()] *)
  w_input : string -> pyresult string;
  w_getpass : string -> pyresult string;
  w_connect : string -> string -> string -> string -> pyresult Service;
  w_exec : list string -> exec_result;
  w_sleep : nat -> pyresult unit        (* the [k]-th [time.sleep] of the loop *)
}.

Inductive level : Type := INFO | ERROR.

Inductive event : Type :=
| EvLoadDotenv
| EvInput (prompt : string)
| EvGetpass (prompt : string)
| EvConnect (host port username password : string)
| EvSubprocessRun (command : list string)
| EvSavedSearchCreate (name search cron_schedule : string) (is_scheduled : bool)
                      (description : string)
| EvSavedSearchDelete (name : string)
| EvJobCreate (query : pyobj)
| EvIsReady
| EvSleep (seconds : Z)
| EvJobGet (key : string)
| EvLog (l : level) (msg : string)
| EvParserError (msg : string)
| EvRaise (e : exn).                    (* the world answered by raising [e] *)

Definition trace : Type := list event.

(** ** Effectful computations: the effects performed, and the end. *)
Inductive ending (A : Type) : Type :=
| Ret (a : A)
| Exc (e : exn)
| Spin.                                   (* still looping when the fuel ran out *)
Arguments Ret {A} a.
Arguments Exc {A} e.
Arguments Spin {A}.

Definition M (A : Type) : Type := (trace * ending A)%type.

Definition ret {A} (a : A) : M A := ([], Ret a).
Definition raise {A} (e : exn) : M A := ([], Exc e).

Definition bind {A B} (m : M A) (f : A -> M B) : M B :=
  match m with
  | (t, Ret a) => let '(t', r) := f a in ((t ++ t')%list, r)
  | (t, Exc e) => (t, Exc e)
  | (t, Spin) => (t, Spin)
  end.

Declare Scope py_scope.
Delimit Scope py_scope with py.
Notation "x <- m ;; k" := (bind m (fun x => k))
  (at level 61, m at next level, right associativity) : py_scope.
Notation "' p <- m ;; k" := (bind m (fun x => match x with p => k end))
  (at level 61, p pattern, m at next level, right associativity) : py_scope.
Notation "m ;; k" := (bind m (fun _ => k))
  (at level 61, right associativity) : py_scope.
Open Scope py_scope.

Definition lift {A} (r : pyresult A) : M A :=
  match r with
  | Ok a => ret a
  | Raise e => raise e
  end.

(** One call into the world: the event, then what the world answers;
    an exception it raises is recorded too. *)
Definition call {A} (ev : event) (r : pyresult A) : M A :=
  match r with
  | Ok a => ([ev], Ret a)
  | Raise e => ([ev; EvRaise e], Exc e)
  end.

(** [try: m  except ...: h]; [h e = None] when no clause matches [e]. *)
Definition try_except {A} (m : M A) (h : exn -> option (M A)) : M A :=
  match m with
  | (t, Exc e) =>
      match h e with
      | Some k => let '(t', r) := k in ((t ++ t')%list, r)
      | None => (t, Exc e)
      end
  | other => other
  end.

Definition logging_info (msg : string) : M unit := ([EvLog INFO msg], Ret tt).
Definition logging_error (msg : string) : M unit := ([EvLog ERROR msg], Ret tt).
Definition sys_exit {A} (c : Z) : M A := raise (SystemExit c).

(** ** The script *)

(** [get_credentials()] *)
Definition get_credentials (w : World) : M (string * string) :=
  ([EvLoadDotenv], Ret tt) ;;
  let username := w_getenv w "SPLUNK_USER" in
  let password := w_getenv w "SPLUNK_PASS" in
  username <- (match username with
               | Some (String c u) => ret (String c u)
               | _ => call (EvInput "Enter Splunk username: ")
                           (w_input w "Enter Splunk username: ")
               end) ;;
  password <- (match password with
               | Some (String c p) => ret (String c p)
               | _ => call (EvGetpass "Enter Splunk password: ")
                           (w_getpass w "Enter Splunk password: ")
               end) ;;
  ret (username, password).

(** [validate_cron(timer)] *)
Fixpoint check_fields (parts : list string) : pyresult unit :=
  match parts with
  | [] => Ok tt
  | part :: rest =>
      if re_match_anchored cron_pattern part then check_fields rest
      else Raise (ArgumentTypeError ("Invalid cron field: '" ++ part ++ "'"))
  end.

Definition cron_count_msg : string :=
  "Cron timer must have exactly 5 fields (e.g. '*/30 * * * *')".

Definition validate_cron (timer : string) : pyresult string :=
  let parts := py_split (py_strip timer) in
  if negb (List.length parts =? 5)%nat then Raise (ArgumentTypeError cron_count_msg)
  else pyresult_bind (check_fields parts) (fun _ => Ok timer).

(** [validate_host_port(host_string)] *)
Definition host_format_msg : string :=
  "Host must be in the format IP:Port (e.g., '127.0.0.1:8089').".

Definition port_range_msg (port_str : string) : string :=
  "Port number '" ++ port_str ++ "' is out of valid range (1-65535).".

Definition port_int_msg (port_str : string) : string :=
  "Port number '" ++ port_str ++ "' is not a valid integer.".

Definition validate_host_port (host_string : string) : pyresult string :=
  match py_split1 ":" host_string with
  | [ip; port_str] =>
      match py_int port_str with
      | Some port =>
          if negb ((1 <=? port) && (port <=? 65535))
          then Raise (ArgumentTypeError (port_range_msg port_str))
          else Ok host_string
      | None => Raise (ArgumentTypeError (port_int_msg port_str))
      end
  | _ => Raise (ArgumentTypeError host_format_msg)
  end.

(** [connect_to_splunk(host, username, password)] *)
Definition connect_to_splunk (w : World) (host username password : string)
  : M Service :=
  match py_split1 ":" host with
  | [host; port] =>
      try_except
        (service <- call (EvConnect host port username password)
                         (w_connect w host port username password) ;;
         logging_info "Successfully connected to Splunk." ;;
         ret service)
        (fun e =>
           match e with
           | ConnectionRefusedError m | TimeoutError m =>
               Some (logging_error ("Connection to Splunk failed: " ++ m) ;;
                     sys_exit 1)
           | AuthenticationError _ _ =>
               Some (logging_error
                       "Authentication failed. Please check your credentials." ;;
                     sys_exit 1)
           | _ => None
           end)
  | _ => raise (ValueError "not enough values to unpack (expected 2, got 1)")
  end.

(** [subprocess.run(command, capture_output=True, text=True, check=True)] *)
Record CompletedProcess : Type := {
  cp_stdout : string;
  cp_stderr : string
}.

Definition sigma_errno_msg : string := "[Errno 2] No such file or directory: 'sigma'".

Definition subprocess_run (w : World) (command : list string) : M CompletedProcess :=
  call (EvSubprocessRun command)
       (match w_exec w command with
        | ExecNotFound => Raise (FileNotFoundError sigma_errno_msg)
        | ExecExited rc out err =>
            if rc =? 0 then Ok {| cp_stdout := out; cp_stderr := err |}
            else Raise (CalledProcessError rc err)
        | ExecRaises e => Raise e
        end).

(** [convert_sigma_to_splunk(rule_path, pipeline)] *)
Definition sigma_command (rule_path pipeline : string) : list string :=
  let command := ["sigma"; "convert"; "-t"; "splunk"; "-f"; "default"; rule_path] in
  let command :=
    if negb (String.eqb pipeline "--without-pipeline")
    then (command ++ ["-p"; pipeline])%list
    else command in
  (command ++ ["--without-pipeline"])%list.

Definition sigma_not_found_msg : string :=
  "The 'sigma' command was not found. Please ensure it's installed and in your PATH.".

Definition convert_sigma_to_splunk (w : World) (rule_path pipeline : string)
  : M string :=
  let command := sigma_command rule_path pipeline in
  try_except
    (result <- subprocess_run w command ;;
     logging_info ("Generated Splunk query: " ++ py_strip (cp_stdout result)) ;;
     ret (py_strip (cp_stdout result)))
    (fun e =>
       match e with
       | FileNotFoundError _ =>
           Some (logging_error sigma_not_found_msg ;; sys_exit 1)
       | CalledProcessError _ stderr =>
           Some (logging_error ("Sigma conversion failed: " ++ stderr) ;;
                 sys_exit 1)
       | _ => None
       end).

(** [create_scheduled_search(service, search_name, query, timer)] *)
Definition search_description : string :=
  "This is a scheduled search created by Sigma2Splunk Python script.".

Definition created_msg (name : string) : string :=
  "Saved search '" ++ name ++ "' created successfully.".

Definition exists_msg (search_name : string) : string :=
  "A saved search with the name '" ++ search_name ++ "' already exists.".

Definition create_failed_msg (e : string) : string :=
  "Failed to create saved search: " ++ e.

Definition create_scheduled_search (service : Service)
  (search_name query timer : string) : M pyobj :=
  let search_query := "search " ++ query in
  try_except
    (saved_search <- call (EvSavedSearchCreate search_name search_query timer true
                                                search_description)
                          (saved_searches_create service search_name search_query
                                                 timer true search_description) ;;
     logging_info (created_msg (ss_name saved_search)) ;;
     ret (PStr search_query))
    (fun e =>
       match e with
       | HTTPError status m | AuthenticationError status m =>
           Some ((if status =? 409 then logging_error (exists_msg search_name)
                  else logging_error (create_failed_msg m)) ;;
                 sys_exit 1)
       | _ => None
       end).

(** [delete_saved_search(service, search_name)] *)
Definition deleted_msg (search_name : string) : string :=
  "Saved search '" ++ search_name ++ "' deleted successfully.".

Definition not_found_msg (search_name : string) : string :=
  "Saved search '" ++ search_name ++ "' not found.".

Definition delete_saved_search (service : Service) (search_name : string) : M unit :=
  try_except
    (call (EvSavedSearchDelete search_name)
          (saved_searches_delete service search_name) ;;
     logging_info (deleted_msg search_name))
    (fun e =>
       match e with
       | KeyError _ =>
           Some (logging_error (not_found_msg search_name) ;; sys_exit 1)
       | _ => None
       end).

(** [while not job.is_ready(): time.sleep(2)]; [k] counts the rounds. *)
Fixpoint wait_ready (w : World) (job : Job) (fuel : nat) (k : nat) : M unit :=
  match fuel with
  | O => ([], Spin)
  | S fuel' =>
      ready <- call EvIsReady (job_is_ready job k) ;;
      if negb ready then
        call (EvSleep 2) (w_sleep w k) ;;
        wait_ready w job fuel' (S k)
      else ret tt
  end.

Definition int_of_str (s : string) : pyresult Z :=
  match py_int s with
  | Some n => Ok n
  | None => Raise (ValueError ("invalid literal for int() with base 10: '" ++ s ++ "'"))
  end.

Definition float_of_str `{FloatOps} (s : string) : pyresult pyfloat :=
  match py_float s with
  | Some x => Ok x
  | None => Raise (ValueError ("could not convert string to float: '" ++ s ++ "'"))
  end.

Record Stats `{FloatOps} : Type := {
  st_isDone : string;
  st_doneProgress : pyfloat;
  st_scanCount : Z;
  st_eventCount : Z;
  st_resultCount : Z
}.

Definition progress_line `{FloatOps} (stats : Stats) : string :=
  format_f1 (st_doneProgress stats) ++ "% done | "
  ++ py_str_int (st_scanCount stats) ++ " scanned | "
  ++ py_str_int (st_eventCount stats) ++ " matched | "
  ++ py_str_int (st_resultCount stats) ++ " results".

Definition read_stats `{FloatOps} (job : Job) : M Stats :=
  isDone <- call (EvJobGet "isDone") (job_get job "isDone") ;;
  doneProgress <- call (EvJobGet "doneProgress") (job_get job "doneProgress") ;;
  doneProgress <- lift (float_of_str doneProgress) ;;
  let doneProgress := float_mul_int doneProgress 100 in
  scanCount <- call (EvJobGet "scanCount") (job_get job "scanCount") ;;
  scanCount <- lift (int_of_str scanCount) ;;
  eventCount <- call (EvJobGet "eventCount") (job_get job "eventCount") ;;
  eventCount <- lift (int_of_str eventCount) ;;
  resultCount <- call (EvJobGet "resultCount") (job_get job "resultCount") ;;
  resultCount <- lift (int_of_str resultCount) ;;
  ret {| st_isDone := isDone;
         st_doneProgress := doneProgress;
         st_scanCount := scanCount;
         st_eventCount := eventCount;
         st_resultCount := resultCount |}.

Definition waiting_msg : string := "Search job created. Waiting for results...".
Definition completed_msg : string := "Search completed.".

(** [execute_search(service, query)] *)
Definition execute_search `{FloatOps} (w : World) (service : Service)
  (query : pyobj) (fuel : nat) : M unit :=
  job <- call (EvJobCreate query) (jobs_create service query) ;;
  logging_info waiting_msg ;;
  wait_ready w job fuel 0 ;;
  stats <- read_stats job ;;
  logging_info (progress_line stats) ;;
  if String.eqb (st_isDone stats) "1" then logging_info completed_msg
  else ret tt.

(** ** Command line

    [argparse] is given the options as found on the command line, each at
    most once.  Every error it reports ends the process through
    [parser.error], that is with status 2; when several options are wrong
    the one reported is the first on the command line, here the first in
    the order below.

    The options are those the script declares.  The built-in [-h] or
    [--help] is not among them: when [argparse] meets it, it prints the
    help and ends the process with status 0, and [main] goes no further;
    a command line with it performs no step of the script. *)
Record RawArgs : Type := {
  a_name : option string;
  a_host : option string;
  a_rule : option string;
  a_delete : bool;
  a_timer : option string;
  a_pipeline : option string
}.

Record Namespace : Type := {
  ns_name : string;
  ns_host : string;
  ns_rule : option string;
  ns_delete : bool;
  ns_timer : string;
  ns_pipeline : string
}.

Definition parser_error {A} (msg : string) : M A :=
  ([EvParserError msg], Exc (SystemExit 2)).

(** A value converted by the [type=] function of its option, [name]. *)
Definition arg_type (flag name : string) (type : string -> pyresult string)
  (v : string) : M string :=
  match type v with
  | Ok x => ret x
  | Raise (ArgumentTypeError m) => parser_error ("argument " ++ flag ++ ": " ++ m)
  | Raise (ValueError _) =>
      parser_error ("argument " ++ flag ++ ": invalid " ++ name ++ " value: '"
                    ++ v ++ "'")
  | Raise e => raise e
  end.

Definition default_host : string := "127.0.0.1:8089".
Definition default_timer : string := "*/30 * * * *".
Definition default_pipeline : string := "--without-pipeline".

Definition or_default (o : option string) (d : string) : string :=
  match o with
  | Some v => v
  | None => d
  end.

Definition parse_args (args : RawArgs) : M Namespace :=
  host <- arg_type "--host" "validate_host_port" validate_host_port
                   (or_default (a_host args) default_host) ;;
  (match a_rule args, a_delete args with
   | Some _, true =>
       parser_error "argument -d/--delete: not allowed with argument -r/--rule"
   | _, _ => ret tt
   end) ;;
  timer <- arg_type "-t/--timer" "validate_cron" validate_cron
                    (or_default (a_timer args) default_timer) ;;
  name <- (match a_name args with
           | Some n => ret n
           | None => parser_error "the following arguments are required: -n/--name"
           end) ;;
  (match a_rule args, a_delete args with
   | None, false =>
       parser_error "one of the arguments -r/--rule -d/--delete is required"
   | _, _ => ret tt
   end) ;;
  ret {| ns_name := name;
         ns_host := host;
         ns_rule := a_rule args;
         ns_delete := a_delete args;
         ns_timer := timer;
         ns_pipeline := or_default (a_pipeline args) default_pipeline |}.

(** [main()] *)
Definition main `{FloatOps} (w : World) (args : RawArgs) (fuel : nat) : M unit :=
  args <- parse_args args ;;
  '(username, password) <- get_credentials w ;;
  service <- connect_to_splunk w (ns_host args) username password ;;
  if ns_delete args then delete_saved_search service (ns_name args)
  else
    match ns_rule args with
    | Some (String c r) =>
        let rule := String c r in
        splunk_query <- convert_sigma_to_splunk w rule (ns_pipeline args) ;;
        search_query <- create_scheduled_search service (ns_name args) splunk_query
                                                 (ns_timer args) ;;
        execute_search w service search_query fuel
    | _ => ret tt
    end.

(** How the process ends. *)
Inductive status : Type :=
| Exit (code : Z)
| Traceback (e : exn)        (* an exception nobody caught *)
| Running.                   (* still polling when the fuel ran out *)

(** [if __name__ == "__main__": try: main() except KeyboardInterrupt: ...] *)
Definition interrupted_msg : string := "Script interrupted by user.".

Definition script `{FloatOps} (w : World) (args : RawArgs) (fuel : nat)
  : trace * status :=
  let '(t, r) :=
    try_except (main w args fuel)
      (fun e =>
         match e with
         | KeyboardInterrupt =>
             Some (logging_info interrupted_msg ;; sys_exit 1)
         | _ => None
         end) in
  (t, match r with
      | Ret _ => Exit 0
      | Exc (SystemExit c) => Exit c
      | Exc e => Traceback e
      | Spin => Running
      end).

(** ** A concrete interpreter and world, for running the script

    Exact decimal arithmetic stands for the floats: a number is
    [d_num / 10 ^ d_exp].  It agrees with binary floating point on plain
    literals whose value and product are representable, such as [1.0]
    and [0.5]. *)
Record decimal : Type := {
  d_num : Z;
  d_exp : nat
}.

Fixpoint digits_value (s : string) (acc : Z) : Z :=
  match s with
  | EmptyString => acc
  | String c r => digits_value r (10 * acc + digit_val c)
  end.

Definition decimal_parse (s : string) : option decimal :=
  let '(neg, body) :=
    match s with
    | String "-" r => (true, r)
    | _ => (false, s)
    end in
  let '(ip, fp) :=
    match split_first "." body with
    | Some (a, b) => (a, b)
    | None => (body, EmptyString)
    end in
  match ip with
  | EmptyString => None
  | _ =>
      if all_chars is_digit ip && all_chars is_digit fp then
        let v := digits_value (ip ++ fp) 0 in
        Some {| d_num := if neg then - v else v; d_exp := String.length fp |}
      else None
  end.

(** One digit after the point, ties to even. *)
Definition decimal_format1 (d : decimal) : string :=
  let den := 10 ^ Z.of_nat (d_exp d) in
  let num := d_num d * 10 in
  let fl := num / den in
  let rem := num mod den in
  let q := if (den <? 2 * rem) || ((2 * rem =? den) && Z.odd fl) then fl + 1 else fl in
  let a := Z.abs q in
  (if q <? 0 then "-" else "") ++ py_str_int (a / 10) ++ "." ++ py_str_int (a mod 10).

Definition decimal_floats : FloatOps := {|
  pyfloat := decimal;
  py_float := decimal_parse;
  float_mul_int := fun d n => {| d_num := d_num d * n; d_exp := d_exp d |};
  format_f1 := decimal_format1
|}.

(** A job that is ready at the third poll, with the given done flag. *)
Definition demo_job (isDone : string) : Job := {|
  job_is_ready := fun k => Ok (2 <=? k)%nat;
  job_get := fun key =>
    if String.eqb key "isDone" then Ok isDone
    else if String.eqb key "doneProgress" then Ok "1.0"
    else if String.eqb key "scanCount" then Ok "100"
    else if String.eqb key "eventCount" then Ok "5"
    else if String.eqb key "resultCount" then Ok "5"
    else Raise (KeyError key)
|}.

(** A service that answers [create] and [delete] with the given error,
    when there is one, and accepts them otherwise. *)
Definition make_service (create_error delete_error : option exn) (job : Job)
  : Service := {|
  saved_searches_create := fun name search cron sched descr =>
    match create_error with
    | Some e => Raise e
    | None =>
        Ok {| ss_name := name; ss_search := search; ss_cron_schedule := cron;
              ss_is_scheduled := sched; ss_description := descr |}
    end;
  saved_searches_delete := fun _ =>
    match delete_error with
    | Some e => Raise e
    | None => Ok tt
    end;
  jobs_create := fun _ => Ok job
|}.

Definition demo_service : Service := make_service None None (demo_job "1").

(** A world with credentials in the environment. *)
Definition make_world (connect : pyresult Service) (exec : exec_result)
  (sleep : nat -> pyresult unit) : World := {|
  w_getenv := fun k =>
    if String.eqb k "SPLUNK_USER" then Some "admin"
    else if String.eqb k "SPLUNK_PASS" then Some "changeme"
    else None;
  w_input := fun _ => Ok "admin";
  w_getpass := fun _ => Ok "changeme";
  w_connect := fun _ _ _ _ => connect;
  w_exec := fun _ => exec;
  w_sleep := sleep
|}.

(** The platform is reachable and the converter prints [foo=bar]. *)
Definition demo_world : World :=
  make_world (Ok demo_service) (ExecExited 0 "foo=bar
" "") (fun _ => Ok tt).

Definition demo_args : RawArgs := {|
  a_name := Some "alerts";
  a_host := Some "127.0.0.1:8089";
  a_rule := Some "r.yml";
  a_delete := false;
  a_timer := Some "*/30 * * * *";
  a_pipeline := None
|}.

Definition demo_delete_args : RawArgs := {|
  a_name := Some "alerts";
  a_host := None;
  a_rule := None;
  a_delete := true;
  a_timer := None;
  a_pipeline := None
|}.

Definition demo_namespace : Namespace := {|
  ns_name := "alerts";
  ns_host := "127.0.0.1:8089";
  ns_rule := Some "r.yml";
  ns_delete := false;
  ns_timer := "*/30 * * * *";
  ns_pipeline := "--without-pipeline"
|}.

Definition demo_delete_namespace : Namespace := {|
  ns_name := "alerts";
  ns_host := "127.0.0.1:8089";
  ns_rule := None;
  ns_delete := true;
  ns_timer := "*/30 * * * *";
  ns_pipeline := "--without-pipeline"
|}.

Definition demo_bad_timer_args : RawArgs := {|
  a_name := Some "alerts";
  a_host := None;
  a_rule := Some "r.yml";
  a_delete := false;
  a_timer := Some "every minute";
  a_pipeline := None
|}.

(** A world in which the second sleep of the polling loop is interrupted. *)
Definition interrupted_world : World :=
  make_world (Ok demo_service) (ExecExited 0 "foo=bar" "")
             (fun k => if (k =? 1)%nat then Raise KeyboardInterrupt else Ok tt).

(** What a run of [make_world] has done once it is connected. *)
Definition demo_prefix : trace :=
  [EvLoadDotenv; EvConnect "127.0.0.1" "8089" "admin" "changeme";
   EvLog INFO "Successfully connected to Splunk."].

(** ** Vocabulary of the properties *)

(** [s] has no occurrence of [c]. *)
Definition no_char (c : ascii) (s : string) : Prop :=
  all_chars (fun x => negb (Ascii.eqb x c)) s = true.

(** One decimal digit or more. *)
Definition digits1 (s : string) : Prop :=
  s <> EmptyString /\ all_chars is_digit s = true.

(** The words of a regular expression. *)
Inductive lang : regex -> string -> Prop :=
| LEps : lang ReEps EmptyString
| LChar c : lang (ReChar c) (String c EmptyString)
| LDigit c : is_digit c = true -> lang ReDigit (String c EmptyString)
| LCat r1 r2 s1 s2 : lang r1 s1 -> lang r2 s2 -> lang (ReCat r1 r2) (s1 ++ s2)
| LAltL r1 r2 s : lang r1 s -> lang (ReAlt r1 r2) s
| LAltR r1 r2 s : lang r2 s -> lang (ReAlt r1 r2) s
| LStarNil r : lang (ReStar r) EmptyString
| LStarApp r s1 s2 : lang r s1 -> lang (ReStar r) s2 -> lang (ReStar r) (s1 ++ s2).

(** The five shapes of a schedule field: [*], [N], [*/N], [N,N,...] and
    [A-B]. *)
Inductive cron_field_shape : string -> Prop :=
| ShapeStar : cron_field_shape "*"
| ShapeNumber n : digits1 n -> cron_field_shape n
| ShapeStep n : digits1 n -> cron_field_shape ("*/" ++ n)
| ShapeList n ns :
    digits1 n -> Forall digits1 ns ->
    cron_field_shape (n ++ fold_right String.append "" (map (fun x => "," ++ x) ns))
| ShapeRange a b : digits1 a -> digits1 b -> cron_field_shape (a ++ "-" ++ b).

(** A field of [split()]: not empty, no white space. *)
Definition is_field (f : string) : Prop :=
  f <> "" /\ all_chars (fun c => negb (is_space c)) f = true.

(** The steps of the create flow that follow the connection. *)
Definition create_steps `{FloatOps} (w : World) (service : Service)
  (name rule pipeline timer : string) (fuel : nat) : M unit :=
  splunk_query <- convert_sigma_to_splunk w rule pipeline ;;
  search_query <- create_scheduled_search service name splunk_query timer ;;
  execute_search w service search_query fuel.

(** [n] rounds of the polling loop that found the job not ready. *)
Fixpoint polls (n : nat) : trace :=
  match n with
  | O => []
  | S k => EvIsReady :: EvSleep 2 :: polls k
  end.

Definition is_connect (e : event) : bool :=
  match e with EvConnect _ _ _ _ => true | _ => false end.
Definition is_translate (e : event) : bool :=
  match e with EvSubprocessRun _ => true | _ => false end.
Definition is_create (e : event) : bool :=
  match e with EvSavedSearchCreate _ _ _ _ _ => true | _ => false end.
Definition is_submit (e : event) : bool :=
  match e with EvJobCreate _ => true | _ => false end.
Definition is_poll (e : event) : bool :=
  match e with EvIsReady => true | _ => false end.
Definition is_parser_error (e : event) : bool :=
  match e with EvParserError _ => true | _ => false end.

(** In [t], every event that satisfies [q] comes after one that
    satisfies [p]. *)
Definition always_preceded (p q : event -> bool) (t : trace) : Prop :=
  forall t1 e t2, t = (t1 ++ e :: t2)%list -> q e = true -> existsb p t1 = true.

(** The stage of the script an effect belongs to; log lines and raised
    exceptions have none. *)
Definition stage (e : event) : option nat :=
  match e with
  | EvParserError _ => Some 0%nat
  | EvLoadDotenv | EvInput _ | EvGetpass _ => Some 1%nat
  | EvConnect _ _ _ _ => Some 2%nat
  | EvSubprocessRun _ => Some 3%nat
  | EvSavedSearchCreate _ _ _ _ _ => Some 4%nat
  | EvJobCreate _ => Some 5%nat
  | EvIsReady | EvSleep _ => Some 6%nat
  | EvJobGet _ => Some 7%nat
  | EvSavedSearchDelete _ => Some 9%nat
  | EvLog _ _ | EvRaise _ => None
  end.

(** The stage that comes just before stage [k]: deleting (9) comes after
    connecting (2), as translating (3) does. *)
Definition before (k : nat) : nat :=
  match k with
  | 9%nat => 2%nat
  | S j => j
  | O => O
  end.

(** Reads [t] from stage [m]: each effect is of the current stage or of
    one that comes just after it.  [None] when an effect is out of
    order. *)
Fixpoint run_stage (m : nat) (t : trace) : option nat :=
  match t with
  | [] => Some m
  | e :: r =>
      match stage e with
      | None => run_stage m r
      | Some k =>
          if (k =? m)%nat || (before k =? m)%nat then run_stage k r else None
      end
  end.

Definition staged (t : trace) : Prop := exists k, run_stage 0 t = Some k.

(** [x] started at stage [m] performs its effects in order, and is at
    stage [m'] if it returns. *)
Definition accepts {A} (m : nat) (x : M A) (m' : nat) : Prop :=
  exists k, run_stage m (fst x) = Some k /\ (forall a, snd x = Ret a -> k = m').

Definition accepted {A} (m : nat) (x : M A) : Prop :=
  exists k, run_stage m (fst x) = Some k.

Definition has_stage (j : nat) (e : event) : bool :=
  match stage e with
  | Some k => (k =? j)%nat
  | None => false
  end.

(** What [main] does once the session is open. *)
Definition action `{FloatOps} (w : World) (service : Service) (ns : Namespace)
  (fuel : nat) : M unit :=
  if ns_delete ns then delete_saved_search service (ns_name ns)
  else
    match ns_rule ns with
    | Some (String c r) =>
        create_steps w service (ns_name ns) (String c r) (ns_pipeline ns)
                     (ns_timer ns) fuel
    | _ => ret tt
    end.

(** The command line is accepted as [ns], the credentials are obtained and
    the connection gives [service]; [t] is what has happened so far. *)
Definition connected (w : World) (args : RawArgs) (ns : Namespace)
  (service : Service) (t : trace) : Prop :=
  exists tc tk u p,
    parse_args args = ([], Ret ns)
    /\ get_credentials w = (tc, Ret (u, p))
    /\ connect_to_splunk w (ns_host ns) u p = (tk, Ret service)
    /\ t = (tc ++ tk)%list.

(** The last character of [s], or [d] when [s] is empty. *)
Fixpoint last_of (d : ascii) (s : string) : ascii :=
  match s with
  | EmptyString => d
  | String c r => last_of c r
  end.

Definition demo_saved_search : SavedSearch := {|
  ss_name := "alerts";
  ss_search := "search foo=bar";
  ss_cron_schedule := "*/30 * * * *";
  ss_is_scheduled := true;
  ss_description := search_description
|}.

(** The five reads of the metrics snapshot. *)
Definition snapshot_reads : trace :=
  [EvJobGet "isDone"; EvJobGet "doneProgress"; EvJobGet "scanCount";
   EvJobGet "eventCount"; EvJobGet "resultCount"].

(** An interruption raised by the world is the last thing [x] does, and
    [x] ends with it. *)
Definition propagates_interrupt {A} (x : M A) : Prop :=
  In (EvRaise KeyboardInterrupt) (fst x) ->
  exists t,
    fst x = (t ++ [EvRaise KeyboardInterrupt])%list
    /\ snd x = Exc KeyboardInterrupt.

(** ** Vocabulary of the further properties *)

(** The text of a comma list: [,n] for each [n] of [ns]. *)
Definition comma_items (ns : list string) : string :=
  fold_right String.append "" (map (fun x => "," ++ x) ns).

(** The characters a text that [int()] accepts can have. *)
Definition is_int_char (c : ascii) : bool :=
  is_int_space c || is_digit c || Ascii.eqb c "+" || Ascii.eqb c "-"
  || Ascii.eqb c "_".

(** Every effect of [x] satisfies [P]. *)
Definition only {A} (P : event -> Prop) (x : M A) : Prop := Forall P (fst x).

(** The variable [k] is set in the environment, and not to the empty
    string. *)
Definition env_set (w : World) (k : string) : bool :=
  match w_getenv w k with
  | Some (String _ _) => true
  | _ => false
  end.

Definition user_prompt : string := "Enter Splunk username: ".
Definition pass_prompt : string := "Enter Splunk password: ".
Definition connected_msg : string := "Successfully connected to Splunk.".

(** The options of a command line, with the defaults for those that are
    not given. *)
Definition host_of (args : RawArgs) : string := or_default (a_host args) default_host.
Definition timer_of (args : RawArgs) : string := or_default (a_timer args) default_timer.
Definition pipeline_of (args : RawArgs) : string :=
  or_default (a_pipeline args) default_pipeline.

(** The steps of the create flow. *)
Definition is_create_step (e : event) : bool :=
  match e with
  | EvSubprocessRun _ | EvSavedSearchCreate _ _ _ _ _ | EvJobCreate _
  | EvIsReady | EvSleep _ | EvJobGet _ => true
  | _ => false
  end.

(** A failure shows in the trace as an exception raised by the world, an
    error line of the log or a usage error. *)
Definition is_failure (e : event) : bool :=
  match e with
  | EvLog ERROR _ | EvRaise _ | EvParserError _ => true
  | _ => false
  end.

(** No failure in [t]. *)
Definition quiet (t : trace) : Prop :=
  forallb (fun e => negb (is_failure e)) t = true.

(** How [x] can end: without any failure; or on the first failure, which
    is an exception of the world, passed on or logged as an error before
    [sys.exit(1)]; or on a [ValueError] of its own. *)
Definition well_ended {A} (x : M A) : Prop :=
  match snd x with
  | Ret _ | Spin => quiet (fst x)
  | Exc e =>
      (exists t e' m,
         fst x = (t ++ [EvRaise e'; EvLog ERROR m])%list
         /\ e = SystemExit 1 /\ quiet t)
      \/ (exists t, fst x = (t ++ [EvRaise e])%list /\ quiet t)
      \/ ((exists m, e = ValueError m) /\ quiet (fst x))
  end.

(** [main] after the command line is accepted. *)
Definition after_parse `{FloatOps} (w : World) (ns : Namespace) (fuel : nat)
  : M unit :=
  '(username, password) <- get_credentials w ;;
  service <- connect_to_splunk w (ns_host ns) username password ;;
  action w service ns fuel.

(** The ways a run can end, with what it has done. *)
Inductive run_end : trace -> status -> Prop :=
| EndUsage m : run_end [EvParserError m] (Exit 2)
| EndSuccess t : quiet t -> run_end t (Exit 0)
| EndError t e m :
    quiet t -> run_end (t ++ [EvRaise e; EvLog ERROR m])%list (Exit 1)
| EndInterrupt t :
    quiet t ->
    run_end (t ++ [EvRaise KeyboardInterrupt; EvLog INFO interrupted_msg])%list
            (Exit 1)
| EndExit t c : quiet t -> run_end (t ++ [EvRaise (SystemExit c)])%list (Exit c)
| EndTraceback t e :
    quiet t -> e <> KeyboardInterrupt -> (forall c, e <> SystemExit c) ->
    run_end (t ++ [EvRaise e])%list (Traceback e)
| EndValueError t m : quiet t -> run_end t (Traceback (ValueError m))
| EndRunning t : quiet t -> run_end t Running.

(** The exceptions [connect_to_splunk] has an [except] clause for. *)
Definition connect_handles (e : exn) : bool :=
  match e with
  | ConnectionRefusedError _ | TimeoutError _ | AuthenticationError _ _ => true
  | _ => false
  end.

(** The one exception [delete_saved_search] has an [except] clause for. *)
Definition delete_handles (e : exn) : bool :=
  match e with
  | KeyError _ => true
  | _ => false
  end.

(** Neither [KeyboardInterrupt] nor [SystemExit]: an exception that ends
    the process with a traceback when nothing catches it. *)
Definition is_error (e : exn) : bool :=
  match e with
  | KeyboardInterrupt | SystemExit _ => false
  | _ => true
  end.

(** ** Further worlds and command lines, for running the script *)

(** A world without credentials in the environment: both are asked for. *)
Definition prompting_world : World := {|
  w_getenv := fun _ => None;
  w_input := fun _ => Ok "admin";
  w_getpass := fun _ => Ok "changeme";
  w_connect := fun _ _ _ _ => Ok demo_service;
  w_exec := fun _ => ExecNotFound;
  w_sleep := fun _ => Ok tt
|}.

(** A world whose platform refuses the connection. *)
Definition refusing_world : World :=
  make_world (Raise (ConnectionRefusedError "[Errno 111] Connection refused"))
             ExecNotFound (fun _ => Ok tt).

(** A world whose converter prints white space only. *)
Definition blank_world : World :=
  make_world (Ok demo_service) (ExecExited 0 "   " "") (fun _ => Ok tt).

(** A job that is never ready. *)
Definition never_ready_job : Job := {|
  job_is_ready := fun _ => Ok false;
  job_get := fun key => Raise (KeyError key)
|}.

(** [-r ''], and what it is parsed to. *)
Definition demo_empty_rule_args : RawArgs := {|
  a_name := Some "alerts";
  a_host := None;
  a_rule := Some "";
  a_delete := false;
  a_timer := None;
  a_pipeline := None
|}.

Definition demo_empty_rule_namespace : Namespace := {|
  ns_name := "alerts";
  ns_host := "127.0.0.1:8089";
  ns_rule := Some "";
  ns_delete := false;
  ns_timer := "*/30 * * * *";
  ns_pipeline := "--without-pipeline"
|}.


(** Two errors no [except] clause of the script is written for. *)
Definition name_error : exn :=
  OtherError "socket.gaierror" "[Errno -2] Name or service not known".
Definition forbidden : exn := HTTPError 403 "HTTP 403 Forbidden".

(** A world in which the host name does not resolve. *)
Definition unresolved_world : World :=
  make_world (Raise name_error) ExecNotFound (fun _ => Ok tt).

(** A world whose platform refuses to delete. *)
Definition forbidding_service : Service :=
  make_service None (Some forbidden) (demo_job "1").
Definition forbidding_world : World :=
  make_world (Ok forbidding_service) ExecNotFound (fun _ => Ok tt).

(** * Properties *)

(** ** Strings *)

Example py_split_ex : py_split "  */30 *	* *  * " = ["*/30"; "*"; "*"; "*"; "*"].
Proof. reflexivity. Qed.
Example py_int_ex :
  map py_int [" 8_089 "; "+1"; "-0"; "8__0"; "_8"; "8_"; ""; "abc"; "99999"]
  = [Some 8089; Some 1; Some 0; None; None; None; None; None; Some 99999].
Proof. reflexivity. Qed.
Example py_str_int_ex :
  map py_str_int [0; 7; 10; 65535; -120] = ["0"; "7"; "10"; "65535"; "-120"].
Proof. reflexivity. Qed.
Example py_strip_ex : py_strip "  a b
" = "a b".
Proof. reflexivity. Qed.

Lemma string_app_nil_r (s : string) : s ++ "" = s.
Proof. induction s; simpl; congruence. Qed.

Lemma string_app_assoc (a b c : string) : (a ++ b) ++ c = a ++ (b ++ c).
Proof. induction a; simpl; congruence. Qed.

Lemma all_chars_app p (a b : string) :
  all_chars p (a ++ b) = all_chars p a && all_chars p b.
Proof.
  induction a as [|c a IH]; simpl; [reflexivity|].
  rewrite IH. apply andb_assoc.
Qed.

Lemma split_first_none sep s :
  no_char sep s -> split_first sep s = None.
Proof.
  unfold no_char. induction s as [|c s IH]; simpl; [reflexivity|].
  intros H. apply andb_prop in H as [Hc Hs].
  apply negb_true_iff in Hc. rewrite Hc, (IH Hs). reflexivity.
Qed.

Lemma split_first_app sep h p :
  no_char sep h -> split_first sep (h ++ String sep p) = Some (h, p).
Proof.
  unfold no_char. induction h as [|c h IH]; simpl.
  - intros _. rewrite Ascii.eqb_refl. reflexivity.
  - intros H. apply andb_prop in H as [Hc Hs].
    apply negb_true_iff in Hc. rewrite Hc, (IH Hs). reflexivity.
Qed.

(** The converse: what [split_first] returns is the text before and after
    the first separator. *)
Lemma split_first_some sep s a b :
  split_first sep s = Some (a, b) -> s = a ++ String sep b /\ no_char sep a.
Proof.
  unfold no_char. revert a b. induction s as [|c s IH]; simpl; intros a b H.
  - discriminate.
  - destruct (Ascii.eqb c sep) eqn:E.
    + apply Ascii.eqb_eq in E. subst c. inversion H; subst. split; reflexivity.
    + destruct (split_first sep s) as [[a' b']|]; [|discriminate].
      inversion H; subst. destruct (IH a' b eq_refl) as [-> Hn].
      split; [reflexivity|]. simpl. rewrite E. exact Hn.
Qed.

(** ** Integers and their decimal text *)

Lemma digit_facts c :
  is_digit c = true ->
  is_int_space c = false /\ is_space c = false /\ Ascii.eqb c "+" = false
  /\ Ascii.eqb c "-" = false /\ Ascii.eqb c "_" = false
  /\ 0 <= digit_val c < 10.
Proof.
  destruct c as [[] [] [] [] [] [] [] []]; vm_compute; intros H;
    try discriminate H; repeat split; congruence.
Qed.

Lemma digit_char_spec d :
  0 <= d < 10 -> is_digit (digit_char d) = true /\ digit_val (digit_char d) = d.
Proof.
  intros H.
  assert (d = 0 \/ d = 1 \/ d = 2 \/ d = 3 \/ d = 4 \/ d = 5 \/ d = 6 \/ d = 7
          \/ d = 8 \/ d = 9) as E by lia.
  repeat (destruct E as [-> | E]; [split; reflexivity|]). subst; split; reflexivity.
Qed.

Lemma scan_digits_all s : forall acc n,
  all_chars is_digit s = true ->
  scan_digits s acc n false = Some (digits_value s acc, (n + String.length s)%nat, "").
Proof.
  induction s as [|c s IH]; simpl; intros acc n H.
  - rewrite Nat.add_0_r. reflexivity.
  - apply andb_prop in H as [Hc Hs]. rewrite Hc, (IH _ _ Hs).
    rewrite Nat.add_succ_r. reflexivity.
Qed.

Lemma parse_unsigned_digits s :
  digits1 s -> (String.length s <= max_str_digits)%nat ->
  parse_unsigned s = Some (digits_value s 0).
Proof.
  intros [Hne Hd] Hlen. destruct s as [|c s]; [congruence|].
  unfold parse_unsigned. rewrite (scan_digits_all _ _ _ Hd).
  simpl in Hd. apply andb_prop in Hd as [Hc _].
  destruct (digit_facts c Hc) as (_ & _ & _ & _ & -> & _).
  cbn [Nat.add Nat.eqb String.length].
  destruct (Nat.ltb_spec max_str_digits (S (String.length s))) as [Hlt|_].
  - simpl in Hlen. lia.
  - reflexivity.
Qed.

Lemma py_int_digits s :
  digits1 s -> (String.length s <= max_str_digits)%nat ->
  py_int s = Some (digits_value s 0).
Proof.
  intros Hd Hlen. pose proof (parse_unsigned_digits s Hd Hlen) as HP.
  destruct Hd as [Hne Hd]. destruct s as [|c s]; [congruence|].
  simpl in Hd. apply andb_prop in Hd as [Hc _].
  destruct (digit_facts c Hc) as (Hsp & _ & Hp & Hm & _).
  unfold py_int. simpl lstrip. rewrite Hsp, Hp, Hm. exact HP.
Qed.


Lemma nat_digits_value fuel : forall n acc,
  0 <= n < 2 ^ Z.of_nat fuel ->
  digits_value (nat_digits fuel n acc) 0 = digits_value acc n.
Proof.
  induction fuel as [|f IH]; intros n acc H.
  - simpl in H. assert (n = 0) by lia. subst. reflexivity.
  - cbn [nat_digits]. 
    assert (Hm : 0 <= n mod 10 < 10) by (apply Z.mod_pos_bound; lia).
    destruct (digit_char_spec _ Hm) as [_ Hv].
    destruct (Z.ltb_spec n 10) as [Hlt|Hge].
    + cbn [digits_value]. rewrite Hv, Z.mod_small by lia. reflexivity.
    + rewrite IH.
      * cbn [digits_value]. rewrite Hv. f_equal. pose proof (Z.div_mod n 10). lia.
      * rewrite Nat2Z.inj_succ, Z.pow_succ_r in H by lia.
        split; [apply Z.div_pos; lia|].
        apply Z.div_lt_upper_bound; lia.
Qed.

Lemma nat_digits_all fuel : forall n acc,
  0 <= n -> all_chars is_digit acc = true ->
  all_chars is_digit (nat_digits fuel n acc) = true.
Proof.
  induction fuel as [|f IH]; intros n acc Hn Hacc; [exact Hacc|].
  cbn [nat_digits].
  assert (Hm : 0 <= n mod 10 < 10) by (apply Z.mod_pos_bound; lia).
  destruct (digit_char_spec _ Hm) as [Hd _].
  destruct (n <? 10).
  - simpl. rewrite Hd. exact Hacc.
  - apply IH; [apply Z.div_pos; lia|]. simpl. rewrite Hd. exact Hacc.
Qed.

Lemma nat_digits_length fuel : forall n acc,
  (String.length acc < String.length (nat_digits (S fuel) n acc)
   <= S fuel + String.length acc)%nat.
Proof.
  induction fuel as [|f IH]; intros n acc.
  - simpl. destruct (n <? 10); simpl; lia.
  - cbn [nat_digits]. destruct (n <? 10).
    + simpl. lia.
    + specialize (IH (n / 10) (String (digit_char (n mod 10)) acc)).
      cbn [nat_digits] in IH. simpl String.length in IH. lia.
Qed.

Lemma log2_fuel n : 0 <= n -> 0 <= n < 2 ^ Z.of_nat (S (Z.to_nat (Z.log2 n))).
Proof.
  intros Hn. split; [exact Hn|].
  rewrite Nat2Z.inj_succ, Z2Nat.id by apply Z.log2_nonneg.
  destruct (Z.eq_dec n 0) as [->|Hz]; [reflexivity|].
  assert (Hpos : 0 < n) by lia.
  destruct (Z.log2_spec n Hpos) as [_ H]. exact H.
Qed.

(** The text of a non-negative integer: digits only, at least one, and
    [int()] reads the integer back while the text is short enough. *)
Lemma py_str_int_digits n :
  0 <= n -> digits1 (py_str_int n) /\ digits_value (py_str_int n) 0 = n.
Proof.
  intros Hn. unfold py_str_int.
  destruct (Z.ltb_spec n 0) as [?|_]; [lia|].
  split; [split|].
  - pose proof (nat_digits_length (Z.to_nat (Z.log2 n)) n "") as HL.
    intros E. rewrite E in HL. cbn [String.length] in HL. lia.
  - apply nat_digits_all; [exact Hn|reflexivity].
  - rewrite nat_digits_value by (apply log2_fuel; exact Hn). reflexivity.
Qed.

Lemma py_str_int_length n :
  0 <= n -> (String.length (py_str_int n) <= S (Z.to_nat (Z.log2 n)))%nat.
Proof.
  intros Hn. unfold py_str_int.
  destruct (Z.ltb_spec n 0) as [?|_]; [lia|].
  pose proof (nat_digits_length (Z.to_nat (Z.log2 n)) n "") as HL.
  change (String.length "") with 0%nat in HL. lia.
Qed.

Lemma py_int_py_str_int n :
  0 <= n < 2 ^ 4299 -> py_int (py_str_int n) = Some n.
Proof.
  intros [Hn Hlt].
  destruct (py_str_int_digits n Hn) as [Hd Hv].
  rewrite py_int_digits, Hv; [reflexivity|exact Hd|].
  pose proof (py_str_int_length n Hn) as HL.
  assert (Z.log2 n < 4299).
  { destruct (Z.eq_dec n 0) as [->|Hz]; [reflexivity|].
    apply Z.log2_lt_pow2; lia. }
  unfold max_str_digits.
  pose proof (Z.log2_nonneg n). lia.
Qed.

(** ** Endpoint validation *)

Lemma validate_host_port_split h p :
  no_char ":" h ->
  validate_host_port (h ++ ":" ++ p) =
  match py_int p with
  | Some port =>
      if (1 <=? port) && (port <=? 65535) then Ok (h ++ ":" ++ p)
      else Raise (ArgumentTypeError (port_range_msg p))
  | None => Raise (ArgumentTypeError (port_int_msg p))
  end.
Proof.
  intros Hh. unfold validate_host_port, py_split1.
  change (h ++ ":" ++ p) with (h ++ String ":" p).
  rewrite (split_first_app _ _ _ Hh).
  destruct (py_int p) as [port|]; [|reflexivity].
  destruct ((1 <=? port) && (port <=? 65535)); reflexivity.
Qed.

(** Every address either has no colon or is a colon-free host, a colon
    and a port segment. *)
Lemma colon_cases s :
  no_char ":" s \/ exists h p, s = h ++ ":" ++ p /\ no_char ":" h.
Proof.
  destruct (split_first ":" s) as [[h p]|] eqn:E.
  - right. exists h, p. apply split_first_some in E. exact E.
  - left. unfold no_char. induction s as [|c s IH]; [reflexivity|].
    simpl in E |- *. destruct (Ascii.eqb c ":"); [discriminate|].
    destruct (split_first ":" s) as [[a b]|]; [discriminate|].
    apply IH. reflexivity.
Qed.

(** C5: [validate_host_port] splits at the first colon; it fails when
    there is no colon, when the port segment is not an integer, and when
    the port is outside 1..65535; otherwise it returns the address as it
    was given.  ["127.0.0.1:8089"] is accepted; ["host"], ["host:99999"]
    and ["host:abc"] are refused. *)
Theorem validate_host_port_cases :
  (forall s, no_char ":" s ->
     validate_host_port s = Raise (ArgumentTypeError host_format_msg))
  /\ (forall h p, no_char ":" h -> py_int p = None ->
        validate_host_port (h ++ ":" ++ p)
        = Raise (ArgumentTypeError (port_int_msg p)))
  /\ (forall h p n, no_char ":" h -> py_int p = Some n -> ~ 1 <= n <= 65535 ->
        validate_host_port (h ++ ":" ++ p)
        = Raise (ArgumentTypeError (port_range_msg p)))
  /\ (forall h p n, no_char ":" h -> py_int p = Some n -> 1 <= n <= 65535 ->
        validate_host_port (h ++ ":" ++ p) = Ok (h ++ ":" ++ p))
  /\ validate_host_port "127.0.0.1:8089" = Ok "127.0.0.1:8089"
  /\ validate_host_port "host" = Raise (ArgumentTypeError host_format_msg)
  /\ validate_host_port "host:99999"
     = Raise (ArgumentTypeError (port_range_msg "99999"))
  /\ validate_host_port "host:abc" = Raise (ArgumentTypeError (port_int_msg "abc")).
Proof.
  repeat split; try reflexivity.
  - intros s Hs. unfold validate_host_port, py_split1.
    rewrite (split_first_none _ _ Hs). reflexivity.
  - intros h p Hh Hp. rewrite (validate_host_port_split _ _ Hh), Hp. reflexivity.
  - intros h p n Hh Hp Hn. rewrite (validate_host_port_split _ _ Hh), Hp.
    destruct (Z.leb_spec 1 n), (Z.leb_spec n 65535); simpl; try reflexivity; lia.
  - intros h p n Hh Hp Hn. rewrite (validate_host_port_split _ _ Hh), Hp.
    destruct (Z.leb_spec 1 n), (Z.leb_spec n 65535); simpl; try reflexivity; lia.
Qed.

Lemma validate_host_port_cases_witness :
  validate_host_port "localhost" = Raise (ArgumentTypeError host_format_msg)
  /\ validate_host_port ("localhost" ++ ":" ++ "80 80")
     = Raise (ArgumentTypeError (port_int_msg "80 80"))
  /\ validate_host_port ("localhost" ++ ":" ++ "0")
     = Raise (ArgumentTypeError (port_range_msg "0"))
  /\ validate_host_port ("localhost" ++ ":" ++ "8_089")
     = Ok ("localhost" ++ ":" ++ "8_089").
Proof.
  destruct validate_host_port_cases as (H1 & H2 & H3 & H4 & _).
  split; [|split; [|split]].
  - apply H1. reflexivity.
  - apply H2; reflexivity.
  - apply (H3 _ _ 0); [reflexivity | reflexivity | lia].
  - apply (H4 _ _ 8089); [reflexivity | reflexivity | lia].
Defined.

(** C10: the host part is not examined: a colon-free host, the empty one
    included, followed by a colon and the decimal text of a port in
    1..65535 is accepted and returned as it was given. *)
Theorem validate_host_port_any_host (host : string) (p : Z) :
  no_char ":" host -> 1 <= p <= 65535 ->
  validate_host_port (host ++ ":" ++ py_str_int p) = Ok (host ++ ":" ++ py_str_int p).
Proof.
  intros Hh Hp. rewrite (validate_host_port_split _ _ Hh).
  rewrite py_int_py_str_int.
  - destruct (Z.leb_spec 1 p), (Z.leb_spec p 65535); simpl; try reflexivity; lia.
  - split; [lia|]. apply Z.lt_trans with (2 ^ 16); [lia|].
    apply Z.pow_lt_mono_r; lia.
Qed.

Lemma validate_host_port_any_host_witness :
  validate_host_port ("" ++ ":" ++ py_str_int 8089) = Ok ("" ++ ":" ++ py_str_int 8089).
Proof.
  apply validate_host_port_any_host; [reflexivity | lia].
Defined.

(** ** The derivative matcher decides the language *)

Lemma string_app_eq_nil (a b : string) : a ++ b = "" -> a = "" /\ b = "".
Proof. destruct a; simpl; [intros ->; split; reflexivity | discriminate]. Qed.

Lemma lang_nil_nullable r s : lang r s -> s = "" -> nullable r = true.
Proof.
  induction 1; intros E; simpl; try discriminate; try reflexivity.
  - apply string_app_eq_nil in E as [E1 E2].
    rewrite IHlang1, IHlang2 by assumption. reflexivity.
  - rewrite IHlang by assumption. reflexivity.
  - rewrite IHlang by assumption. apply orb_true_r.
Qed.

Lemma nullable_lang_nil r : nullable r = true -> lang r "".
Proof.
  induction r; simpl; intros H; try discriminate.
  - constructor.
  - apply andb_prop in H as [H1 H2].
    change "" with ("" ++ ""). constructor; auto.
  - apply orb_prop in H as [H|H]; [apply LAltL | apply LAltR]; auto.
  - constructor.
Qed.

Lemma lang_cat_deriv c r1 r2 s :
  lang (ReCat (deriv c r1) r2) s -> lang (deriv c (ReCat r1 r2)) s.
Proof.
  intros H. simpl. destruct (nullable r1); [apply LAltL|]; exact H.
Qed.

Lemma lang_deriv r w : lang r w -> forall c s, w = String c s -> lang (deriv c r) s.
Proof.
  induction 1; intros a t E; try discriminate.
  - inversion E; subst. simpl. rewrite Ascii.eqb_refl. constructor.
  - inversion E; subst. simpl. rewrite H. constructor.
  - destruct s1 as [|c1 s1]; simpl in E.
    + subst s2. simpl.
      rewrite (lang_nil_nullable _ _ H eq_refl). apply LAltR. eauto.
    + inversion E; subst. apply lang_cat_deriv. constructor; eauto.
  - simpl. apply LAltL. eauto.
  - simpl. apply LAltR. eauto.
  - destruct s1 as [|c1 s1]; simpl in E.
    + subst s2. eauto.
    + inversion E; subst. simpl. constructor; eauto.
Qed.

Lemma deriv_lang c r : forall s, lang (deriv c r) s -> lang r (String c s).
Proof.
  induction r; simpl; intros s H.
  - inversion H.
  - inversion H.
  - destruct (Ascii.eqb c c0) eqn:E; inversion H; subst.
    apply Ascii.eqb_eq in E. subst. constructor.
  - destruct (is_digit c) eqn:E; inversion H; subst. constructor. exact E.
  - assert (HC : forall t, lang (ReCat (deriv c r1) r2) t -> lang (ReCat r1 r2) (String c t)).
    { intros t Ht. inversion Ht; subst.
      change (String c (s1 ++ s2)) with (String c s1 ++ s2). constructor; auto. }
    destruct (nullable r1) eqn:N; [|auto].
    inversion H; subst; [auto|].
    change (String c s) with ("" ++ String c s).
    constructor; [apply nullable_lang_nil; exact N | auto].
  - inversion H; subst; [apply LAltL | apply LAltR]; auto.
  - inversion H; subst.
    change (String c (s1 ++ s2)) with (String c s1 ++ s2). constructor; auto.
Qed.

Theorem re_fullmatch_lang s : forall r, re_fullmatch r s = true <-> lang r s.
Proof.
  induction s as [|c s IH]; intros r; simpl.
  - split; [apply nullable_lang_nil | intros H; exact (lang_nil_nullable _ _ H eq_refl)].
  - rewrite IH. split; [apply deriv_lang | intros H; exact (lang_deriv _ _ H _ _ eq_refl)].
Qed.

(** ** Schedule fields *)

Lemma lang_star_digits s : all_chars is_digit s = true -> lang (ReStar ReDigit) s.
Proof.
  induction s as [|c s IH]; simpl; intros H; [constructor|].
  apply andb_prop in H as [Hc Hs].
  change (String c s) with (String c "" ++ s).
  constructor; [constructor; exact Hc | auto].
Qed.

Lemma lang_digits s : digits1 s -> lang digits s.
Proof.
  intros [Hne H]. destruct s as [|c s]; [congruence|].
  simpl in H. apply andb_prop in H as [Hc Hs].
  change (String c s) with (String c "" ++ s).
  constructor; [constructor; exact Hc | apply lang_star_digits; exact Hs].
Qed.

Lemma lang_comma_list ns :
  Forall digits1 ns ->
  lang (ReStar (ReCat (ReChar ",") digits))
       (fold_right String.append "" (map (fun x => "," ++ x) ns)).
Proof.
  induction 1 as [|n ns Hn _ IH]; cbn [map fold_right]; [constructor|].
  constructor; [|exact IH].
  constructor; [constructor | apply lang_digits; exact Hn].
Qed.

Lemma shape_lang s : cron_field_shape s -> lang cron_pattern s.
Proof.
  unfold cron_pattern. intros H. destruct H as [|n Hn|n Hn|n ns Hn Hns|a b Ha Hb].
  - apply LAltL. constructor.
  - apply LAltR, LAltL. apply lang_digits; exact Hn.
  - apply LAltR, LAltR, LAltL.
    change ("*/" ++ n) with ("*" ++ ("/" ++ n)).
    constructor; [constructor|]. constructor; [constructor | apply lang_digits; exact Hn].
  - apply LAltR, LAltR, LAltR, LAltL.
    constructor; [apply lang_digits; exact Hn | apply lang_comma_list; exact Hns].
  - apply LAltR, LAltR, LAltR, LAltR.
    constructor; [apply lang_digits; exact Ha|].
    constructor; [constructor | apply lang_digits; exact Hb].
Qed.

Lemma shape_matches s : cron_field_shape s -> re_match_anchored cron_pattern s = true.
Proof.
  intros H. unfold re_match_anchored.
  apply shape_lang, re_fullmatch_lang in H. rewrite H. reflexivity.
Qed.

Lemma check_fields_shapes parts :
  Forall cron_field_shape parts -> check_fields parts = Ok tt.
Proof.
  induction 1 as [|p parts Hp _ IH]; simpl; [reflexivity|].
  rewrite (shape_matches _ Hp). exact IH.
Qed.

(** [strip()] before [split()] changes nothing. *)
Lemma split_ws_lstrip s : split_ws "" (lstrip is_space s) = split_ws "" s.
Proof.
  induction s as [|c s IH]; [reflexivity|].
  simpl. destruct (is_space c) eqn:E; [exact IH|].
  simpl. rewrite E. reflexivity.
Qed.

Lemma split_ws_rstrip s : forall cur,
  split_ws cur (rstrip is_space s) = split_ws cur s.
Proof.
  induction s as [|c s IH]; intros cur; [reflexivity|].
  cbn [rstrip]. destruct (rstrip is_space s) as [|c' r'] eqn:R.
  - destruct (is_space c) eqn:E.
    + cbn [split_ws]. rewrite E, <- (IH ""). reflexivity.
    + cbn [split_ws]. rewrite E, <- (IH (String c cur)). reflexivity.
  - remember (String c' r') as r0 eqn:R0. clear R0.
    cbn [split_ws]. destruct (is_space c); rewrite IH; reflexivity.
Qed.

Lemma py_split_strip s : py_split (py_strip s) = py_split s.
Proof.
  unfold py_split, py_strip. rewrite split_ws_rstrip. apply split_ws_lstrip.
Qed.

Lemma validate_cron_count timer :
  List.length (py_split timer) <> 5%nat ->
  validate_cron timer = Raise (ArgumentTypeError cron_count_msg).
Proof.
  unfold validate_cron. rewrite py_split_strip.
  intros H. apply Nat.eqb_neq in H. rewrite H. reflexivity.
Qed.

Lemma validate_cron_accepts timer :
  List.length (py_split timer) = 5%nat ->
  Forall cron_field_shape (py_split timer) ->
  validate_cron timer = Ok timer.
Proof.
  unfold validate_cron. rewrite py_split_strip.
  intros H HF. apply Nat.eqb_eq in H. rewrite H. simpl.
  rewrite (check_fields_shapes _ HF). reflexivity.
Qed.

(** C4: a schedule whose number of white-space separated fields is not 5
    is refused; one with five fields, each of one of the shapes [*], [N],
    [*/N], [N,N,...] or [A-B], is accepted and returned as it was given. *)
Theorem validate_cron_spec (timer : string) :
  (List.length (py_split timer) <> 5%nat ->
   validate_cron timer = Raise (ArgumentTypeError cron_count_msg))
  /\ (List.length (py_split timer) = 5%nat ->
      Forall cron_field_shape (py_split timer) ->
      validate_cron timer = Ok timer).
Proof.
  split; [apply validate_cron_count | apply validate_cron_accepts].
Qed.

Lemma validate_cron_spec_witness :
  validate_cron "* * * *" = Raise (ArgumentTypeError cron_count_msg)
  /\ validate_cron "*/30 1,15 2-5 7 *" = Ok "*/30 1,15 2-5 7 *".
Proof.
  assert (D : forall s, all_chars is_digit s = true -> s <> "" -> digits1 s)
    by (intros s H1 H2; split; assumption).
  split.
  - apply (validate_cron_spec "* * * *"). vm_compute. discriminate.
  - apply (validate_cron_spec "*/30 1,15 2-5 7 *"); [reflexivity|].
    change (py_split "*/30 1,15 2-5 7 *") with ["*/30"; "1,15"; "2-5"; "7"; "*"].
    apply Forall_cons; [|apply Forall_cons; [|apply Forall_cons;
      [|apply Forall_cons; [|apply Forall_cons; [|apply Forall_nil]]]]].
    + apply (ShapeStep "30"). apply D; [reflexivity|discriminate].
    + apply (ShapeList "1" ["15"]).
      * apply D; [reflexivity|discriminate].
      * apply Forall_cons; [|apply Forall_nil]. apply D; [reflexivity|discriminate].
    + apply (ShapeRange "2" "5"); apply D; (reflexivity || discriminate).
    + apply ShapeNumber. apply D; [reflexivity|discriminate].
    + apply ShapeStar.
Defined.

(** [split()] gives back the fields that were joined with spaces. *)
Lemma rev_string_rev s : forall a b,
  rev_string a (rev_string b s) = rev_string (s ++ a) b.
Proof.
  induction s as [|c s IH]; intros a b; [reflexivity|].
  simpl. rewrite IH. reflexivity.
Qed.

Lemma rev_string_nonempty s : forall a, a <> "" -> rev_string a s <> "".
Proof.
  induction s as [|c s IH]; intros a Ha; [exact Ha|].
  simpl. apply IH. discriminate.
Qed.

Lemma split_ws_field f : forall cur rest,
  all_chars (fun c => negb (is_space c)) f = true ->
  split_ws cur (f ++ rest) = split_ws (rev_string cur f) rest.
Proof.
  induction f as [|c f IH]; intros cur rest H; [reflexivity|].
  simpl in H. apply andb_prop in H as [Hc Hf]. apply negb_true_iff in Hc.
  simpl. rewrite Hc. apply IH. exact Hf.
Qed.

Lemma flush_field f k : f <> "" -> flush (rev_string "" f) k = f :: k.
Proof.
  intros Hf. unfold flush.
  destruct (rev_string "" f) as [|c r] eqn:E.
  - destruct f as [|c f]; [congruence|]. simpl in E.
    exfalso. revert E. apply rev_string_nonempty. discriminate.
  - rewrite <- E, rev_string_rev, string_app_nil_r. reflexivity.
Qed.

Lemma py_split_concat fs :
  Forall is_field fs -> py_split (String.concat " " fs) = fs.
Proof.
  unfold py_split. induction 1 as [|f fs [Hne Hf] HF IH]; [reflexivity|].
  destruct fs as [|g fs].
  - simpl. rewrite <- (string_app_nil_r f) at 1.
    rewrite split_ws_field by exact Hf. simpl. apply flush_field. exact Hne.
  - change (String.concat " " (f :: g :: fs))
      with (f ++ String " " (String.concat " " (g :: fs))).
    rewrite split_ws_field by exact Hf.
    cbn [split_ws]. change (is_space " ") with true. cbv iota.
    rewrite IH. apply flush_field. exact Hne.
Qed.

Lemma digits_no_space s :
  all_chars is_digit s = true -> all_chars (fun c => negb (is_space c)) s = true.
Proof.
  induction s as [|c s IH]; simpl; intros H; [reflexivity|].
  apply andb_prop in H as [Hc Hs].
  destruct (digit_facts c Hc) as (_ & -> & _). simpl. auto.
Qed.

Lemma string_app_nonempty (a b : string) : a <> "" -> a ++ b <> "".
Proof. destruct a; [congruence | discriminate]. Qed.

Lemma shape_is_field f : cron_field_shape f -> is_field f.
Proof.
  intros H. destruct H as [|n [Hne Hn]|n [Hne Hn]|n ns [Hne Hn] Hns|a b [Hne Ha] [_ Hb]].
  - split; [discriminate|reflexivity].
  - split; [exact Hne | apply digits_no_space; exact Hn].
  - split; [discriminate|]. simpl. apply digits_no_space; exact Hn.
  - split; [apply string_app_nonempty; exact Hne|].
    rewrite all_chars_app, (digits_no_space _ Hn). simpl.
    induction Hns as [|m ms [_ Hm] _ IH]; [reflexivity|].
    cbn [map fold_right]. rewrite all_chars_app, IH, andb_true_r.
    simpl. apply digits_no_space; exact Hm.
  - split; [apply string_app_nonempty; exact Hne|].
    rewrite all_chars_app, (digits_no_space _ Ha). simpl.
    apply digits_no_space; exact Hb.
Qed.

(** Five fields of the right shapes, written with single spaces between
    them, are a schedule that [validate_cron] accepts. *)
Corollary validate_cron_five_fields f1 f2 f3 f4 f5 :
  Forall cron_field_shape [f1; f2; f3; f4; f5] ->
  validate_cron (String.concat " " [f1; f2; f3; f4; f5])
  = Ok (String.concat " " [f1; f2; f3; f4; f5]).
Proof.
  intros HF.
  assert (E : py_split (String.concat " " [f1; f2; f3; f4; f5]) = [f1; f2; f3; f4; f5]).
  { apply py_split_concat. eapply Forall_impl; [|exact HF]. apply shape_is_field. }
  apply validate_cron_accepts; rewrite E; [reflexivity | exact HF].
Qed.

(** ** Effects *)

Section Effects.
Context `{FloatOps}.

Lemma bind_ret_l {A B} (t : trace) (a : A) (f : A -> M B) :
  bind (t, Ret a) f = ((t ++ fst (f a))%list, snd (f a)).
Proof. simpl. destruct (f a). reflexivity. Qed.

Lemma bind_trace {A B} (m : M A) (f : A -> M B) :
  fst (bind m f) =
  (fst m ++ match snd m with Ret a => fst (f a) | _ => [] end)%list.
Proof.
  destruct m as [t [a|e|]]; simpl.
  - destruct (f a). reflexivity.
  - symmetry. apply app_nil_r.
  - symmetry. apply app_nil_r.
Qed.

Lemma call_ok {A} ev (r : pyresult A) a : r = Ok a -> call ev r = ([ev], Ret a).
Proof. intros ->. reflexivity. Qed.

Lemma call_raise {A} ev (r : pyresult A) e :
  r = Raise e -> call ev r = ([ev; EvRaise e], Exc e).
Proof. intros ->. reflexivity. Qed.

(** ** The converter call *)

(** C6: the converter is started as [sigma convert -t splunk -f default
    <rule_path>], then [-p <pipeline>] unless the pipeline is the value
    [--without-pipeline], then [--without-pipeline] in both cases; this is
    the first effect of the translation and its only process. *)
Theorem convert_command (w : World) (rule_path pipeline : string) :
  (pipeline = "--without-pipeline" ->
   sigma_command rule_path pipeline
   = ["sigma"; "convert"; "-t"; "splunk"; "-f"; "default"; rule_path;
      "--without-pipeline"])
  /\ (pipeline <> "--without-pipeline" ->
      sigma_command rule_path pipeline
      = ["sigma"; "convert"; "-t"; "splunk"; "-f"; "default"; rule_path;
         "-p"; pipeline; "--without-pipeline"])
  /\ exists rest,
      fst (convert_sigma_to_splunk w rule_path pipeline)
      = EvSubprocessRun (sigma_command rule_path pipeline) :: rest
      /\ forallb (fun e => negb (is_translate e)) rest = true.
Proof.
  split; [|split].
  - intros ->. reflexivity.
  - intros Hp. unfold sigma_command.
    apply String.eqb_neq in Hp. rewrite Hp. reflexivity.
  - unfold convert_sigma_to_splunk, subprocess_run.
    destruct (w_exec w (sigma_command rule_path pipeline)) as [|rc out err|e].
    + eexists. split; reflexivity.
    + simpl. destruct (rc =? 0); eexists; split; reflexivity.
    + destruct e; eexists; split; reflexivity.
Qed.

Lemma convert_command_witness :
  sigma_command "r.yml" "--without-pipeline"
  = ["sigma"; "convert"; "-t"; "splunk"; "-f"; "default"; "r.yml";
     "--without-pipeline"]
  /\ sigma_command "r.yml" "sysmon"
     = ["sigma"; "convert"; "-t"; "splunk"; "-f"; "default"; "r.yml";
        "-p"; "sysmon"; "--without-pipeline"].
Proof.
  split.
  - apply (convert_command demo_world "r.yml" "--without-pipeline"). reflexivity.
  - apply (convert_command demo_world "r.yml" "sysmon"). discriminate.
Defined.

(** ** From [main] to the exit status *)

Lemma main_connected w args ns service t fuel :
  connected w args ns service t ->
  main w args fuel
  = ((t ++ fst (action w service ns fuel))%list, snd (action w service ns fuel)).
Proof.
  intros (tc & tk & u & p & Hp & Hc & Hk & ->).
  unfold main. rewrite Hp. rewrite bind_ret_l. cbn [app].
  rewrite Hc, bind_ret_l. cbn beta iota.
  rewrite Hk, bind_ret_l. cbn [fst snd].
  fold (action w service ns fuel).
  rewrite app_assoc. reflexivity.
Qed.

Lemma script_exit w args fuel t c :
  main w args fuel = (t, Exc (SystemExit c)) -> script w args fuel = (t, Exit c).
Proof. unfold script. intros ->. reflexivity. Qed.

Lemma script_success w args fuel t :
  main w args fuel = (t, Ret tt) -> script w args fuel = (t, Exit 0).
Proof. unfold script. intros ->. reflexivity. Qed.

Lemma script_interrupt w args fuel t :
  main w args fuel = (t, Exc KeyboardInterrupt) ->
  script w args fuel
  = ((t ++ [EvLog INFO interrupted_msg])%list, Exit 1).
Proof. unfold script. intros ->. reflexivity. Qed.

Lemma script_action_exit w args ns service t fuel c :
  connected w args ns service t ->
  snd (action w service ns fuel) = Exc (SystemExit c) ->
  snd (script w args fuel) = Exit c.
Proof.
  intros Hc Ha. pose proof (main_connected _ _ _ _ _ fuel Hc) as Hm.
  rewrite Ha in Hm. rewrite (script_exit _ _ _ _ _ Hm). reflexivity.
Qed.

(** ** Translation outcomes *)

Lemma convert_ok w rule pipeline out err :
  w_exec w (sigma_command rule pipeline) = ExecExited 0 out err ->
  convert_sigma_to_splunk w rule pipeline
  = ([EvSubprocessRun (sigma_command rule pipeline);
      EvLog INFO ("Generated Splunk query: " ++ py_strip out)],
     Ret (py_strip out)).
Proof.
  intros E. unfold convert_sigma_to_splunk, subprocess_run. rewrite E. reflexivity.
Qed.

Lemma convert_failed w rule pipeline rc out err :
  rc <> 0 ->
  w_exec w (sigma_command rule pipeline) = ExecExited rc out err ->
  convert_sigma_to_splunk w rule pipeline
  = ([EvSubprocessRun (sigma_command rule pipeline);
      EvRaise (CalledProcessError rc err);
      EvLog ERROR ("Sigma conversion failed: " ++ err)],
     Exc (SystemExit 1)).
Proof.
  intros Hrc E. unfold convert_sigma_to_splunk, subprocess_run. rewrite E.
  apply Z.eqb_neq in Hrc. rewrite Hrc. reflexivity.
Qed.

Lemma convert_not_found w rule pipeline :
  w_exec w (sigma_command rule pipeline) = ExecNotFound ->
  convert_sigma_to_splunk w rule pipeline
  = ([EvSubprocessRun (sigma_command rule pipeline);
      EvRaise (FileNotFoundError sigma_errno_msg);
      EvLog ERROR sigma_not_found_msg],
     Exc (SystemExit 1)).
Proof.
  intros E. unfold convert_sigma_to_splunk, subprocess_run. rewrite E. reflexivity.
Qed.

Lemma action_create_flow w service ns fuel rule :
  ns_delete ns = false -> ns_rule ns = Some rule -> rule <> "" ->
  action w service ns fuel
  = create_steps w service (ns_name ns) rule (ns_pipeline ns) (ns_timer ns) fuel.
Proof.
  intros Hd Hr Hne. unfold action. rewrite Hd, Hr.
  destruct rule; [congruence | reflexivity].
Qed.

(** C7: when the converter exits with status 0 the translation returns
    its standard output without the surrounding white space; when it
    exits with another status the translation fails and logs the
    converter's standard error; when the converter is not found it fails
    with a message of its own.  Both failures end the process with
    status 1. *)
Theorem convert_outcomes (w : World) (rule pipeline : string) :
  (forall out err,
     w_exec w (sigma_command rule pipeline) = ExecExited 0 out err ->
     convert_sigma_to_splunk w rule pipeline
     = ([EvSubprocessRun (sigma_command rule pipeline);
         EvLog INFO ("Generated Splunk query: " ++ py_strip out)],
        Ret (py_strip out)))
  /\ (forall rc out err,
        rc <> 0 ->
        w_exec w (sigma_command rule pipeline) = ExecExited rc out err ->
        convert_sigma_to_splunk w rule pipeline
        = ([EvSubprocessRun (sigma_command rule pipeline);
            EvRaise (CalledProcessError rc err);
            EvLog ERROR ("Sigma conversion failed: " ++ err)],
           Exc (SystemExit 1)))
  /\ (w_exec w (sigma_command rule pipeline) = ExecNotFound ->
      convert_sigma_to_splunk w rule pipeline
      = ([EvSubprocessRun (sigma_command rule pipeline);
          EvRaise (FileNotFoundError sigma_errno_msg);
          EvLog ERROR sigma_not_found_msg],
         Exc (SystemExit 1)))
  /\ (forall args ns service t fuel,
        connected w args ns service t ->
        ns_delete ns = false -> ns_rule ns = Some rule -> rule <> "" ->
        ns_pipeline ns = pipeline ->
        (w_exec w (sigma_command rule pipeline) = ExecNotFound
         \/ exists rc out err,
              rc <> 0
              /\ w_exec w (sigma_command rule pipeline) = ExecExited rc out err) ->
        snd (script w args fuel) = Exit 1).
Proof.
  split; [|split; [|split]].
  - intros out err. apply convert_ok.
  - intros rc out err. apply convert_failed.
  - apply convert_not_found.
  - intros args ns service t fuel Hc Hd Hr Hne Hp Hfail.
    apply (script_action_exit _ _ _ _ _ _ _ Hc).
    rewrite (action_create_flow _ _ _ _ _ Hd Hr Hne), Hp.
    unfold create_steps.
    destruct Hfail as [E|(rc & out & err & Hrc & E)].
    + rewrite (convert_not_found _ _ _ E). reflexivity.
    + rewrite (convert_failed _ _ _ _ _ _ Hrc E). reflexivity.
Qed.

Lemma demo_connected service exec sleep :
  connected (make_world (Ok service) exec sleep) demo_args demo_namespace service
            demo_prefix.
Proof.
  exists [EvLoadDotenv],
         [EvConnect "127.0.0.1" "8089" "admin" "changeme";
          EvLog INFO "Successfully connected to Splunk."],
         "admin", "changeme".
  repeat split; reflexivity.
Qed.

Lemma demo_delete_connected service exec sleep :
  connected (make_world (Ok service) exec sleep) demo_delete_args
            demo_delete_namespace service demo_prefix.
Proof.
  exists [EvLoadDotenv],
         [EvConnect "127.0.0.1" "8089" "admin" "changeme";
          EvLog INFO "Successfully connected to Splunk."],
         "admin", "changeme".
  repeat split; reflexivity.
Qed.

End Effects.

Lemma convert_outcomes_witness :
  convert_sigma_to_splunk demo_world "r.yml" "--without-pipeline"
  = ([EvSubprocessRun (sigma_command "r.yml" "--without-pipeline");
      EvLog INFO "Generated Splunk query: foo=bar"],
     Ret "foo=bar")
  /\ snd (script (H := decimal_floats)
                 (make_world (Ok demo_service) (ExecExited 2 "" "Parse error")
                             (fun _ => Ok tt))
                 demo_args 10) = Exit 1
  /\ snd (script (H := decimal_floats)
                 (make_world (Ok demo_service) ExecNotFound (fun _ => Ok tt))
                 demo_args 10) = Exit 1.
Proof.
  split; [|split].
  - destruct (convert_outcomes (H := decimal_floats) demo_world "r.yml"
                               "--without-pipeline") as (H1 & _).
    exact (H1 _ _ eq_refl).
  - destruct (convert_outcomes (H := decimal_floats)
                (make_world (Ok demo_service) (ExecExited 2 "" "Parse error")
                            (fun _ => Ok tt))
                "r.yml" "--without-pipeline") as (_ & _ & _ & H4).
    apply (H4 demo_args demo_namespace demo_service demo_prefix 10%nat).
    + apply demo_connected.
    + reflexivity.
    + reflexivity.
    + discriminate.
    + reflexivity.
    + right. exists 2, "", "Parse error". split; [lia | reflexivity].
  - destruct (convert_outcomes (H := decimal_floats)
                (make_world (Ok demo_service) ExecNotFound (fun _ => Ok tt))
                "r.yml" "--without-pipeline") as (_ & _ & _ & H4).
    apply (H4 demo_args demo_namespace demo_service demo_prefix 10%nat).
    + apply demo_connected.
    + reflexivity.
    + reflexivity.
    + discriminate.
    + reflexivity.
    + left. reflexivity.
Defined.

(** ** The saved-search manager *)

Section Manager.
Context `{FloatOps}.

Lemma create_ok service name query timer d :
  saved_searches_create service name ("search " ++ query) timer true
                        search_description = Ok d ->
  create_scheduled_search service name query timer
  = ([EvSavedSearchCreate name ("search " ++ query) timer true search_description;
      EvLog INFO (created_msg (ss_name d))],
     Ret (PStr ("search " ++ query))).
Proof. intros E. unfold create_scheduled_search. rewrite E. reflexivity. Qed.

Lemma create_http_error service name query timer status m :
  saved_searches_create service name ("search " ++ query) timer true
                        search_description = Raise (HTTPError status m) ->
  create_scheduled_search service name query timer
  = ([EvSavedSearchCreate name ("search " ++ query) timer true search_description;
      EvRaise (HTTPError status m);
      EvLog ERROR (if status =? 409 then exists_msg name else create_failed_msg m)],
     Exc (SystemExit 1)).
Proof.
  intros E. unfold create_scheduled_search. rewrite E.
  simpl. destruct (status =? 409); reflexivity.
Qed.

Lemma delete_not_found service name m :
  saved_searches_delete service name = Raise (KeyError m) ->
  delete_saved_search service name
  = ([EvSavedSearchDelete name; EvRaise (KeyError m);
      EvLog ERROR (not_found_msg name)],
     Exc (SystemExit 1)).
Proof. intros E. unfold delete_saved_search. rewrite E. reflexivity. Qed.

Lemma create_steps_after_convert w service name rule pipeline timer fuel tq q :
  convert_sigma_to_splunk w rule pipeline = (tq, Ret q) ->
  create_steps w service name rule pipeline timer fuel
  = bind (tq, Ret q)
      (fun q => search_query <- create_scheduled_search service name q timer ;;
                execute_search w service search_query fuel).
Proof. intros E. unfold create_steps. rewrite E. reflexivity. Qed.

(** C8: a conflict (HTTP 409) reported on [create] is fatal and the error
    line it logs names the search, between quotes; any other HTTP error
    on [create] is fatal and the error line ends with the platform's own
    text; deleting a name the platform does not know is fatal, with an
    error line that names it.  The three lines differ, and each failure
    ends the process with status 1. *)
Theorem manager_failures (service : Service) (name : string) :
  (forall query timer m,
     saved_searches_create service name ("search " ++ query) timer true
                           search_description = Raise (HTTPError 409 m) ->
     create_scheduled_search service name query timer
     = ([EvSavedSearchCreate name ("search " ++ query) timer true
                             search_description;
         EvRaise (HTTPError 409 m);
         EvLog ERROR ("A saved search with the name '" ++ name
                      ++ "' already exists.")],
        Exc (SystemExit 1)))
  /\ (forall query timer status m,
        status <> 409 ->
        saved_searches_create service name ("search " ++ query) timer true
                              search_description = Raise (HTTPError status m) ->
        create_scheduled_search service name query timer
        = ([EvSavedSearchCreate name ("search " ++ query) timer true
                                search_description;
            EvRaise (HTTPError status m);
            EvLog ERROR ("Failed to create saved search: " ++ m)],
           Exc (SystemExit 1)))
  /\ (forall m,
        saved_searches_delete service name = Raise (KeyError m) ->
        delete_saved_search service name
        = ([EvSavedSearchDelete name; EvRaise (KeyError m);
            EvLog ERROR ("Saved search '" ++ name ++ "' not found.")],
           Exc (SystemExit 1)))
  /\ (forall m,
        "A saved search with the name '" ++ name ++ "' already exists."
        <> "Failed to create saved search: " ++ m)
  /\ (forall w args ns t fuel rule tq q status m,
        connected w args ns service t ->
        ns_name ns = name -> ns_delete ns = false ->
        ns_rule ns = Some rule -> rule <> "" ->
        convert_sigma_to_splunk w rule (ns_pipeline ns) = (tq, Ret q) ->
        saved_searches_create service name ("search " ++ q) (ns_timer ns) true
                              search_description = Raise (HTTPError status m) ->
        snd (script w args fuel) = Exit 1)
  /\ (forall w args ns t fuel m,
        connected w args ns service t ->
        ns_name ns = name -> ns_delete ns = true ->
        saved_searches_delete service name = Raise (KeyError m) ->
        snd (script w args fuel) = Exit 1).
Proof.
  split; [|split; [|split; [|split; [|split]]]].
  - intros query timer m E. rewrite (create_http_error _ _ _ _ _ _ E). reflexivity.
  - intros query timer status m Hs E. rewrite (create_http_error _ _ _ _ _ _ E).
    apply Z.eqb_neq in Hs. rewrite Hs. reflexivity.
  - intros m. apply delete_not_found.
  - intros m. discriminate.
  - intros w args ns t fuel rule tq q status m Hc Hn Hd Hr Hne Hq E.
    apply (script_action_exit _ _ _ _ _ _ _ Hc).
    rewrite (action_create_flow _ _ _ _ _ Hd Hr Hne).
    rewrite (create_steps_after_convert _ _ _ _ _ _ _ _ _ Hq), bind_ret_l.
    rewrite Hn, (create_http_error _ _ _ _ _ _ E). reflexivity.
  - intros w args ns t fuel m Hc Hn Hd E.
    apply (script_action_exit _ _ _ _ _ _ _ Hc).
    unfold action. rewrite Hd, Hn, (delete_not_found _ _ _ E). reflexivity.
Qed.

(** C3, amended: a successful [create] sends one request, whose query is
    the given one after the word [search], with the scheduled flag set
    and the fixed description, logs the name the platform gave, and
    returns the query text it sent. *)
Theorem create_request (service : Service) (name query timer : string)
  (d : SavedSearch) :
  saved_searches_create service name ("search " ++ query) timer true
                        search_description = Ok d ->
  create_scheduled_search service name query timer
  = ([EvSavedSearchCreate name ("search " ++ query) timer true search_description;
      EvLog INFO (created_msg (ss_name d))],
     Ret (PStr ("search " ++ query))).
Proof. apply create_ok. Qed.

End Manager.

Lemma create_request_witness :
  create_scheduled_search demo_service "alerts" "foo=bar" "*/30 * * * *"
  = ([EvSavedSearchCreate "alerts" "search foo=bar" "*/30 * * * *" true
                          search_description;
      EvLog INFO "Saved search 'alerts' created successfully."],
     Ret (PStr "search foo=bar")).
Proof.
  apply (create_request demo_service "alerts" "foo=bar" "*/30 * * * *"
                        demo_saved_search).
  reflexivity.
Defined.

(** C3 as claimed fails: the request succeeds with the definition
    [demo_saved_search], and what [create] returns is the query text, not
    that definition. *)
Lemma create_does_not_return_definition :
  saved_searches_create demo_service "alerts" ("search " ++ "foo=bar")
                        "*/30 * * * *" true search_description
  = Ok demo_saved_search
  /\ snd (create_scheduled_search demo_service "alerts" "foo=bar" "*/30 * * * *")
     <> Ret (PSavedSearch demo_saved_search).
Proof. split; [reflexivity | discriminate]. Qed.

Lemma manager_failures_witness :
  create_scheduled_search
    (make_service (Some (HTTPError 409 "HTTP 409 Conflict")) None (demo_job "1"))
    "alerts" "foo=bar" "*/30 * * * *"
  = ([EvSavedSearchCreate "alerts" "search foo=bar" "*/30 * * * *" true
                          search_description;
      EvRaise (HTTPError 409 "HTTP 409 Conflict");
      EvLog ERROR "A saved search with the name 'alerts' already exists."],
     Exc (SystemExit 1))
  /\ create_scheduled_search
       (make_service (Some (HTTPError 500 "HTTP 500 Internal Server Error"))
                     None (demo_job "1"))
       "alerts" "foo=bar" "*/30 * * * *"
     = ([EvSavedSearchCreate "alerts" "search foo=bar" "*/30 * * * *" true
                             search_description;
         EvRaise (HTTPError 500 "HTTP 500 Internal Server Error");
         EvLog ERROR
           "Failed to create saved search: HTTP 500 Internal Server Error"],
        Exc (SystemExit 1))
  /\ delete_saved_search
       (make_service None (Some (KeyError "alerts")) (demo_job "1")) "alerts"
     = ([EvSavedSearchDelete "alerts"; EvRaise (KeyError "alerts");
         EvLog ERROR "Saved search 'alerts' not found."],
        Exc (SystemExit 1))
  /\ snd (script (H := decimal_floats)
            (make_world
               (Ok (make_service (Some (HTTPError 409 "HTTP 409 Conflict")) None
                                 (demo_job "1")))
               (ExecExited 0 "foo=bar" "") (fun _ => Ok tt))
            demo_args 10) = Exit 1
  /\ snd (script (H := decimal_floats)
            (make_world
               (Ok (make_service None (Some (KeyError "alerts")) (demo_job "1")))
               ExecNotFound (fun _ => Ok tt))
            demo_delete_args 10) = Exit 1.
Proof.
  split; [|split; [|split; [|split]]].
  - destruct (manager_failures (H := decimal_floats)
                (make_service (Some (HTTPError 409 "HTTP 409 Conflict")) None
                              (demo_job "1")) "alerts") as (H1 & _).
    exact (H1 "foo=bar" "*/30 * * * *" "HTTP 409 Conflict" eq_refl).
  - destruct (manager_failures (H := decimal_floats)
                (make_service (Some (HTTPError 500 "HTTP 500 Internal Server Error"))
                              None (demo_job "1")) "alerts") as (_ & H2 & _).
    refine (H2 "foo=bar" "*/30 * * * *" 500 "HTTP 500 Internal Server Error"
               _ eq_refl).
    lia.
  - destruct (manager_failures (H := decimal_floats)
                (make_service None (Some (KeyError "alerts")) (demo_job "1"))
                "alerts") as (_ & _ & H3 & _).
    exact (H3 "alerts" eq_refl).
  - destruct (manager_failures (H := decimal_floats)
                (make_service (Some (HTTPError 409 "HTTP 409 Conflict")) None
                              (demo_job "1")) "alerts") as (_ & _ & _ & _ & H5 & _).
    apply (H5 _ demo_args demo_namespace demo_prefix 10%nat "r.yml"
              [EvSubprocessRun (sigma_command "r.yml" "--without-pipeline");
               EvLog INFO "Generated Splunk query: foo=bar"]
              "foo=bar" 409 "HTTP 409 Conflict").
    + apply demo_connected.
    + reflexivity.
    + reflexivity.
    + reflexivity.
    + discriminate.
    + reflexivity.
    + reflexivity.
  - destruct (manager_failures (H := decimal_floats)
                (make_service None (Some (KeyError "alerts")) (demo_job "1"))
                "alerts") as (_ & _ & _ & _ & _ & H6).
    apply (H6 _ demo_delete_args demo_delete_namespace demo_prefix 10%nat "alerts").
    + apply demo_delete_connected.
    + reflexivity.
    + reflexivity.
    + reflexivity.
Defined.

(** ** The job runner *)

Section JobRunner.
Context `{FloatOps}.

Lemma wait_ready_spec w job n : forall k fuel,
  (forall i, (i < n)%nat -> job_is_ready job (k + i) = Ok false) ->
  job_is_ready job (k + n) = Ok true ->
  (forall i, (i < n)%nat -> w_sleep w (k + i) = Ok tt) ->
  (n < fuel)%nat ->
  wait_ready w job fuel k = ((polls n ++ [EvIsReady])%list, Ret tt).
Proof.
  induction n as [|n IH]; intros k fuel Hnot Hready Hsleep Hfuel;
    (destruct fuel as [|fuel]; [lia|]); cbn [wait_ready].
  - rewrite Nat.add_0_r in Hready. rewrite Hready. reflexivity.
  - assert (H0 : (0 < S n)%nat) by lia.
    pose proof (Hnot 0%nat H0) as E1. pose proof (Hsleep 0%nat H0) as E2.
    rewrite Nat.add_0_r in E1, E2. rewrite E1.
    cbn -[wait_ready polls]. rewrite E2. cbn -[wait_ready polls].
    rewrite (IH (S k) fuel).
    + reflexivity.
    + intros i Hi. replace (S k + i)%nat with (k + S i)%nat by lia.
      apply Hnot. lia.
    + replace (S k + n)%nat with (k + S n)%nat by lia. exact Hready.
    + intros i Hi. replace (S k + i)%nat with (k + S i)%nat by lia.
      apply Hsleep. lia.
    + lia.
Qed.

Lemma read_stats_ok job d dp x sc scn ec ecn rc rcn :
  job_get job "isDone" = Ok d ->
  job_get job "doneProgress" = Ok dp -> py_float dp = Some x ->
  job_get job "scanCount" = Ok sc -> py_int sc = Some scn ->
  job_get job "eventCount" = Ok ec -> py_int ec = Some ecn ->
  job_get job "resultCount" = Ok rc -> py_int rc = Some rcn ->
  read_stats job
  = (snapshot_reads,
     Ret {| st_isDone := d;
            st_doneProgress := float_mul_int x 100;
            st_scanCount := scn;
            st_eventCount := ecn;
            st_resultCount := rcn |}).
Proof.
  intros E1 E2 E3 E4 E5 E6 E7 E8 E9.
  unfold read_stats, float_of_str, int_of_str.
  rewrite E1. cbn -[py_int]. rewrite E2. cbn -[py_int]. rewrite E3. cbn -[py_int].
  rewrite E4. cbn -[py_int]. rewrite E5. cbn -[py_int].
  rewrite E6. cbn -[py_int]. rewrite E7. cbn -[py_int].
  rewrite E8. cbn -[py_int]. rewrite E9. reflexivity.
Qed.

Lemma last_of_app a : forall d b, last_of d (a ++ b) = last_of (last_of d a) b.
Proof. induction a as [|x a IH]; intros d b; simpl; [reflexivity | apply IH]. Qed.

Lemma progress_line_not_completed (stats : Stats) :
  progress_line stats <> completed_msg.
Proof.
  unfold progress_line, completed_msg. intros E.
  apply (f_equal (last_of "a")) in E.
  rewrite !last_of_app in E. cbn [last_of] in E. discriminate E.
Qed.

Lemma polls_events n e : In e (polls n) -> e = EvIsReady \/ e = EvSleep 2.
Proof.
  induction n as [|n IH]; simpl; [tauto|].
  intros [<-|[<-|Hin]]; auto.
Qed.

(** The run of [execute_search] on a job that becomes ready. *)
Lemma execute_search_ready (w : World) (service : Service) (query : pyobj)
  (job : Job) (n fuel : nat) (d dp sc ec rc : string) (x : pyfloat)
  (scn ecn rcn : Z) :
  jobs_create service query = Ok job ->
  (forall i, (i < n)%nat -> job_is_ready job i = Ok false) ->
  job_is_ready job n = Ok true ->
  (forall i, (i < n)%nat -> w_sleep w i = Ok tt) ->
  job_get job "isDone" = Ok d ->
  job_get job "doneProgress" = Ok dp -> py_float dp = Some x ->
  job_get job "scanCount" = Ok sc -> py_int sc = Some scn ->
  job_get job "eventCount" = Ok ec -> py_int ec = Some ecn ->
  job_get job "resultCount" = Ok rc -> py_int rc = Some rcn ->
  (n < fuel)%nat ->
  execute_search w service query fuel
  = ((EvJobCreate query :: EvLog INFO waiting_msg
        :: polls n ++ EvIsReady :: snapshot_reads
        ++ EvLog INFO
             (format_f1 (float_mul_int x 100) ++ "% done | "
              ++ py_str_int scn ++ " scanned | "
              ++ py_str_int ecn ++ " matched | "
              ++ py_str_int rcn ++ " results")
        :: (if String.eqb d "1" then [EvLog INFO completed_msg] else []))%list,
     Ret tt).
Proof.
  intros Hjob Hnot Hready Hsleep E1 E2 E3 E4 E5 E6 E7 E8 E9 Hfuel.
  unfold execute_search. rewrite Hjob.
  cbn -[wait_ready read_stats polls snapshot_reads progress_line].
  rewrite (wait_ready_spec w job n 0 fuel Hnot Hready Hsleep Hfuel).
  cbn -[read_stats polls snapshot_reads progress_line].
  rewrite (read_stats_ok _ _ _ _ _ _ _ _ _ _ E1 E2 E3 E4 E5 E6 E7 E8 E9).
  cbn -[polls snapshot_reads progress_line String.eqb].
  destruct (String.eqb d "1");
    cbn -[polls snapshot_reads progress_line];
    rewrite <- !app_assoc; reflexivity.
Qed.

(** C2: for a job that is not ready at the first [n] polls and ready at
    the next one, [execute_search] polls [n + 1] times with a sleep of 2
    after each poll that found the job not ready, then reads the five
    metrics once, logs one progress line with the progress times 100 to
    one decimal place and the three counts, and logs the completion
    message exactly when the done flag is the string ["1"]; nothing is
    polled after the first ready answer. *)
Theorem execute_search_polling (w : World) (service : Service) (query : pyobj)
  (job : Job) (n fuel : nat) (d dp sc ec rc : string) (x : pyfloat)
  (scn ecn rcn : Z) :
  jobs_create service query = Ok job ->
  (forall i, (i < n)%nat -> job_is_ready job i = Ok false) ->
  job_is_ready job n = Ok true ->
  (forall i, (i < n)%nat -> w_sleep w i = Ok tt) ->
  job_get job "isDone" = Ok d ->
  job_get job "doneProgress" = Ok dp -> py_float dp = Some x ->
  job_get job "scanCount" = Ok sc -> py_int sc = Some scn ->
  job_get job "eventCount" = Ok ec -> py_int ec = Some ecn ->
  job_get job "resultCount" = Ok rc -> py_int rc = Some rcn ->
  (n < fuel)%nat ->
  let line :=
    format_f1 (float_mul_int x 100) ++ "% done | "
    ++ py_str_int scn ++ " scanned | "
    ++ py_str_int ecn ++ " matched | "
    ++ py_str_int rcn ++ " results" in
  execute_search w service query fuel
  = ((EvJobCreate query :: EvLog INFO waiting_msg
        :: polls n ++ EvIsReady :: snapshot_reads
        ++ EvLog INFO line
        :: (if String.eqb d "1" then [EvLog INFO completed_msg] else []))%list,
     Ret tt)
  /\ (In (EvLog INFO completed_msg) (fst (execute_search w service query fuel))
      <-> d = "1").
Proof.
  intros Hjob Hnot Hready Hsleep E1 E2 E3 E4 E5 E6 E7 E8 E9 Hfuel line.
  pose proof (execute_search_ready w service query job n fuel d dp sc ec rc x
                scn ecn rcn Hjob Hnot Hready Hsleep E1 E2 E3 E4 E5 E6 E7 E8 E9
                Hfuel) as Hrun.
  fold line in Hrun.
  split; [exact Hrun|].
  rewrite Hrun. cbn [fst]. split.
  - intros Hin.
    destruct Hin as [Hin|[Hin|Hin]]; [discriminate Hin | discriminate Hin |].
    apply in_app_or in Hin as [Hin|Hin].
    { apply polls_events in Hin as [Hin|Hin]; discriminate Hin. }
    destruct Hin as [Hin|Hin]; [discriminate Hin|].
    apply in_app_or in Hin as [Hin|Hin].
    { unfold snapshot_reads in Hin. simpl in Hin.
      repeat (destruct Hin as [Hin|Hin]; [discriminate Hin|]). contradiction. }
    destruct Hin as [Hin|Hin].
    { exfalso. inversion Hin as [Hline].
      apply (progress_line_not_completed
               {| st_isDone := d; st_doneProgress := float_mul_int x 100;
                  st_scanCount := scn; st_eventCount := ecn;
                  st_resultCount := rcn |}).
      exact Hline. }
    destruct (String.eqb_spec d "1") as [Hd|Hd]; [exact Hd|contradiction].
  - intros ->. right. right. apply in_or_app. right. right.
    apply in_or_app. right. right. left. reflexivity.
Qed.

End JobRunner.

Lemma execute_search_polling_witness :
  execute_search (H := decimal_floats) demo_world demo_service
                 (PStr "search foo=bar") 10
  = ([EvJobCreate (PStr "search foo=bar"); EvLog INFO waiting_msg;
      EvIsReady; EvSleep 2; EvIsReady; EvSleep 2; EvIsReady;
      EvJobGet "isDone"; EvJobGet "doneProgress"; EvJobGet "scanCount";
      EvJobGet "eventCount"; EvJobGet "resultCount";
      EvLog INFO "100.0% done | 100 scanned | 5 matched | 5 results";
      EvLog INFO completed_msg],
     Ret tt)
  /\ ~ In (EvLog INFO completed_msg)
         (fst (execute_search (H := decimal_floats) demo_world
                 (make_service None None (demo_job "0"))
                 (PStr "search foo=bar") 10)).
Proof.
  assert (Hsleep : forall i, (i < 2)%nat -> w_sleep demo_world i = Ok tt)
    by reflexivity.
  assert (Hnot : forall d i, (i < 2)%nat -> job_is_ready (demo_job d) i = Ok false).
  { intros d i Hi. destruct i as [|[|i]]; [reflexivity | reflexivity | lia]. }
  split.
  - refine (proj1 (execute_search_polling (H := decimal_floats) demo_world
             demo_service (PStr "search foo=bar") (demo_job "1") 2 10
             "1" "1.0" "100" "5" "5" {| d_num := 10; d_exp := 1 |} 100 5 5
             eq_refl (Hnot "1") eq_refl Hsleep eq_refl eq_refl eq_refl eq_refl
             eq_refl eq_refl eq_refl eq_refl eq_refl _)).
    lia.
  - intros Hin.
    apply (execute_search_polling (H := decimal_floats) demo_world
             (make_service None None (demo_job "0")) (PStr "search foo=bar")
             (demo_job "0") 2 10
             "0" "1.0" "100" "5" "5" {| d_num := 10; d_exp := 1 |} 100 5 5
             eq_refl (Hnot "0") eq_refl Hsleep eq_refl eq_refl eq_refl eq_refl
             eq_refl eq_refl eq_refl eq_refl eq_refl) in Hin.
    + discriminate Hin.
    + lia.
Defined.

(** ** The order of the effects of a run *)

Lemma run_stage_app t1 : forall m t2,
  run_stage m (t1 ++ t2)%list
  = match run_stage m t1 with
    | Some k => run_stage k t2
    | None => None
    end.
Proof.
  induction t1 as [|e t1 IH]; intros m t2; [reflexivity|].
  simpl. destruct (stage e) as [k|]; [|apply IH].
  destruct ((k =? m)%nat || (before k =? m)%nat); [apply IH | reflexivity].
Qed.

(** An effect of a stage other than the starting one comes after an
    effect of the stage just before its own. *)
Lemma run_stage_preceded t1 : forall m t2 e k j,
  run_stage m (t1 ++ e :: t2)%list = Some j ->
  stage e = Some k -> k <> m ->
  before k = m \/ existsb (has_stage (before k)) t1 = true.
Proof.
  induction t1 as [|e1 t1 IH]; intros m t2 e k j Hrun He Hk.
  - simpl in Hrun. rewrite He in Hrun.
    destruct (Nat.eqb_spec k m) as [?|_]; [contradiction|].
    destruct (Nat.eqb_spec (before k) m) as [Hb|_]; [left; exact Hb|].
    discriminate Hrun.
  - simpl in Hrun. cbn [existsb]. unfold has_stage at 1.
    destruct (stage e1) as [k1|].
    + destruct (Nat.eqb_spec k1 m) as [Hk1|Hk1]; cbn [orb] in Hrun.
      * rewrite Hk1 in Hrun.
        destruct (IH _ _ _ _ _ Hrun He Hk) as [Hb|Hex]; [left; exact Hb|].
        right. rewrite Hex. apply orb_true_r.
      * destruct (Nat.eqb_spec (before k1) m) as [Hb1|_]; [|discriminate Hrun].
        destruct (Nat.eq_dec k k1) as [->|Hne]; [left; exact Hb1|].
        destruct (IH _ _ _ _ _ Hrun He Hne) as [Hb|Hex].
        -- right. rewrite Hb, Nat.eqb_refl. reflexivity.
        -- right. rewrite Hex. apply orb_true_r.
    + destruct (IH _ _ _ _ _ Hrun He Hk) as [Hb|Hex]; [left; exact Hb|].
      right. exact Hex.
Qed.

Section Stages.
Context `{FloatOps}.

Lemma accepts_accepted {A} m (x : M A) m' : accepts m x m' -> accepted m x.
Proof. intros (k & Hk & _). exists k. exact Hk. Qed.

Lemma accepts_bind {A B} m m1 m2 (x : M A) (f : A -> M B) :
  accepts m x m1 -> (forall a, accepts m1 (f a) m2) -> accepts m (bind x f) m2.
Proof.
  intros (k & Hk & Hret) Hf. destruct x as [t [a|e|]]; cbn [fst snd] in *.
  - specialize (Hret a eq_refl). subst k.
    destruct (Hf a) as (k2 & Hk2 & Hret2).
    unfold accepts, bind. destruct (f a) as [t' r']. cbn [fst snd] in *.
    exists k2. rewrite run_stage_app, Hk. split; assumption.
  - exists k. split; [exact Hk | discriminate].
  - exists k. split; [exact Hk | discriminate].
Qed.

Lemma accepted_bind {A B} m m1 (x : M A) (f : A -> M B) :
  accepts m x m1 -> (forall a, accepted m1 (f a)) -> accepted m (bind x f).
Proof.
  intros (k & Hk & Hret) Hf. destruct x as [t [a|e|]]; cbn [fst snd] in *.
  - specialize (Hret a eq_refl). subst k.
    destruct (Hf a) as (k2 & Hk2).
    unfold accepted, bind. destruct (f a) as [t' r']. cbn [fst] in *.
    exists k2. rewrite run_stage_app, Hk. exact Hk2.
  - exists k. exact Hk.
  - exists k. exact Hk.
Qed.

(** A handler that only logs and exits leaves the order as it is. *)
Lemma accepts_try {A} m m' (x : M A) (h : exn -> option (M A)) :
  accepts m x m' ->
  (forall e k, h e = Some k -> exists l msg c, k = ([EvLog l msg], Exc (SystemExit c))) ->
  accepts m (try_except x h) m'.
Proof.
  intros (k & Hk & Hret) Hh. destruct x as [t [a|e|]]; cbn [fst snd] in *.
  - exists k. split; assumption.
  - unfold try_except. destruct (h e) as [hk|] eqn:E.
    + destruct (Hh _ _ E) as (l & msg & c & ->).
      exists k. cbn [fst snd]. rewrite run_stage_app, Hk.
      split; [reflexivity|discriminate].
    + exists k. split; [exact Hk | discriminate].
  - exists k. split; [exact Hk | discriminate].
Qed.

Lemma accepts_ret {A} m (a : A) : accepts m (ret a) m.
Proof. exists m. split; [reflexivity | reflexivity]. Qed.

Lemma accepts_raise {A} m m' (e : exn) : accepts m (raise e : M A) m'.
Proof. exists m. split; [reflexivity | discriminate]. Qed.

Lemma accepts_lift {A} m (r : pyresult A) : accepts m (lift r) m.
Proof. destruct r; [apply accepts_ret | apply accepts_raise]. Qed.

Lemma accepts_log m l msg : accepts m ([EvLog l msg], Ret tt) m.
Proof. exists m. split; reflexivity. Qed.

Lemma accepts_call {A} m k ev (r : pyresult A) :
  stage ev = Some k -> k = m \/ before k = m -> accepts m (call ev r) k.
Proof.
  intros Hs Hk.
  assert (E : ((k =? m)%nat || (before k =? m)%nat) = true).
  { destruct Hk as [->| <-]; rewrite Nat.eqb_refl; [reflexivity | apply orb_true_r]. }
  destruct r as [a|e]; exists k; cbn; rewrite Hs, E; split;
    (reflexivity || discriminate).
Qed.

End Stages.

Section RunOrder.
Context `{FloatOps}.

Ltac handler_logs :=
  let e := fresh "e" in
  let k := fresh "k" in
  let E := fresh "E" in
  intros e k E; destruct e; try discriminate E; inversion E; subst;
  try match goal with
      | |- context [if ?c then _ else _] => destruct c
      end;
  eexists _, _, _; reflexivity.

Lemma accepts_parser_error {A} msg m' : accepts 0 (parser_error msg : M A) m'.
Proof. exists 0%nat. split; [reflexivity | discriminate]. Qed.

Lemma accepts_arg_type flag name type v : accepts 0 (arg_type flag name type v) 0.
Proof.
  unfold arg_type. destruct (type v) as [x|e]; [apply accepts_ret|].
  destruct e; (apply accepts_parser_error || apply accepts_raise).
Qed.

Lemma accepts_parse_args args : accepts 0 (parse_args args) 0.
Proof.
  unfold parse_args.
  apply accepts_bind with (m1 := 0%nat); [apply accepts_arg_type|]. intros host.
  apply accepts_bind with (m1 := 0%nat).
  { destruct (a_rule args), (a_delete args);
      (apply accepts_ret || apply accepts_parser_error). }
  intros _.
  apply accepts_bind with (m1 := 0%nat); [apply accepts_arg_type|]. intros timer.
  apply accepts_bind with (m1 := 0%nat).
  { destruct (a_name args); (apply accepts_ret || apply accepts_parser_error). }
  intros name.
  apply accepts_bind with (m1 := 0%nat).
  { destruct (a_rule args), (a_delete args);
      (apply accepts_ret || apply accepts_parser_error). }
  intros _. apply accepts_ret.
Qed.

Lemma accepts_get_credentials w : accepts 0 (get_credentials w) 1.
Proof.
  unfold get_credentials.
  apply accepts_bind with (m1 := 1%nat).
  { exists 1%nat. split; reflexivity. }
  intros _.
  apply accepts_bind with (m1 := 1%nat).
  { destruct (w_getenv w "SPLUNK_USER") as [[|c u]|];
      (apply accepts_ret || (apply accepts_call; [reflexivity | left; reflexivity])). }
  intros username.
  apply accepts_bind with (m1 := 1%nat).
  { destruct (w_getenv w "SPLUNK_PASS") as [[|c u]|];
      (apply accepts_ret || (apply accepts_call; [reflexivity | left; reflexivity])). }
  intros password. apply accepts_ret.
Qed.

Lemma accepts_connect w host username password :
  accepts 1 (connect_to_splunk w host username password) 2.
Proof.
  unfold connect_to_splunk.
  destruct (py_split1 ":" host) as [|h [|port [|x l]]]; try apply accepts_raise.
  apply accepts_try; [|handler_logs].
  apply accepts_bind with (m1 := 2%nat).
  { apply accepts_call; [reflexivity | right; reflexivity]. }
  intros service.
  apply accepts_bind with (m1 := 2%nat); [apply accepts_log|].
  intros _. apply accepts_ret.
Qed.

Lemma accepts_convert w rule pipeline :
  accepts 2 (convert_sigma_to_splunk w rule pipeline) 3.
Proof.
  unfold convert_sigma_to_splunk.
  apply accepts_try; [|handler_logs].
  apply accepts_bind with (m1 := 3%nat).
  { apply accepts_call; [reflexivity | right; reflexivity]. }
  intros result.
  apply accepts_bind with (m1 := 3%nat); [apply accepts_log|].
  intros _. apply accepts_ret.
Qed.

Lemma accepts_create service name query timer :
  accepts 3 (create_scheduled_search service name query timer) 4.
Proof.
  unfold create_scheduled_search.
  apply accepts_try; [|handler_logs].
  apply accepts_bind with (m1 := 4%nat).
  { apply accepts_call; [reflexivity | right; reflexivity]. }
  intros saved.
  apply accepts_bind with (m1 := 4%nat); [apply accepts_log|].
  intros _. apply accepts_ret.
Qed.

Lemma accepts_delete service name :
  accepts 2 (delete_saved_search service name) 9.
Proof.
  unfold delete_saved_search.
  apply accepts_try; [|handler_logs].
  apply accepts_bind with (m1 := 9%nat).
  { apply accepts_call; [reflexivity | right; reflexivity]. }
  intros _. apply accepts_log.
Qed.

Lemma accepts_wait_ready w job fuel : forall k m,
  m = 5%nat \/ m = 6%nat -> accepts m (wait_ready w job fuel k) 6.
Proof.
  induction fuel as [|fuel IH]; intros k m Hm.
  - exists m. split; [reflexivity | discriminate].
  - cbn [wait_ready].
    apply accepts_bind with (m1 := 6%nat).
    { apply accepts_call; [reflexivity|].
      destruct Hm as [->| ->]; [right | left]; reflexivity. }
    intros ready. destruct ready; cbn [negb]; [apply accepts_ret|].
    apply accepts_bind with (m1 := 6%nat).
    { apply accepts_call; [reflexivity | left; reflexivity]. }
    intros _. apply IH. right. reflexivity.
Qed.

Lemma accepts_read_stats job : accepts 6 (read_stats job) 7.
Proof.
  unfold read_stats.
  apply accepts_bind with (m1 := 7%nat).
  { apply accepts_call; [reflexivity | right; reflexivity]. }
  intros isDone.
  repeat (apply accepts_bind with (m1 := 7%nat);
          [first [ apply accepts_call; [reflexivity | left; reflexivity]
                 | apply accepts_lift ]
          | intros ? ]).
  apply accepts_ret.
Qed.

Lemma accepts_execute w service query fuel :
  accepts 4 (execute_search w service query fuel) 7.
Proof.
  unfold execute_search.
  apply accepts_bind with (m1 := 5%nat).
  { apply accepts_call; [reflexivity | right; reflexivity]. }
  intros job.
  apply accepts_bind with (m1 := 5%nat); [apply accepts_log|]. intros _.
  apply accepts_bind with (m1 := 6%nat).
  { apply accepts_wait_ready. left. reflexivity. }
  intros _.
  apply accepts_bind with (m1 := 7%nat); [apply accepts_read_stats|]. intros stats.
  apply accepts_bind with (m1 := 7%nat); [apply accepts_log|]. intros _.
  destruct (String.eqb (st_isDone stats) "1"); [apply accepts_log | apply accepts_ret].
Qed.

Lemma accepts_create_steps w service name rule pipeline timer fuel :
  accepts 2 (create_steps w service name rule pipeline timer fuel) 7.
Proof.
  unfold create_steps.
  apply accepts_bind with (m1 := 3%nat); [apply accepts_convert|]. intros q.
  apply accepts_bind with (m1 := 4%nat); [apply accepts_create|]. intros sq.
  apply accepts_execute.
Qed.

Lemma accepted_main w args fuel : accepted 0 (main w args fuel).
Proof.
  unfold main.
  apply accepted_bind with (m1 := 0%nat); [apply accepts_parse_args|]. intros ns.
  apply accepted_bind with (m1 := 1%nat); [apply accepts_get_credentials|].
  intros [username password].
  apply accepted_bind with (m1 := 2%nat); [apply accepts_connect|]. intros service.
  destruct (ns_delete ns).
  - eapply accepts_accepted. apply accepts_delete.
  - destruct (ns_rule ns) as [[|c r]|].
    + eapply accepts_accepted. apply accepts_ret.
    + eapply accepts_accepted.
      apply (accepts_create_steps w service (ns_name ns) (String c r)).
    + eapply accepts_accepted. apply accepts_ret.
Qed.

(** The effects of every run come in the order of the stages. *)
Theorem script_staged w args fuel : staged (fst (script w args fuel)).
Proof.
  destruct (accepted_main w args fuel) as (k & Hk).
  unfold staged, script.
  destruct (main w args fuel) as [t [a|e|]]; cbn [fst snd try_except] in *;
    try (exists k; exact Hk).
  destruct e; cbn [fst]; try (exists k; exact Hk).
  exists k. cbn -[run_stage]. rewrite run_stage_app, Hk. reflexivity.
Qed.

End RunOrder.

(** ** The orchestrator *)

Lemma check_fields_raises parts e :
  check_fields parts = Raise e -> exists m, e = ArgumentTypeError m.
Proof.
  induction parts as [|p parts IH]; simpl; [discriminate|].
  destruct (re_match_anchored cron_pattern p); [exact IH|].
  intros E. inversion E. eexists. reflexivity.
Qed.

Lemma validate_cron_raises timer e :
  validate_cron timer = Raise e -> exists m, e = ArgumentTypeError m.
Proof.
  unfold validate_cron.
  destruct (negb (List.length (py_split (py_strip timer)) =? 5)%nat).
  - intros E. inversion E. eexists. reflexivity.
  - destruct (check_fields (py_split (py_strip timer))) eqn:C; simpl.
    + discriminate.
    + intros E. inversion E. subst. eapply check_fields_raises. exact C.
Qed.

Lemma validate_cron_returns timer r : validate_cron timer = Ok r -> r = timer.
Proof.
  unfold validate_cron.
  destruct (negb (List.length (py_split (py_strip timer)) =? 5)%nat); [discriminate|].
  destruct (check_fields (py_split (py_strip timer))); simpl; congruence.
Qed.

Lemma validate_host_port_raises host e :
  validate_host_port host = Raise e -> exists m, e = ArgumentTypeError m.
Proof.
  unfold validate_host_port.
  destruct (py_split1 ":" host) as [|ip [|port_str [|x l]]];
    try (intros E; inversion E; eexists; reflexivity).
  destruct (py_int port_str) as [port|];
    [destruct (negb ((1 <=? port) && (port <=? 65535)))|];
    intros E; inversion E; eexists; reflexivity.
Qed.

Lemma validate_host_port_returns host r : validate_host_port host = Ok r -> r = host.
Proof.
  unfold validate_host_port.
  destruct (py_split1 ":" host) as [|ip [|port_str [|x l]]]; try discriminate.
  destruct (py_int port_str) as [port|]; [|discriminate].
  destruct (negb ((1 <=? port) && (port <=? 65535))); congruence.
Qed.

(** The command line is either accepted, with a valid address and a
    valid schedule, or refused with a usage error and status 2. *)
Lemma parse_args_cases args :
  (exists ns,
     parse_args args = ([], Ret ns)
     /\ validate_host_port (or_default (a_host args) default_host) = Ok (ns_host ns)
     /\ validate_cron (or_default (a_timer args) default_timer) = Ok (ns_timer ns))
  \/ (exists m, parse_args args = ([EvParserError m], Exc (SystemExit 2))).
Proof.
  unfold parse_args, arg_type.
  destruct (validate_host_port (or_default (a_host args) default_host))
    as [host|e] eqn:Eh.
  2:{ destruct (validate_host_port_raises _ _ Eh) as [m ->].
      right. eexists. reflexivity. }
  destruct (validate_cron (or_default (a_timer args) default_timer))
    as [timer|e] eqn:Et.
  2:{ destruct (validate_cron_raises _ _ Et) as [m ->].
      right. destruct (a_rule args), (a_delete args); eexists; reflexivity. }
  destruct (a_rule args) as [rule|], (a_delete args), (a_name args) as [name|];
    try (right; eexists; reflexivity);
    left; eexists; (split; [reflexivity | split; reflexivity]).
Qed.

Section Orchestrator.
Context `{FloatOps}.

Lemma script_usage_error w args fuel m :
  parse_args args = ([EvParserError m], Exc (SystemExit 2)) ->
  script w args fuel = ([EvParserError m], Exit 2).
Proof. intros E. unfold script, main. rewrite E. reflexivity. Qed.

Lemma staged_preceded (p q : event -> bool) (k : nat) (t : trace) :
  (forall e, q e = true -> stage e = Some k) ->
  (forall e, has_stage (before k) e = true -> p e = true) ->
  k <> 0%nat -> before k <> 0%nat ->
  staged t -> always_preceded p q t.
Proof.
  intros Hq Hp Hk Hb [j Hrun] t1 e t2 -> He.
  destruct (run_stage_preceded _ _ _ _ _ _ Hrun (Hq _ He) Hk) as [Hb0|Hex];
    [contradiction|].
  apply existsb_exists in Hex as (e' & Hin & He').
  apply existsb_exists. exists e'. split; [exact Hin | apply Hp; exact He'].
Qed.

Lemma connect_ok w host h port u p service :
  py_split1 ":" host = [h; port] ->
  w_connect w h port u p = Ok service ->
  connect_to_splunk w host u p
  = ([EvConnect h port u p; EvLog INFO "Successfully connected to Splunk."],
     Ret service).
Proof. intros E1 E2. unfold connect_to_splunk. rewrite E1, E2. reflexivity. Qed.

(** A run of the create flow in which every step succeeds. *)
Lemma create_flow_success w args fuel ns tc u p h port service rule out err saved
  job n d dp sc ec rc x scn ecn rcn :
  parse_args args = ([], Ret ns) ->
  ns_delete ns = false -> ns_rule ns = Some rule -> rule <> "" ->
  get_credentials w = (tc, Ret (u, p)) ->
  py_split1 ":" (ns_host ns) = [h; port] ->
  w_connect w h port u p = Ok service ->
  w_exec w (sigma_command rule (ns_pipeline ns)) = ExecExited 0 out err ->
  saved_searches_create service (ns_name ns) ("search " ++ py_strip out)
                        (ns_timer ns) true search_description = Ok saved ->
  jobs_create service (PStr ("search " ++ py_strip out)) = Ok job ->
  (forall i, (i < n)%nat -> job_is_ready job i = Ok false) ->
  job_is_ready job n = Ok true ->
  (forall i, (i < n)%nat -> w_sleep w i = Ok tt) ->
  job_get job "isDone" = Ok d ->
  job_get job "doneProgress" = Ok dp -> py_float dp = Some x ->
  job_get job "scanCount" = Ok sc -> py_int sc = Some scn ->
  job_get job "eventCount" = Ok ec -> py_int ec = Some ecn ->
  job_get job "resultCount" = Ok rc -> py_int rc = Some rcn ->
  (n < fuel)%nat ->
  script w args fuel
  = ((tc
      ++ [EvConnect h port u p;
          EvLog INFO "Successfully connected to Splunk.";
          EvSubprocessRun (sigma_command rule (ns_pipeline ns));
          EvLog INFO ("Generated Splunk query: " ++ py_strip out);
          EvSavedSearchCreate (ns_name ns) ("search " ++ py_strip out) (ns_timer ns)
                              true search_description;
          EvLog INFO (created_msg (ss_name saved));
          EvJobCreate (PStr ("search " ++ py_strip out));
          EvLog INFO waiting_msg]
      ++ polls n
      ++ EvIsReady :: snapshot_reads
      ++ EvLog INFO
           (format_f1 (float_mul_int x 100) ++ "% done | "
            ++ py_str_int scn ++ " scanned | "
            ++ py_str_int ecn ++ " matched | "
            ++ py_str_int rcn ++ " results")
      :: (if String.eqb d "1" then [EvLog INFO completed_msg] else []))%list,
     Exit 0).
Proof.
  intros Hp Hd Hr Hne Hc Hs Hk Hx Hcr Hj Hnot Hready Hsleep
         E1 E2 E3 E4 E5 E6 E7 E8 E9 Hfuel.
  apply script_success.
  assert (Hconn : connected w args ns service
            (tc ++ [EvConnect h port u p;
                    EvLog INFO "Successfully connected to Splunk."])%list).
  { exists tc, [EvConnect h port u p;
                EvLog INFO "Successfully connected to Splunk."], u, p.
    repeat split; try assumption. apply connect_ok; assumption. }
  rewrite (main_connected _ _ _ _ _ fuel Hconn).
  rewrite (action_create_flow _ _ _ _ _ Hd Hr Hne).
  rewrite (create_steps_after_convert _ _ _ _ _ _ _ _ _ (convert_ok _ _ _ _ _ Hx)).
  rewrite bind_ret_l.
  rewrite (create_ok _ _ _ _ _ Hcr), bind_ret_l.
  rewrite (execute_search_ready w service _ job n fuel d dp sc ec rc x scn ecn rcn
             Hj Hnot Hready Hsleep E1 E2 E3 E4 E5 E6 E7 E8 E9 Hfuel).
  cbn [fst snd]. rewrite <- !app_assoc. reflexivity.
Qed.

(** C1, amended: the schedule is validated before anything else happens;
    then the session is opened, then the rule is translated, then the
    search is created, then the job is submitted and polled: in every run
    each of these steps comes after the one before it, and in particular
    the translation comes after the connection.  A create flow whose
    steps all succeed performs them in that order and ends with
    status 0. *)
Theorem create_flow_order (w : World) (args : RawArgs) (fuel : nat) :
  always_preceded is_connect is_translate (fst (script w args fuel))
  /\ always_preceded is_translate is_create (fst (script w args fuel))
  /\ always_preceded is_create is_submit (fst (script w args fuel))
  /\ always_preceded is_submit is_poll (fst (script w args fuel))
  /\ ((exists e, In e (fst (script w args fuel)) /\ is_parser_error e = false) ->
      validate_cron (or_default (a_timer args) default_timer)
      = Ok (or_default (a_timer args) default_timer))
  /\ (forall ns tc u p h port service rule out err saved job n d dp sc ec rc x
             scn ecn rcn,
        parse_args args = ([], Ret ns) ->
        ns_delete ns = false -> ns_rule ns = Some rule -> rule <> "" ->
        get_credentials w = (tc, Ret (u, p)) ->
        py_split1 ":" (ns_host ns) = [h; port] ->
        w_connect w h port u p = Ok service ->
        w_exec w (sigma_command rule (ns_pipeline ns)) = ExecExited 0 out err ->
        saved_searches_create service (ns_name ns) ("search " ++ py_strip out)
                              (ns_timer ns) true search_description = Ok saved ->
        jobs_create service (PStr ("search " ++ py_strip out)) = Ok job ->
        (forall i, (i < n)%nat -> job_is_ready job i = Ok false) ->
        job_is_ready job n = Ok true ->
        (forall i, (i < n)%nat -> w_sleep w i = Ok tt) ->
        job_get job "isDone" = Ok d ->
        job_get job "doneProgress" = Ok dp -> py_float dp = Some x ->
        job_get job "scanCount" = Ok sc -> py_int sc = Some scn ->
        job_get job "eventCount" = Ok ec -> py_int ec = Some ecn ->
        job_get job "resultCount" = Ok rc -> py_int rc = Some rcn ->
        (n < fuel)%nat ->
        script w args fuel
        = ((tc
            ++ [EvConnect h port u p;
                EvLog INFO "Successfully connected to Splunk.";
                EvSubprocessRun (sigma_command rule (ns_pipeline ns));
                EvLog INFO ("Generated Splunk query: " ++ py_strip out);
                EvSavedSearchCreate (ns_name ns) ("search " ++ py_strip out)
                                    (ns_timer ns) true search_description;
                EvLog INFO (created_msg (ss_name saved));
                EvJobCreate (PStr ("search " ++ py_strip out));
                EvLog INFO waiting_msg]
            ++ polls n
            ++ EvIsReady :: snapshot_reads
            ++ EvLog INFO
                 (format_f1 (float_mul_int x 100) ++ "% done | "
                  ++ py_str_int scn ++ " scanned | "
                  ++ py_str_int ecn ++ " matched | "
                  ++ py_str_int rcn ++ " results")
            :: (if String.eqb d "1" then [EvLog INFO completed_msg] else []))%list,
           Exit 0)).
Proof.
  pose proof (script_staged w args fuel) as Hst.
  split; [|split; [|split; [|split; [|split]]]].
  - apply (staged_preceded _ _ 3%nat); try (exact Hst || discriminate);
      intros e; destruct e; simpl; intros E; first [reflexivity | discriminate E].
  - apply (staged_preceded _ _ 4%nat); try (exact Hst || discriminate);
      intros e; destruct e; simpl; intros E; first [reflexivity | discriminate E].
  - apply (staged_preceded _ _ 5%nat); try (exact Hst || discriminate);
      intros e; destruct e; simpl; intros E; first [reflexivity | discriminate E].
  - apply (staged_preceded _ _ 6%nat); try (exact Hst || discriminate);
      intros e; destruct e; simpl; intros E; first [reflexivity | discriminate E].
  - intros (e & Hin & He).
    destruct (parse_args_cases args) as [(ns & _ & _ & Ht)|(m & Hm)].
    + rewrite Ht. f_equal. exact (validate_cron_returns _ _ Ht).
    + rewrite (script_usage_error w args fuel m Hm) in Hin.
      destruct Hin as [<-|[]]. discriminate He.
  - intros. eapply create_flow_success; eassumption.
Qed.

End Orchestrator.

Lemma create_flow_order_witness :
  script (H := decimal_floats) demo_world demo_args 10
  = ([EvLoadDotenv;
      EvConnect "127.0.0.1" "8089" "admin" "changeme";
      EvLog INFO "Successfully connected to Splunk.";
      EvSubprocessRun ["sigma"; "convert"; "-t"; "splunk"; "-f"; "default";
                       "r.yml"; "--without-pipeline"];
      EvLog INFO "Generated Splunk query: foo=bar";
      EvSavedSearchCreate "alerts" "search foo=bar" "*/30 * * * *" true
                          search_description;
      EvLog INFO "Saved search 'alerts' created successfully.";
      EvJobCreate (PStr "search foo=bar");
      EvLog INFO waiting_msg;
      EvIsReady; EvSleep 2; EvIsReady; EvSleep 2; EvIsReady;
      EvJobGet "isDone"; EvJobGet "doneProgress"; EvJobGet "scanCount";
      EvJobGet "eventCount"; EvJobGet "resultCount";
      EvLog INFO "100.0% done | 100 scanned | 5 matched | 5 results";
      EvLog INFO completed_msg],
     Exit 0)
  /\ validate_cron "*/30 * * * *" = Ok "*/30 * * * *".
Proof.
  destruct (create_flow_order (H := decimal_floats) demo_world demo_args 10)
    as (_ & _ & _ & _ & H5 & H6).
  split.
  - assert (Hnot : forall i, (i < 2)%nat -> job_is_ready (demo_job "1") i = Ok false).
    { intros i Hi. destruct i as [|[|i]]; [reflexivity | reflexivity | lia]. }
    refine (H6 demo_namespace [EvLoadDotenv] "admin" "changeme" "127.0.0.1" "8089"
               demo_service "r.yml" "foo=bar
" "" demo_saved_search (demo_job "1") 2%nat "1" "1.0" "100" "5" "5"
               {| d_num := 10; d_exp := 1 |} 100 5 5
               eq_refl eq_refl eq_refl _ eq_refl eq_refl eq_refl eq_refl eq_refl
               eq_refl Hnot eq_refl _ eq_refl eq_refl eq_refl eq_refl eq_refl
               eq_refl eq_refl eq_refl eq_refl _).
    + discriminate.
    + reflexivity.
    + lia.
  - apply H5. exists EvLoadDotenv. split; [left; reflexivity | reflexivity].
Defined.

(** C1 as claimed fails: in this run of the create flow the connection is
    made and no translation has happened yet. *)
Lemma translation_not_before_connection :
  ~ always_preceded is_translate is_connect
      (fst (script (H := decimal_floats) demo_world demo_args 10)).
Proof.
  intros Hclaim.
  specialize (Hclaim [EvLoadDotenv]
                (EvConnect "127.0.0.1" "8089" "admin" "changeme")
                (tl (tl (fst (script (H := decimal_floats) demo_world demo_args 10))))
                eq_refl eq_refl).
  discriminate Hclaim.
Qed.

(** ** Interruptions *)

Section Interrupts.
Context `{FloatOps}.

Lemma pi_bind {A B} (x : M A) (f : A -> M B) :
  propagates_interrupt x -> (forall a, propagates_interrupt (f a)) ->
  propagates_interrupt (bind x f).
Proof.
  unfold propagates_interrupt. intros Hx Hf.
  destruct x as [t [a|e|]]; unfold bind; cbn [fst snd] in *.
  - specialize (Hf a). destruct (f a) as [t' r']. cbn [fst snd] in *.
    intros Hin. apply in_app_or in Hin as [Hin|Hin].
    + destruct (Hx Hin) as (_ & _ & E). discriminate E.
    + destruct (Hf Hin) as (t0 & -> & ->).
      exists (t ++ t0)%list. rewrite app_assoc. split; reflexivity.
  - intros Hin. destruct (Hx Hin) as (t0 & -> & E).
    exists t0. split; [reflexivity | inversion E; reflexivity].
  - intros Hin. destruct (Hx Hin) as (_ & _ & E). discriminate E.
Qed.

Lemma pi_try {A} (x : M A) (h : exn -> option (M A)) :
  propagates_interrupt x ->
  h KeyboardInterrupt = None ->
  (forall e k, h e = Some k -> exists l msg c, k = ([EvLog l msg], Exc (SystemExit c))) ->
  propagates_interrupt (try_except x h).
Proof.
  unfold propagates_interrupt. intros Hx Hki Hh.
  destruct x as [t [a|e|]]; cbn [fst snd try_except] in *; try exact Hx.
  destruct (h e) as [k|] eqn:E; [|exact Hx].
  destruct (Hh _ _ E) as (l & msg & c & ->). cbn [fst snd].
  intros Hin. apply in_app_or in Hin as [Hin|Hin].
  - destruct (Hx Hin) as (_ & _ & Ee). inversion Ee. subst e.
    rewrite Hki in E. discriminate E.
  - destruct Hin as [Hin|[]]. discriminate Hin.
Qed.

Lemma pi_call {A} ev (r : pyresult A) :
  ev <> EvRaise KeyboardInterrupt -> propagates_interrupt (call ev r).
Proof.
  unfold propagates_interrupt. intros Hev.
  destruct r as [a|e]; cbn.
  - intros [E|[]]. contradiction.
  - intros [E|[E|[]]]; [contradiction|]. inversion E. subst e.
    exists [ev]. split; reflexivity.
Qed.

Lemma pi_quiet {A} (x : M A) :
  ~ In (EvRaise KeyboardInterrupt) (fst x) -> propagates_interrupt x.
Proof. intros Hn Hin. contradiction. Qed.

Lemma pi_ret {A} (a : A) : propagates_interrupt (ret a).
Proof. apply pi_quiet. intros []. Qed.

Lemma pi_raise {A} (e : exn) : propagates_interrupt (raise e : M A).
Proof. apply pi_quiet. intros []. Qed.

Lemma pi_lift {A} (r : pyresult A) : propagates_interrupt (lift r).
Proof. destruct r; [apply pi_ret | apply pi_raise]. Qed.

Lemma pi_log l msg : propagates_interrupt ([EvLog l msg], Ret tt).
Proof. apply pi_quiet. intros [E|[]]. discriminate E. Qed.

Lemma pi_parse_args args : propagates_interrupt (parse_args args).
Proof.
  apply pi_quiet.
  destruct (parse_args_cases args) as [(ns & -> & _)|(m & ->)]; cbn.
  - intros [].
  - intros [E|[]]. discriminate E.
Qed.

Ltac pi_handler :=
  let e := fresh "e" in
  let k := fresh "k" in
  let E := fresh "E" in
  intros e k E; destruct e; try discriminate E; inversion E; subst;
  try match goal with
      | |- context [if ?c then _ else _] => destruct c
      end;
  eexists _, _, _; reflexivity.

Ltac pi_step :=
  first
    [ apply pi_ret
    | apply pi_log
    | apply pi_lift
    | apply pi_call; discriminate
    | apply pi_bind; [|intro] ].

Lemma pi_get_credentials w : propagates_interrupt (get_credentials w).
Proof.
  unfold get_credentials.
  apply pi_bind; [apply pi_quiet; intros [E|[]]; discriminate E|]. intros _.
  apply pi_bind.
  { destruct (w_getenv w "SPLUNK_USER") as [[|c u]|]; pi_step. }
  intros username. apply pi_bind.
  { destruct (w_getenv w "SPLUNK_PASS") as [[|c u]|]; pi_step. }
  intros password. apply pi_ret.
Qed.

Lemma pi_connect w host username password :
  propagates_interrupt (connect_to_splunk w host username password).
Proof.
  unfold connect_to_splunk.
  destruct (py_split1 ":" host) as [|h [|port [|x l]]]; try apply pi_raise.
  apply pi_try; [|reflexivity|pi_handler].
  repeat pi_step.
Qed.

Lemma pi_convert w rule pipeline :
  propagates_interrupt (convert_sigma_to_splunk w rule pipeline).
Proof.
  unfold convert_sigma_to_splunk, subprocess_run.
  apply pi_try; [|reflexivity|pi_handler].
  repeat pi_step.
Qed.

Lemma pi_create service name query timer :
  propagates_interrupt (create_scheduled_search service name query timer).
Proof.
  unfold create_scheduled_search.
  apply pi_try; [|reflexivity|pi_handler].
  repeat pi_step.
Qed.

Lemma pi_delete service name :
  propagates_interrupt (delete_saved_search service name).
Proof.
  unfold delete_saved_search.
  apply pi_try; [|reflexivity|pi_handler].
  repeat pi_step.
Qed.

Lemma pi_wait_ready w job fuel : forall k,
  propagates_interrupt (wait_ready w job fuel k).
Proof.
  induction fuel as [|fuel IH]; intros k.
  - apply pi_quiet. intros [].
  - cbn [wait_ready]. apply pi_bind; [apply pi_call; discriminate|].
    intros ready. destruct ready; cbn [negb]; [apply pi_ret|].
    apply pi_bind; [apply pi_call; discriminate|]. intros _. apply IH.
Qed.

Lemma pi_read_stats job : propagates_interrupt (read_stats job).
Proof. unfold read_stats. repeat pi_step. Qed.

Lemma pi_execute w service query fuel :
  propagates_interrupt (execute_search w service query fuel).
Proof.
  unfold execute_search.
  apply pi_bind; [apply pi_call; discriminate|]. intros job.
  apply pi_bind; [apply pi_log|]. intros _.
  apply pi_bind; [apply pi_wait_ready|]. intros _.
  apply pi_bind; [apply pi_read_stats|]. intros stats.
  apply pi_bind; [apply pi_log|]. intros _.
  destruct (String.eqb (st_isDone stats) "1"); [apply pi_log | apply pi_ret].
Qed.

Lemma pi_main w args fuel : propagates_interrupt (main w args fuel).
Proof.
  unfold main.
  apply pi_bind; [apply pi_parse_args|]. intros ns.
  apply pi_bind; [apply pi_get_credentials|]. intros [username password].
  apply pi_bind; [apply pi_connect|]. intros service.
  destruct (ns_delete ns); [apply pi_delete|].
  destruct (ns_rule ns) as [[|c r]|]; try apply pi_ret.
  apply pi_bind; [apply pi_convert|]. intros q.
  apply pi_bind; [apply pi_create|]. intros sq.
  apply pi_execute.
Qed.

(** Whatever call into the world is interrupted, the script logs the
    interruption next and ends with status 1. *)
Lemma script_interrupted w args fuel :
  In (EvRaise KeyboardInterrupt) (fst (script w args fuel)) ->
  exists t,
    script w args fuel
    = ((t ++ [EvRaise KeyboardInterrupt; EvLog INFO interrupted_msg])%list, Exit 1).
Proof.
  intros Hin.
  assert (Hmain : In (EvRaise KeyboardInterrupt) (fst (main w args fuel))).
  { unfold script in Hin.
    destruct (main w args fuel) as [t [a|e|]]; cbn in Hin |- *; try exact Hin.
    destruct e; cbn in Hin; try exact Hin.
    apply in_app_or in Hin as [Hin|[Hin|[]]]; [exact Hin | discriminate Hin]. }
  destruct (pi_main w args fuel Hmain) as (t & Et & Er).
  exists t.
  rewrite (script_interrupt w args fuel (t ++ [EvRaise KeyboardInterrupt])%list).
  - rewrite <- app_assoc. reflexivity.
  - rewrite <- Et, <- Er. destruct (main w args fuel). reflexivity.
Qed.

End Interrupts.

(** ** Exit status *)

Section ExitStatus.
Context `{FloatOps}.

Lemma connect_failed w host h port u p e :
  py_split1 ":" host = [h; port] ->
  w_connect w h port u p = Raise e ->
  (exists m, e = ConnectionRefusedError m) \/ (exists m, e = TimeoutError m)
  \/ (exists s m, e = AuthenticationError s m) ->
  exists msg,
    connect_to_splunk w host u p
    = ([EvConnect h port u p; EvRaise e; EvLog ERROR msg], Exc (SystemExit 1)).
Proof.
  intros E1 E2 He. unfold connect_to_splunk. rewrite E1, E2.
  destruct He as [[m ->]|[[m ->]|(s & m & ->)]]; eexists; reflexivity.
Qed.

Lemma wait_ready_interrupted w job n e : forall k fuel,
  (forall i, (i <= n)%nat -> job_is_ready job (k + i) = Ok false) ->
  (forall i, (i < n)%nat -> w_sleep w (k + i) = Ok tt) ->
  w_sleep w (k + n) = Raise e ->
  (n < fuel)%nat ->
  wait_ready w job fuel k
  = ((polls n ++ [EvIsReady; EvSleep 2; EvRaise e])%list, Exc e).
Proof.
  induction n as [|n IH]; intros k fuel Hnot Hsleep Hraise Hfuel;
    (destruct fuel as [|fuel]; [lia|]); cbn [wait_ready].
  - pose proof (Hnot 0%nat (Nat.le_refl _)) as E1.
    rewrite Nat.add_0_r in E1, Hraise. rewrite E1.
    cbn -[wait_ready]. rewrite Hraise. reflexivity.
  - assert (H0 : (0 <= S n)%nat) by lia. assert (H1 : (0 < S n)%nat) by lia.
    pose proof (Hnot 0%nat H0) as E1. pose proof (Hsleep 0%nat H1) as E2.
    rewrite Nat.add_0_r in E1, E2. rewrite E1.
    cbn -[wait_ready polls]. rewrite E2. cbn -[wait_ready polls].
    rewrite (IH (S k) fuel).
    + reflexivity.
    + intros i Hi. replace (S k + i)%nat with (k + S i)%nat by lia.
      apply Hnot. lia.
    + intros i Hi. replace (S k + i)%nat with (k + S i)%nat by lia.
      apply Hsleep. lia.
    + replace (S k + n)%nat with (k + S n)%nat by lia. exact Hraise.
    + lia.
Qed.

Lemma execute_search_interrupted w service query job n fuel e :
  jobs_create service query = Ok job ->
  (forall i, (i <= n)%nat -> job_is_ready job i = Ok false) ->
  (forall i, (i < n)%nat -> w_sleep w i = Ok tt) ->
  w_sleep w n = Raise e ->
  (n < fuel)%nat ->
  execute_search w service query fuel
  = ((EvJobCreate query :: EvLog INFO waiting_msg
        :: polls n ++ [EvIsReady; EvSleep 2; EvRaise e])%list,
     Exc e).
Proof.
  intros Hjob Hnot Hsleep Hraise Hfuel.
  unfold execute_search. rewrite Hjob.
  cbn -[wait_ready read_stats polls].
  rewrite (wait_ready_interrupted w job n e 0 fuel Hnot Hsleep Hraise Hfuel).
  reflexivity.
Qed.

(** C9, amended: the process ends with status 0 when [main] returns,
    with status 2 when the address or the schedule is not valid, with
    status 1 when the connection is refused or times out, when the
    credentials are rejected, when the translation fails, when the search
    cannot be created and when the search to delete is not found; a user
    interruption is caught at the top level, logged, and ends the process
    with status 1, whichever call into the world it interrupts, the sleep
    of the polling loop for one. *)
Theorem exit_status (w : World) (args : RawArgs) (fuel : nat) :
  (forall t, main w args fuel = (t, Ret tt) -> script w args fuel = (t, Exit 0))
  /\ (forall m,
        validate_host_port (or_default (a_host args) default_host)
        = Raise (ArgumentTypeError m) ->
        script w args fuel = ([EvParserError ("argument --host: " ++ m)], Exit 2))
  /\ (forall e,
        validate_cron (or_default (a_timer args) default_timer) = Raise e ->
        snd (script w args fuel) = Exit 2)
  /\ (forall ns tc u p h port e,
        parse_args args = ([], Ret ns) ->
        get_credentials w = (tc, Ret (u, p)) ->
        py_split1 ":" (ns_host ns) = [h; port] ->
        w_connect w h port u p = Raise e ->
        (exists m, e = ConnectionRefusedError m) \/ (exists m, e = TimeoutError m)
        \/ (exists s m, e = AuthenticationError s m) ->
        snd (script w args fuel) = Exit 1)
  /\ (forall ns service t rule,
        connected w args ns service t ->
        ns_delete ns = false -> ns_rule ns = Some rule -> rule <> "" ->
        (w_exec w (sigma_command rule (ns_pipeline ns)) = ExecNotFound
         \/ exists rc out err,
              rc <> 0
              /\ w_exec w (sigma_command rule (ns_pipeline ns))
                 = ExecExited rc out err) ->
        snd (script w args fuel) = Exit 1)
  /\ (forall ns service t rule tq q status m,
        connected w args ns service t ->
        ns_delete ns = false -> ns_rule ns = Some rule -> rule <> "" ->
        convert_sigma_to_splunk w rule (ns_pipeline ns) = (tq, Ret q) ->
        saved_searches_create service (ns_name ns) ("search " ++ q) (ns_timer ns)
                              true search_description
        = Raise (HTTPError status m) ->
        snd (script w args fuel) = Exit 1)
  /\ (forall ns service t m,
        connected w args ns service t ->
        ns_delete ns = true ->
        saved_searches_delete service (ns_name ns) = Raise (KeyError m) ->
        snd (script w args fuel) = Exit 1)
  /\ (forall t,
        main w args fuel = (t, Exc KeyboardInterrupt) ->
        script w args fuel = ((t ++ [EvLog INFO interrupted_msg])%list, Exit 1))
  /\ snd (script w args fuel) <> Traceback KeyboardInterrupt
  /\ (In (EvRaise KeyboardInterrupt) (fst (script w args fuel)) ->
      exists t,
        script w args fuel
        = ((t ++ [EvRaise KeyboardInterrupt; EvLog INFO interrupted_msg])%list,
           Exit 1))
  /\ (forall ns service t rule tq q saved job n,
        connected w args ns service t ->
        ns_delete ns = false -> ns_rule ns = Some rule -> rule <> "" ->
        convert_sigma_to_splunk w rule (ns_pipeline ns) = (tq, Ret q) ->
        saved_searches_create service (ns_name ns) ("search " ++ q) (ns_timer ns)
                              true search_description = Ok saved ->
        jobs_create service (PStr ("search " ++ q)) = Ok job ->
        (forall i, (i <= n)%nat -> job_is_ready job i = Ok false) ->
        (forall i, (i < n)%nat -> w_sleep w i = Ok tt) ->
        w_sleep w n = Raise KeyboardInterrupt ->
        (n < fuel)%nat ->
        exists t',
          script w args fuel
          = ((t' ++ [EvIsReady; EvSleep 2; EvRaise KeyboardInterrupt;
                     EvLog INFO interrupted_msg])%list,
             Exit 1)).
Proof.
  split; [|split; [|split; [|split; [|split; [|split; [|split; [|split; [|split;
    [|split]]]]]]]]].
  - intros t. apply script_success.
  - intros m E. unfold script, main, parse_args, arg_type. rewrite E. reflexivity.
  - intros e E.
    destruct (parse_args_cases args) as [(ns & _ & _ & Ht)|(m & Hm)].
    + rewrite E in Ht. discriminate Ht.
    + rewrite (script_usage_error w args fuel m Hm). reflexivity.
  - intros ns tc u p h port e Hp Hc Hs Hk He.
    destruct (connect_failed _ _ _ _ _ _ _ Hs Hk He) as [msg Hf].
    unfold script, main. rewrite Hp, bind_ret_l, Hc, bind_ret_l.
    cbn beta iota. rewrite Hf. reflexivity.
  - intros ns service t rule Hc Hd Hr Hne Hfail.
    apply (script_action_exit _ _ _ _ _ _ _ Hc).
    rewrite (action_create_flow _ _ _ _ _ Hd Hr Hne). unfold create_steps.
    destruct Hfail as [E|(rc & out & err & Hrc & E)].
    + rewrite (convert_not_found _ _ _ E). reflexivity.
    + rewrite (convert_failed _ _ _ _ _ _ Hrc E). reflexivity.
  - intros ns service t rule tq q status m Hc Hd Hr Hne Hq E.
    apply (script_action_exit _ _ _ _ _ _ _ Hc).
    rewrite (action_create_flow _ _ _ _ _ Hd Hr Hne).
    rewrite (create_steps_after_convert _ _ _ _ _ _ _ _ _ Hq), bind_ret_l.
    rewrite (create_http_error _ _ _ _ _ _ E). reflexivity.
  - intros ns service t m Hc Hd E.
    apply (script_action_exit _ _ _ _ _ _ _ Hc).
    unfold action. rewrite Hd, (delete_not_found _ _ _ E). reflexivity.
  - intros t. apply script_interrupt.
  - unfold script. destruct (main w args fuel) as [t [a|e|]]; cbn; try discriminate.
    destruct e; cbn; discriminate.
  - apply script_interrupted.
  - intros ns service t rule tq q saved job n Hc Hd Hr Hne Hq Hcr Hj Hnot Hsleep
           Hraise Hfuel.
    pose proof (main_connected _ _ _ _ _ fuel Hc) as Hm.
    rewrite (action_create_flow _ _ _ _ _ Hd Hr Hne) in Hm.
    rewrite (create_steps_after_convert _ _ _ _ _ _ _ _ _ Hq), bind_ret_l in Hm.
    rewrite (create_ok _ _ _ _ _ Hcr), bind_ret_l in Hm.
    rewrite (execute_search_interrupted _ _ _ _ _ _ _ Hj Hnot Hsleep Hraise Hfuel)
      in Hm.
    cbn [fst snd] in Hm.
    rewrite (script_interrupt _ _ _ _ Hm).
    eexists. f_equal.
    change (EvJobCreate (PStr ("search " ++ q)) :: EvLog INFO waiting_msg
              :: polls n ++ [EvIsReady; EvSleep 2; EvRaise KeyboardInterrupt])%list
      with ([EvJobCreate (PStr ("search " ++ q)); EvLog INFO waiting_msg]
              ++ polls n ++ [EvIsReady; EvSleep 2; EvRaise KeyboardInterrupt])%list.
    rewrite !app_assoc.
    rewrite <- (app_assoc _ [EvIsReady; EvSleep 2; EvRaise KeyboardInterrupt]
                          [EvLog INFO interrupted_msg]).
    reflexivity.
Qed.

End ExitStatus.

Lemma exit_status_witness :
  snd (script (H := decimal_floats) demo_world demo_args 10) = Exit 0
  /\ snd (script (H := decimal_floats) demo_world demo_bad_timer_args 10) = Exit 2
  /\ snd (script (H := decimal_floats)
            (make_world (Raise (ConnectionRefusedError "[Errno 111] Connection refused"))
                        ExecNotFound (fun _ => Ok tt))
            demo_args 10) = Exit 1
  /\ exists t',
       script (H := decimal_floats) interrupted_world demo_args 10
       = ((t' ++ [EvIsReady; EvSleep 2; EvRaise KeyboardInterrupt;
                  EvLog INFO interrupted_msg])%list, Exit 1).
Proof.
  split; [|split; [|split]].
  - destruct (exit_status (H := decimal_floats) demo_world demo_args 10) as (H1 & _).
    rewrite (H1 (fst (main (H := decimal_floats) demo_world demo_args 10)) eq_refl).
    reflexivity.
  - destruct (exit_status (H := decimal_floats) demo_world demo_bad_timer_args 10)
      as (_ & _ & H3 & _).
    apply (H3 (ArgumentTypeError cron_count_msg)). reflexivity.
  - destruct (exit_status (H := decimal_floats)
                (make_world
                   (Raise (ConnectionRefusedError "[Errno 111] Connection refused"))
                   ExecNotFound (fun _ => Ok tt))
                demo_args 10) as (_ & _ & _ & H4 & _).
    apply (H4 demo_namespace [EvLoadDotenv] "admin" "changeme" "127.0.0.1" "8089"
              (ConnectionRefusedError "[Errno 111] Connection refused"));
      try reflexivity.
    left. eexists. reflexivity.
  - destruct (exit_status (H := decimal_floats) interrupted_world demo_args 10)
      as (_ & _ & _ & _ & _ & _ & _ & _ & _ & _ & H11).
    apply (H11 demo_namespace demo_service demo_prefix "r.yml"
               [EvSubprocessRun (sigma_command "r.yml" "--without-pipeline");
                EvLog INFO "Generated Splunk query: foo=bar"]
               "foo=bar" demo_saved_search (demo_job "1") 1%nat).
    + apply demo_connected.
    + reflexivity.
    + reflexivity.
    + discriminate.
    + reflexivity.
    + reflexivity.
    + reflexivity.
    + intros i Hi. destruct i as [|[|i]]; [reflexivity | reflexivity | lia].
    + intros i Hi. destruct i as [|i]; [reflexivity | lia].
    + reflexivity.
    + lia.
Defined.

(** C9 as claimed fails: a schedule that is not valid is a fatal
    validation failure, and the process ends with status 2, not 1. *)
Lemma validation_failure_status :
  validate_cron "every minute" = Raise (ArgumentTypeError cron_count_msg)
  /\ script (H := decimal_floats) demo_world demo_bad_timer_args 10
     = ([EvParserError ("argument -t/--timer: " ++ cron_count_msg)], Exit 2)
  /\ snd (script (H := decimal_floats) demo_world demo_bad_timer_args 10) <> Exit 1.
Proof. split; [reflexivity | split; [reflexivity | discriminate]]. Qed.

(** * Further properties *)

(** ** What the validators accept, exactly *)

Lemma lang_star_digits_inv r s :
  lang r s -> r = ReStar ReDigit -> all_chars is_digit s = true.
Proof.
  induction 1 as [| | | | | | |r0 s1 s2 H1 _ H2 IH2]; intros E; try discriminate E.
  - reflexivity.
  - inversion E; subst r0. inversion H1 as [| |c Hc| | | | |]; subst.
    simpl. rewrite Hc. apply IH2. reflexivity.
Qed.

Lemma lang_digits_inv s : lang digits s -> digits1 s.
Proof.
  unfold digits, RePlus. intros H.
  inversion H as [| | |? ? sa sb Ha Hb| | | |]; subst.
  inversion Ha as [| |c Hc| | | | |]; subst.
  split; [discriminate|]. simpl. rewrite Hc.
  apply (lang_star_digits_inv _ _ Hb eq_refl).
Qed.

Lemma lang_comma_list_inv r s :
  lang r s -> r = ReStar (ReCat (ReChar ",") digits) ->
  exists ns, Forall digits1 ns /\ s = comma_items ns.
Proof.
  induction 1 as [| | | | | | |r0 s1 s2 H1 _ H2 IH2]; intros E; try discriminate E.
  - exists []. split; [constructor | reflexivity].
  - inversion E; subst r0. destruct (IH2 eq_refl) as (ns & Hns & ->).
    inversion H1 as [| | |? ? sa sb Ha Hb| | | |]; subst.
    inversion Ha; subst. apply lang_digits_inv in Hb.
    exists (sb :: ns). split; [constructor; assumption | reflexivity].
Qed.

Lemma lang_shape s : lang cron_pattern s -> cron_field_shape s.
Proof.
  unfold cron_pattern. intros H.
  inversion H as [| | | |? ? ? H1|? ? ? H1| |]; subst; clear H.
  { inversion H1; subst. constructor. }
  inversion H1 as [| | | |? ? ? H2|? ? ? H2| |]; subst; clear H1.
  { apply ShapeNumber, lang_digits_inv. exact H2. }
  inversion H2 as [| | | |? ? ? H3|? ? ? H3| |]; subst; clear H2.
  { inversion H3 as [| | |? ? ? ? Ha Hb| | | |]; subst.
    inversion Ha; subst.
    inversion Hb as [| | |? ? ? ? Hc Hd| | | |]; subst.
    inversion Hc; subst. apply lang_digits_inv in Hd.
    apply (ShapeStep _ Hd). }
  inversion H3 as [| | | |? ? ? H4|? ? ? H4| |]; subst; clear H3.
  { inversion H4 as [| | |? ? ? ? Ha Hb| | | |]; subst.
    apply lang_digits_inv in Ha.
    destruct (lang_comma_list_inv _ _ Hb eq_refl) as (ns & Hns & ->).
    apply (ShapeList _ _ Ha Hns). }
  inversion H4 as [| | |? ? ? ? Ha Hb| | | |]; subst.
  apply lang_digits_inv in Ha.
  inversion Hb as [| | |? ? ? ? Hc Hd| | | |]; subst.
  inversion Hc; subst. apply lang_digits_inv in Hd.
  apply (ShapeRange _ _ Ha Hd).
Qed.

Lemma chop_newline_field s :
  all_chars (fun c => negb (is_space c)) s = true -> chop_newline s = None.
Proof.
  induction s as [|c s IH]; [reflexivity|].
  intros H. simpl in H. apply andb_prop in H as [Hc Hs].
  cbn [chop_newline]. destruct s as [|c' s'].
  - destruct (Ascii.eqb c "010") eqn:E; [|reflexivity].
    apply Ascii.eqb_eq in E. subst c. discriminate Hc.
  - rewrite (IH Hs). reflexivity.
Qed.

(** On a field, the pattern matches exactly the five shapes. *)
Lemma field_matches_iff f :
  is_field f -> (re_match_anchored cron_pattern f = true <-> cron_field_shape f).
Proof.
  intros [_ Hf]. split; [|apply shape_matches].
  unfold re_match_anchored. rewrite (chop_newline_field _ Hf), orb_false_r.
  intros H. apply lang_shape, re_fullmatch_lang. exact H.
Qed.

Lemma rev_string_no_space s : forall a,
  all_chars (fun c => negb (is_space c)) s = true ->
  all_chars (fun c => negb (is_space c)) a = true ->
  all_chars (fun c => negb (is_space c)) (rev_string a s) = true.
Proof.
  induction s as [|c s IH]; intros a Hs Ha; [exact Ha|].
  simpl in Hs. apply andb_prop in Hs as [Hc Hs].
  simpl. apply IH; [exact Hs|]. simpl. rewrite Hc. exact Ha.
Qed.

Lemma flush_fields cur k :
  all_chars (fun c => negb (is_space c)) cur = true ->
  Forall is_field k -> Forall is_field (flush cur k).
Proof.
  intros Hc Hk. destruct cur as [|c cur]; [exact Hk|].
  unfold flush. constructor; [|exact Hk]. split.
  - simpl. apply rev_string_nonempty. discriminate.
  - apply rev_string_no_space; [exact Hc | reflexivity].
Qed.

Lemma split_ws_fields s : forall cur,
  all_chars (fun c => negb (is_space c)) cur = true ->
  Forall is_field (split_ws cur s).
Proof.
  induction s as [|c s IH]; intros cur Hc; cbn [split_ws].
  - apply flush_fields; [exact Hc | constructor].
  - destruct (is_space c) eqn:E.
    + apply flush_fields; [exact Hc | apply IH; reflexivity].
    + apply IH. simpl. rewrite E. exact Hc.
Qed.

(** What [split()] returns are fields: none is empty, none has white
    space. *)
Lemma py_split_fields s : Forall is_field (py_split s).
Proof. apply split_ws_fields. reflexivity. Qed.

Lemma check_fields_ok_inv parts :
  Forall is_field parts -> check_fields parts = Ok tt ->
  Forall cron_field_shape parts.
Proof.
  induction 1 as [|p parts Hp _ IH]; simpl; intros H; [constructor|].
  destruct (re_match_anchored cron_pattern p) eqn:E; [|discriminate H].
  constructor; [apply (field_matches_iff p Hp); exact E | apply IH; exact H].
Qed.

(** X1: [validate_cron] accepts a schedule exactly when it has five
    white-space separated fields, each of one of the five shapes; what it
    returns is then the schedule itself. *)
Theorem validate_cron_iff (timer r : string) :
  validate_cron timer = Ok r
  <-> r = timer
      /\ List.length (py_split timer) = 5%nat
      /\ Forall cron_field_shape (py_split timer).
Proof.
  split.
  - intros H. pose proof (validate_cron_returns _ _ H) as ->.
    unfold validate_cron in H. rewrite py_split_strip in H.
    destruct (Nat.eqb_spec (List.length (py_split timer)) 5) as [E|E];
      cbn [negb] in H; [|discriminate H].
    destruct (check_fields (py_split timer)) as [[]|e] eqn:C; [|discriminate H].
    repeat split; [exact E|].
    apply check_fields_ok_inv; [apply py_split_fields | exact C].
  - intros (-> & E & HF). apply validate_cron_accepts; assumption.
Qed.

Lemma check_fields_first_bad good bad rest :
  Forall cron_field_shape good -> is_field bad -> ~ cron_field_shape bad ->
  check_fields (good ++ bad :: rest)
  = Raise (ArgumentTypeError ("Invalid cron field: '" ++ bad ++ "'")).
Proof.
  intros Hg Hf Hb. induction Hg as [|g good Hgs _ IH]; simpl.
  - destruct (re_match_anchored cron_pattern bad) eqn:E; [|reflexivity].
    exfalso. apply Hb, (field_matches_iff bad Hf). exact E.
  - rewrite (shape_matches _ Hgs). exact IH.
Qed.

(** X2: when a schedule has five fields and some field has none of the
    shapes, [validate_cron] fails with a message that quotes the first
    such field. *)
Theorem validate_cron_bad_field (timer bad : string) (good rest : list string) :
  py_split timer = (good ++ bad :: rest)%list ->
  List.length (py_split timer) = 5%nat ->
  Forall cron_field_shape good ->
  ~ cron_field_shape bad ->
  validate_cron timer
  = Raise (ArgumentTypeError ("Invalid cron field: '" ++ bad ++ "'")).
Proof.
  intros Hs Hl Hg Hb. unfold validate_cron. rewrite py_split_strip.
  apply Nat.eqb_eq in Hl. rewrite Hl. cbn [negb].
  assert (Hf : is_field bad).
  { pose proof (py_split_fields timer) as HF. rewrite Hs in HF.
    apply Forall_elt in HF. exact HF. }
  rewrite Hs, (check_fields_first_bad _ _ _ Hg Hf Hb). reflexivity.
Qed.

Lemma validate_cron_iff_witness :
  Forall cron_field_shape (py_split "*/30 1,15 2-5 7 *").
Proof.
  exact (proj2 (proj2 (proj1 (validate_cron_iff "*/30 1,15 2-5 7 *"
                                                 "*/30 1,15 2-5 7 *") eq_refl))).
Defined.

Lemma validate_cron_bad_field_witness :
  validate_cron "*/30 1- * * *"
  = Raise (ArgumentTypeError "Invalid cron field: '1-'").
Proof.
  apply (validate_cron_bad_field "*/30 1- * * *" "1-" ["*/30"] ["*"; "*"; "*"]).
  - reflexivity.
  - reflexivity.
  - apply Forall_cons; [|apply Forall_nil].
    apply (ShapeStep "30"). split; [discriminate | reflexivity].
  - intros Hs. apply shape_matches in Hs. discriminate Hs.
Defined.

(** ** What the address validator accepts, exactly *)

(** What an accepted address is made of. *)
Lemma validate_host_port_ok_inv (s r : string) :
  validate_host_port s = Ok r ->
  r = s
  /\ exists h p n,
       s = h ++ ":" ++ p /\ no_char ":" h
       /\ py_int p = Some n /\ 1 <= n <= 65535.
Proof.
  intros Hv. pose proof (validate_host_port_returns _ _ Hv) as ->.
  split; [reflexivity|].
  unfold validate_host_port, py_split1 in Hv.
  destruct (split_first ":" s) as [[h p]|] eqn:E; [|discriminate Hv].
  destruct (split_first_some _ _ _ _ E) as [-> Hh].
  destruct (py_int p) as [n|] eqn:Ep; [|discriminate Hv].
  exists h, p, n. repeat split; try assumption;
    destruct (Z.leb_spec 1 n), (Z.leb_spec n 65535); simpl in Hv;
    try discriminate Hv; lia.
Qed.

(** X3: an address is accepted exactly when it is a colon-free host, a
    colon and a port text that [int()] reads as a number from 1 to 65535;
    what is returned is then the address itself. *)
Theorem validate_host_port_iff (s r : string) :
  validate_host_port s = Ok r
  <-> r = s
      /\ exists h p n,
           s = h ++ ":" ++ p /\ no_char ":" h
           /\ py_int p = Some n /\ 1 <= n <= 65535.
Proof.
  split.
  - apply validate_host_port_ok_inv.
  - intros (-> & h & p & n & -> & Hh & Hp & Hn).
    rewrite (validate_host_port_split _ _ Hh), Hp.
    destruct (Z.leb_spec 1 n), (Z.leb_spec n 65535); simpl; try reflexivity; lia.
Qed.

Lemma validate_host_port_iff_witness :
  exists h p n,
    "localhost: 8089 " = h ++ ":" ++ p /\ no_char ":" h
    /\ py_int p = Some n /\ 1 <= n <= 65535.
Proof.
  exact (proj2 (proj1 (validate_host_port_iff "localhost: 8089 "
                                              "localhost: 8089 ") eq_refl)).
Defined.

(** ** Port numbers at the bounds *)


Lemma py_str_int_short n :
  0 <= n < 2 ^ 4299 -> (String.length (py_str_int n) <= max_str_digits)%nat.
Proof.
  intros [Hn Hlt]. pose proof (py_str_int_length n Hn) as HL.
  assert (Z.log2 n < 4299).
  { destruct (Z.eq_dec n 0) as [->|Hz]; [reflexivity|].
    apply Z.log2_lt_pow2; lia. }
  unfold max_str_digits. pose proof (Z.log2_nonneg n). lia.
Qed.




(** ** Port texts that are not plain numbers *)

Lemma int_space_facts c :
  is_int_space c = true ->
  is_digit c = false /\ Ascii.eqb c "_" = false /\ is_int_char c = true.
Proof.
  destruct c as [[] [] [] [] [] [] [] []]; vm_compute; intros H;
    try discriminate H; repeat split; reflexivity.
Qed.

Lemma lstrip_app p a s : all_chars p a = true -> lstrip p (a ++ s) = lstrip p s.
Proof.
  induction a as [|c a IH]; simpl; intros H; [reflexivity|].
  apply andb_prop in H as [Hc Ha]. rewrite Hc. apply IH. exact Ha.
Qed.

Lemma scan_digits_app ds b : forall acc n,
  all_chars is_digit ds = true -> all_chars is_int_space b = true ->
  scan_digits (ds ++ b) acc n false
  = Some (digits_value ds acc, (n + String.length ds)%nat, b).
Proof.
  induction ds as [|c ds IH]; intros acc n Hd Hb.
  - simpl. rewrite Nat.add_0_r. destruct b as [|c b]; [reflexivity|].
    simpl in Hb. apply andb_prop in Hb as [Hc _].
    destruct (int_space_facts c Hc) as (Hnd & Hnu & _).
    simpl. rewrite Hnd, Hnu. reflexivity.
  - simpl in Hd. apply andb_prop in Hd as [Hc Hd].
    cbn [append scan_digits digits_value String.length]. rewrite Hc.
    rewrite (IH _ _ Hd Hb), Nat.add_succ_r. reflexivity.
Qed.

Lemma py_int_padded a ds b :
  all_chars is_int_space a = true -> digits1 ds ->
  (String.length ds <= max_str_digits)%nat ->
  all_chars is_int_space b = true ->
  py_int (a ++ ds ++ b) = Some (digits_value ds 0).
Proof.
  intros Ha [Hne Hd] Hlen Hb. unfold py_int.
  rewrite (lstrip_app _ _ _ Ha).
  destruct ds as [|c ds]; [congruence|].
  pose proof Hd as Hd'. simpl in Hd'. apply andb_prop in Hd' as [Hc _].
  destruct (digit_facts c Hc) as (Hsp & _ & Hp & Hm & Hu & _).
  cbn [append lstrip]. rewrite Hsp, Hp, Hm.
  unfold parse_unsigned. rewrite Hu.
  change (String c (ds ++ b)) with (String c ds ++ b).
  rewrite (scan_digits_app _ _ _ _ Hd Hb).
  cbn [Nat.add String.length Nat.eqb].
  destruct (Nat.ltb_spec max_str_digits (S (String.length ds))) as [Hlt|_].
  - simpl in Hlen. lia.
  - rewrite Hb. reflexivity.
Qed.

(** X5: white space around the port number is accepted, as [int()]
    accepts it, and the address is returned with it. *)
Theorem validate_host_port_padded (host a b : string) (p : Z) :
  no_char ":" host -> 1 <= p <= 65535 ->
  all_chars is_int_space a = true -> all_chars is_int_space b = true ->
  validate_host_port (host ++ ":" ++ a ++ py_str_int p ++ b)
  = Ok (host ++ ":" ++ a ++ py_str_int p ++ b).
Proof.
  intros Hh Hp Ha Hb. rewrite (validate_host_port_split _ _ Hh).
  assert (H0 : 0 <= p) by lia.
  destruct (py_str_int_digits p H0) as [Hd Hv].
  assert (Hs : (String.length (py_str_int p) <= max_str_digits)%nat).
  { apply py_str_int_short. split; [lia|].
    apply Z.lt_trans with (2 ^ 16); [lia|]. apply Z.pow_lt_mono_r; lia. }
  rewrite (py_int_padded _ _ _ Ha Hd Hs Hb), Hv.
  destruct (Z.leb_spec 1 p), (Z.leb_spec p 65535); simpl; try reflexivity; lia.
Qed.

Lemma validate_host_port_padded_witness :
  validate_host_port ("localhost" ++ ":" ++ " " ++ py_str_int 8089 ++ "
")
  = Ok ("localhost" ++ ":" ++ " " ++ py_str_int 8089 ++ "
").
Proof.
  apply validate_host_port_padded; [reflexivity | lia | reflexivity | reflexivity].
Defined.

Lemma all_chars_impl (p q : ascii -> bool) s :
  (forall c, p c = true -> q c = true) ->
  all_chars p s = true -> all_chars q s = true.
Proof.
  intros Hpq. induction s as [|c s IH]; simpl; intros H; [reflexivity|].
  apply andb_prop in H as [Hc Hs]. rewrite (Hpq _ Hc), (IH Hs). reflexivity.
Qed.

Lemma lstrip_decomp p s :
  exists a, s = a ++ lstrip p s /\ all_chars p a = true.
Proof.
  induction s as [|c s (a & Ea & Ha)]; [exists ""; split; reflexivity|].
  simpl. destruct (p c) eqn:E.
  - exists (String c a). split; [simpl; congruence | simpl; rewrite E; exact Ha].
  - exists "". split; reflexivity.
Qed.

Lemma scan_digits_chars s : forall acc n us v k rest,
  scan_digits s acc n us = Some (v, k, rest) ->
  all_chars is_int_char rest = true -> all_chars is_int_char s = true.
Proof.
  induction s as [|c s IH]; intros acc n us v k rest H Hr.
  - reflexivity.
  - cbn [scan_digits] in H. cbn [all_chars].
    destruct (is_digit c) eqn:Ed.
    + rewrite (IH _ _ _ _ _ _ H Hr), andb_true_r.
      unfold is_int_char. rewrite Ed. rewrite orb_true_r. reflexivity.
    + destruct (Ascii.eqb c "_") eqn:Eu.
      * destruct us; [discriminate H|].
        rewrite (IH _ _ _ _ _ _ H Hr), andb_true_r.
        unfold is_int_char. rewrite Eu. apply orb_true_r.
      * destruct us; [discriminate H|]. inversion H; subst. exact Hr.
Qed.

Lemma parse_unsigned_chars s v :
  parse_unsigned s = Some v -> all_chars is_int_char s = true.
Proof.
  unfold parse_unsigned. destruct s as [|c s]; [discriminate|].
  destruct (Ascii.eqb c "_"); [discriminate|].
  destruct (scan_digits (String c s) 0 0 false) as [[[v' k] rest]|] eqn:E;
    [|discriminate].
  destruct (k =? 0)%nat; [discriminate|].
  destruct (max_str_digits <? k)%nat; [discriminate|].
  destruct (all_chars is_int_space rest) eqn:Er; [|discriminate].
  intros _. apply (scan_digits_chars _ _ _ _ _ _ _ E).
  apply (all_chars_impl is_int_space); [|exact Er].
  intros c0 Hc0. apply (int_space_facts c0 Hc0).
Qed.

(** A text that [int()] accepts has only digits, signs, underscores and
    white space. *)
Lemma py_int_chars s n : py_int s = Some n -> all_chars is_int_char s = true.
Proof.
  unfold py_int. destruct (lstrip_decomp is_int_space s) as (a & Ea & Ha).
  intros H. rewrite Ea, all_chars_app.
  rewrite (all_chars_impl is_int_space is_int_char a
             (fun c Hc => proj2 (proj2 (int_space_facts c Hc))) Ha).
  cbn [andb].
  destruct (lstrip is_int_space s) as [|c r]; [discriminate H|].
  destruct (Ascii.eqb c "+") eqn:Ep.
  - cbn [all_chars]. rewrite (parse_unsigned_chars _ _ H), andb_true_r.
    unfold is_int_char. rewrite Ep. rewrite !orb_true_r. reflexivity.
  - destruct (Ascii.eqb c "-") eqn:Em.
    + destruct (parse_unsigned r) as [v|] eqn:Ev; [|discriminate H].
      cbn [all_chars]. rewrite (parse_unsigned_chars _ _ Ev), andb_true_r.
      unfold is_int_char. rewrite Em. rewrite !orb_true_r. reflexivity.
    + apply (parse_unsigned_chars _ _ H).
Qed.

(** X6: an address that is accepted has exactly one colon: a host that
    has a colon of its own, as an IPv6 literal has, is never accepted. *)
Theorem validate_host_port_one_colon (s r : string) :
  validate_host_port s = Ok r ->
  exists h p, s = h ++ ":" ++ p /\ no_char ":" h /\ no_char ":" p.
Proof.
  intros H. unfold validate_host_port, py_split1 in H.
  destruct (split_first ":" s) as [[h p]|] eqn:E; [|discriminate H].
  destruct (split_first_some _ _ _ _ E) as [-> Hh].
  destruct (py_int p) as [n|] eqn:Ep; [|discriminate H].
  exists h, p. repeat split; [exact Hh|].
  apply (all_chars_impl is_int_char); [|exact (py_int_chars _ _ Ep)].
  intros c. destruct c as [[] [] [] [] [] [] [] []]; vm_compute; congruence.
Qed.

Lemma validate_host_port_one_colon_witness :
  exists h p, "localhost:8089" = h ++ ":" ++ p /\ no_char ":" h /\ no_char ":" p.
Proof.
  exact (validate_host_port_one_colon "localhost:8089" "localhost:8089" eq_refl).
Defined.

(** ** The effects a run can have *)

Lemma in_bind {A B} (x : M A) (f : A -> M B) e :
  In e (fst (bind x f)) ->
  In e (fst x) \/ exists a, snd x = Ret a /\ In e (fst (f a)).
Proof.
  destruct x as [t [a|e0|]]; unfold bind; cbn [fst snd]; auto.
  destruct (f a) as [t' r'] eqn:E. cbn [fst]. intros Hin.
  apply in_app_or in Hin as [Hin|Hin]; [left; exact Hin|].
  right. exists a. rewrite E. split; [reflexivity | exact Hin].
Qed.

(** What an accepted command line becomes. *)
Lemma parse_args_ret args t ns :
  parse_args args = (t, Ret ns) ->
  t = []
  /\ a_name args = Some (ns_name ns)
  /\ ns_host ns = host_of args
  /\ validate_host_port (host_of args) = Ok (host_of args)
  /\ ns_rule ns = a_rule args
  /\ ns_delete ns = a_delete args
  /\ ns_timer ns = timer_of args
  /\ validate_cron (timer_of args) = Ok (timer_of args)
  /\ ns_pipeline ns = pipeline_of args
  /\ (a_delete args = true -> a_rule args = None)
  /\ (a_delete args = false -> a_rule args <> None).
Proof.
  unfold parse_args, arg_type, host_of, timer_of, pipeline_of.
  destruct (validate_host_port (or_default (a_host args) default_host))
    as [host|e] eqn:Eh.
  2:{ destruct (validate_host_port_raises _ _ Eh) as [m ->]. discriminate. }
  pose proof (validate_host_port_returns _ _ Eh) as ->.
  destruct (validate_cron (or_default (a_timer args) default_timer))
    as [timer|e] eqn:Et.
  2:{ destruct (validate_cron_raises _ _ Et) as [m ->].
      destruct (a_rule args), (a_delete args); discriminate. }
  pose proof (validate_cron_returns _ _ Et) as ->.
  destruct (a_rule args) as [rule|], (a_delete args), (a_name args) as [name|];
    try discriminate;
    intros E; inversion E; subst; cbn;
    repeat split; try reflexivity; try discriminate; congruence.
Qed.

Section Only.
Context `{FloatOps}.
Variable P : event -> Prop.
Hypothesis P_log : forall l m, P (EvLog l m).
Hypothesis P_raise : forall e, P (EvRaise e).

Lemma only_bind {A B} (x : M A) (f : A -> M B) :
  only P x -> (forall a, snd x = Ret a -> only P (f a)) -> only P (bind x f).
Proof.
  unfold only. intros Hx Hf. apply Forall_forall. intros e Hin.
  apply in_bind in Hin as [Hin|(a & Ea & Hin)].
  - exact (proj1 (Forall_forall _ _) Hx e Hin).
  - exact (proj1 (Forall_forall _ _) (Hf a Ea) e Hin).
Qed.

Lemma only_try {A} (x : M A) (h : exn -> option (M A)) :
  only P x ->
  (forall e k, h e = Some k -> exists l msg c, k = ([EvLog l msg], Exc (SystemExit c))) ->
  only P (try_except x h).
Proof.
  unfold only. intros Hx Hh.
  destruct x as [t [a|e|]]; cbn [fst snd try_except] in *; try exact Hx.
  destruct (h e) as [k|] eqn:E; [|exact Hx].
  destruct (Hh _ _ E) as (l & msg & c & ->). cbn [fst].
  apply Forall_app. split; [exact Hx|]. constructor; [apply P_log | constructor].
Qed.

Lemma only_call {A} ev (r : pyresult A) : P ev -> only P (call ev r).
Proof.
  unfold only. intros Hev. destruct r as [a|e]; cbn; repeat constructor; auto.
Qed.

Lemma only_ret {A} (a : A) : only P (ret a).
Proof. constructor. Qed.

Lemma only_raise {A} (e : exn) : only P (raise e : M A).
Proof. constructor. Qed.

Lemma only_lift {A} (r : pyresult A) : only P (lift r).
Proof. destruct r; constructor. Qed.

Lemma only_log l msg : only P ([EvLog l msg], Ret tt).
Proof. unfold only. cbn. repeat constructor. apply P_log. Qed.

Ltac only_handler :=
  let e := fresh "e" in
  let k := fresh "k" in
  let E := fresh "E" in
  intros e k E; destruct e; try discriminate E; inversion E; subst;
  try match goal with
      | |- context [if ?c then _ else _] => destruct c
      end;
  eexists _, _, _; reflexivity.

Ltac only_step :=
  first
    [ apply only_ret
    | apply only_log
    | apply only_lift
    | apply only_call; assumption
    | apply only_bind; [|intros ? _] ].

Lemma only_parse_args args :
  (forall m, P (EvParserError m)) -> only P (parse_args args).
Proof.
  intros Hp. unfold only.
  destruct (parse_args_cases args) as [(ns & -> & _)|(m & ->)]; cbn.
  - constructor.
  - constructor; [apply Hp | constructor].
Qed.

Lemma only_get_credentials w :
  P EvLoadDotenv ->
  (env_set w "SPLUNK_USER" = false -> P (EvInput user_prompt)) ->
  (env_set w "SPLUNK_PASS" = false -> P (EvGetpass pass_prompt)) ->
  only P (get_credentials w).
Proof.
  unfold env_set. intros Hl Hu Hp. unfold get_credentials.
  apply only_bind; [unfold only; cbn; repeat constructor; exact Hl|]. intros _ _.
  apply only_bind.
  { destruct (w_getenv w "SPLUNK_USER") as [[|c u]|];
      first [apply only_ret | apply only_call; apply Hu; reflexivity]. }
  intros username _. apply only_bind.
  { destruct (w_getenv w "SPLUNK_PASS") as [[|c u]|];
      first [apply only_ret | apply only_call; apply Hp; reflexivity]. }
  intros password _. apply only_ret.
Qed.

Lemma only_connect w host u p :
  (forall h port, py_split1 ":" host = [h; port] -> P (EvConnect h port u p)) ->
  only P (connect_to_splunk w host u p).
Proof.
  intros Hc. unfold connect_to_splunk.
  destruct (py_split1 ":" host) as [|h [|port [|x l]]]; try apply only_raise.
  specialize (Hc h port eq_refl).
  apply only_try; [|only_handler].
  repeat only_step.
Qed.

Lemma only_convert w rule pipeline :
  P (EvSubprocessRun (sigma_command rule pipeline)) ->
  only P (convert_sigma_to_splunk w rule pipeline).
Proof.
  intros Hc. unfold convert_sigma_to_splunk, subprocess_run.
  apply only_try; [|only_handler].
  repeat only_step.
Qed.

Lemma only_create service name query timer :
  P (EvSavedSearchCreate name ("search " ++ query) timer true search_description) ->
  only P (create_scheduled_search service name query timer).
Proof.
  intros Hc. unfold create_scheduled_search.
  apply only_try; [|only_handler].
  repeat only_step.
Qed.

Lemma only_delete service name :
  P (EvSavedSearchDelete name) -> only P (delete_saved_search service name).
Proof.
  intros Hc. unfold delete_saved_search.
  apply only_try; [|only_handler].
  repeat only_step.
Qed.

Lemma only_wait_ready w job fuel : forall k,
  P EvIsReady -> P (EvSleep 2) -> only P (wait_ready w job fuel k).
Proof.
  induction fuel as [|fuel IH]; intros k Hr Hs; [constructor|].
  cbn [wait_ready]. apply only_bind; [apply only_call; exact Hr|].
  intros ready _. destruct ready; cbn [negb]; [apply only_ret|].
  apply only_bind; [apply only_call; exact Hs|]. intros _ _. apply IH; assumption.
Qed.

Lemma only_read_stats job :
  (forall k, In (EvJobGet k) snapshot_reads -> P (EvJobGet k)) ->
  only P (read_stats job).
Proof.
  intros Hg. unfold read_stats.
  assert (P (EvJobGet "isDone")) by (apply Hg; simpl; tauto).
  assert (P (EvJobGet "doneProgress")) by (apply Hg; simpl; tauto).
  assert (P (EvJobGet "scanCount")) by (apply Hg; simpl; tauto).
  assert (P (EvJobGet "eventCount")) by (apply Hg; simpl; tauto).
  assert (P (EvJobGet "resultCount")) by (apply Hg; simpl; tauto).
  repeat only_step.
Qed.

Lemma only_execute w service query fuel :
  P (EvJobCreate query) -> P EvIsReady -> P (EvSleep 2) ->
  (forall k, In (EvJobGet k) snapshot_reads -> P (EvJobGet k)) ->
  only P (execute_search w service query fuel).
Proof.
  intros Hj Hr Hs Hg. unfold execute_search.
  apply only_bind; [apply only_call; exact Hj|]. intros job _.
  apply only_bind; [apply only_log|]. intros _ _.
  apply only_bind; [apply only_wait_ready; assumption|]. intros _ _.
  apply only_bind; [apply only_read_stats; exact Hg|]. intros stats _.
  apply only_bind; [apply only_log|]. intros _ _.
  destruct (String.eqb (st_isDone stats) "1"); [apply only_log | apply only_ret].
Qed.

End Only.

Section MainEvents.
Context `{FloatOps}.

Lemma convert_ret_inv w rule pipeline q :
  snd (convert_sigma_to_splunk w rule pipeline) = Ret q ->
  exists out err,
    w_exec w (sigma_command rule pipeline) = ExecExited 0 out err
    /\ q = py_strip out.
Proof.
  unfold convert_sigma_to_splunk, subprocess_run.
  destruct (w_exec w (sigma_command rule pipeline)) as [|rc out err|e] eqn:E.
  - discriminate.
  - destruct (Z.eqb_spec rc 0) as [->|Hrc]; cbn.
    + intros Hq. inversion Hq. exists out, err. split; reflexivity.
    + discriminate.
  - destruct e; discriminate.
Qed.

Lemma create_ret_inv service name query timer v :
  snd (create_scheduled_search service name query timer) = Ret v ->
  v = PStr ("search " ++ query)
  /\ In (EvSavedSearchCreate name ("search " ++ query) timer true search_description)
        (fst (create_scheduled_search service name query timer)).
Proof.
  unfold create_scheduled_search.
  destruct (saved_searches_create service name ("search " ++ query) timer true
              search_description) as [d|e]; cbn.
  - intros Hv. inversion Hv. split; [reflexivity | left; reflexivity].
  - destruct e as [| | | | | | | |st m|st m| |]; cbn; try discriminate;
      destruct (st =? 409); discriminate.
Qed.

Lemma script_trace_cases w args fuel e :
  In e (fst (script w args fuel)) ->
  In e (fst (main w args fuel)) \/ e = EvLog INFO interrupted_msg.
Proof.
  unfold script. destruct (main w args fuel) as [t [a|e0|]]; cbn; auto.
  destruct e0; cbn; auto.
  intros Hin. apply in_app_or in Hin as [Hin|[Hin|[]]]; auto.
Qed.

(** The effects of a run, one kind after the other: what each can be,
    given the command line and the world. *)
Lemma main_events (P : event -> Prop) (w : World) (args : RawArgs) (fuel : nat) :
  (forall l m, P (EvLog l m)) ->
  (forall e, P (EvRaise e)) ->
  (forall m, P (EvParserError m)) ->
  P EvLoadDotenv ->
  (env_set w "SPLUNK_USER" = false -> P (EvInput user_prompt)) ->
  (env_set w "SPLUNK_PASS" = false -> P (EvGetpass pass_prompt)) ->
  (forall h port u p tc,
     validate_host_port (host_of args) = Ok (host_of args) ->
     py_split1 ":" (host_of args) = [h; port] ->
     get_credentials w = (tc, Ret (u, p)) ->
     P (EvConnect h port u p)) ->
  (forall name,
     a_delete args = true -> a_name args = Some name ->
     P (EvSavedSearchDelete name)) ->
  (forall name rule,
     a_delete args = false -> a_name args = Some name ->
     a_rule args = Some rule -> rule <> "" ->
     validate_cron (timer_of args) = Ok (timer_of args) ->
     P (EvSubprocessRun (sigma_command rule (pipeline_of args)))
     /\ (forall out err,
           w_exec w (sigma_command rule (pipeline_of args)) = ExecExited 0 out err ->
           P (EvSavedSearchCreate name ("search " ++ py_strip out) (timer_of args)
                                  true search_description)
           /\ P (EvJobCreate (PStr ("search " ++ py_strip out))))
     /\ P EvIsReady /\ P (EvSleep 2)
     /\ (forall k, In (EvJobGet k) snapshot_reads -> P (EvJobGet k))) ->
  Forall P (fst (script w args fuel)).
Proof.
  intros P_log P_raise P_parser P_load P_user P_pass P_conn P_del P_flow.
  apply Forall_forall. intros e Hin.
  apply script_trace_cases in Hin as [Hin| ->]; [|apply P_log].
  revert e Hin. apply Forall_forall. change (only P (main w args fuel)).
  unfold main.
  apply only_bind; [apply only_parse_args; assumption|]. intros ns Hns.
  destruct (parse_args args) as [tp rp] eqn:Ep. cbn [snd] in Hns. subst rp.
  destruct (parse_args_ret _ _ _ Ep)
    as (_ & Hname & Hhost & Hvh & Hrule & Hdel & Htimer & Hvt & Hpipe & _ & _).
  apply only_bind; [apply only_get_credentials; assumption|].
  intros [u p] Hcred.
  destruct (get_credentials w) as [tc rc] eqn:Ec. cbn [snd] in Hcred. subst rc.
  apply only_bind.
  { apply only_connect; try assumption. intros h port Hs.
    rewrite Hhost in Hs. apply (P_conn h port u p tc Hvh Hs eq_refl). }
  intros service _.
  destruct (ns_delete ns) eqn:Ed.
  - apply only_delete; try assumption.
    apply P_del; [congruence | exact Hname].
  - destruct (ns_rule ns) as [[|c r]|] eqn:Er; try apply only_ret.
    assert (Hne : String c r <> "") by discriminate.
    destruct (P_flow (ns_name ns) (String c r)) as (Pc & Pcr & Pr & Ps & Pg);
      try congruence.
    rewrite Hpipe, Htimer.
    apply only_bind; [apply only_convert; assumption|]. intros q Hq.
    destruct (convert_ret_inv _ _ _ _ Hq) as (out & err & Ex & ->).
    destruct (Pcr out err Ex) as [Pcreate Pjob].
    apply only_bind; [apply only_create; assumption|]. intros sq Hsq.
    destruct (create_ret_inv _ _ _ _ _ Hsq) as [-> _].
    apply only_execute; assumption.
Qed.

End MainEvents.

(** ** What every run does, and what none does *)

Section Invariants.
Context `{FloatOps}.

Lemma validated_address_split host h port :
  validate_host_port host = Ok host ->
  py_split1 ":" host = [h; port] ->
  host = h ++ ":" ++ port /\ no_char ":" h
  /\ exists n, py_int port = Some n /\ 1 <= n <= 65535.
Proof.
  intros Hv Hs.
  destruct (validate_host_port_ok_inv host host Hv)
    as (_ & h' & p' & n & E & Hh & Hp & Hn).
  subst host. unfold py_split1 in Hs.
  change (h' ++ ":" ++ p') with (h' ++ String ":" p') in Hs.
  rewrite (split_first_app _ _ _ Hh) in Hs. inversion Hs; subst.
  repeat split; [exact Hh|]. exists n. split; assumption.
Qed.

(** X7: every connection a run attempts is to the address that passed
    validation, split at its colon: the port text is an integer from 1
    to 65535, and the credentials are those [get_credentials] returned. *)
Theorem connect_uses_validated_address (w : World) (args : RawArgs) (fuel : nat)
  (h port u p : string) :
  In (EvConnect h port u p) (fst (script w args fuel)) ->
  host_of args = h ++ ":" ++ port
  /\ no_char ":" h
  /\ (exists n, py_int port = Some n /\ 1 <= n <= 65535)
  /\ exists tc, get_credentials w = (tc, Ret (u, p)).
Proof.
  intros Hin.
  pose (P := fun e =>
    match e with
    | EvConnect h port u p =>
        host_of args = h ++ ":" ++ port /\ no_char ":" h
        /\ (exists n, py_int port = Some n /\ 1 <= n <= 65535)
        /\ exists tc, get_credentials w = (tc, Ret (u, p))
    | _ => True
    end).
  assert (HP : Forall P (fst (script w args fuel))).
  { apply main_events; unfold P; try (intros; exact I).
    - intros h0 port0 u0 p0 tc Hv Hs Hc.
      destruct (validated_address_split _ _ _ Hv Hs) as (E & Hh & Hn).
      repeat split; try assumption. exists tc. exact Hc.
    - intros. repeat split; intros; exact I. }
  exact (proj1 (Forall_forall _ _) HP _ Hin).
Qed.

(** X8: a run asks for the user name only when SPLUNK_USER is unset or
    empty, and for the password only when SPLUNK_PASS is, and then
    through [getpass]: with both set, no run ever prompts. *)
Theorem prompts_only_when_unset (w : World) (args : RawArgs) (fuel : nat)
  (prompt : string) :
  (In (EvInput prompt) (fst (script w args fuel)) ->
   prompt = user_prompt /\ env_set w "SPLUNK_USER" = false)
  /\ (In (EvGetpass prompt) (fst (script w args fuel)) ->
      prompt = pass_prompt /\ env_set w "SPLUNK_PASS" = false).
Proof.
  pose (P := fun e =>
    match e with
    | EvInput pr => pr = user_prompt /\ env_set w "SPLUNK_USER" = false
    | EvGetpass pr => pr = pass_prompt /\ env_set w "SPLUNK_PASS" = false
    | _ => True
    end).
  assert (HP : Forall P (fst (script w args fuel))).
  { apply main_events; unfold P; try (intros; exact I).
    - intros Hu. split; [reflexivity | exact Hu].
    - intros Hp. split; [reflexivity | exact Hp].
    - intros. repeat split; intros; exact I. }
  split; intros Hin; exact (proj1 (Forall_forall _ _) HP _ Hin).
Qed.

(** X9: the two flows do not mix: a run deletes only when [-d] is given,
    and then only the search named with [-n]; and it translates, creates,
    submits, polls and reads metrics only when [-d] is not given. *)
Theorem flows_do_not_mix (w : World) (args : RawArgs) (fuel : nat) :
  (forall name,
     In (EvSavedSearchDelete name) (fst (script w args fuel)) ->
     a_delete args = true /\ a_name args = Some name)
  /\ (forall e,
        In e (fst (script w args fuel)) -> is_create_step e = true ->
        a_delete args = false).
Proof.
  pose (P := fun e =>
    match e with
    | EvSavedSearchDelete name => a_delete args = true /\ a_name args = Some name
    | _ => is_create_step e = true -> a_delete args = false
    end).
  assert (HP : Forall P (fst (script w args fuel))).
  { apply main_events; unfold P; cbn; try (intros; discriminate).
    - intros name Hd Hn. split; assumption.
    - intros name rule Hd _ _ _ _. repeat split; intros; exact Hd. }
  split.
  - intros name Hin. exact (proj1 (Forall_forall _ _) HP _ Hin).
  - intros e Hin He. pose proof (proj1 (Forall_forall _ _) HP _ Hin) as HPe.
    unfold P in HPe. destruct e; try discriminate He; exact (HPe He).
Qed.

Lemma script_created_search (w : World) (args : RawArgs) (fuel : nat)
  (name search cron descr : string) (sched : bool) :
  In (EvSavedSearchCreate name search cron sched descr) (fst (script w args fuel)) ->
  a_name args = Some name
  /\ cron = timer_of args /\ validate_cron cron = Ok cron
  /\ sched = true /\ descr = search_description
  /\ exists rule out err,
       a_rule args = Some rule
       /\ w_exec w (sigma_command rule (pipeline_of args)) = ExecExited 0 out err
       /\ search = "search " ++ py_strip out.
Proof.
  intros Hin.
  pose (P := fun e =>
    match e with
    | EvSavedSearchCreate name search cron sched descr =>
        a_name args = Some name
        /\ cron = timer_of args /\ validate_cron cron = Ok cron
        /\ sched = true /\ descr = search_description
        /\ exists rule out err,
             a_rule args = Some rule
             /\ w_exec w (sigma_command rule (pipeline_of args)) = ExecExited 0 out err
             /\ search = "search " ++ py_strip out
    | _ => True
    end).
  assert (HP : Forall P (fst (script w args fuel))).
  { apply main_events; unfold P; try (intros; exact I).
    intros name0 rule Hd Hn Hr Hne Hv. repeat split; try (intros; exact I);
      try assumption.
    exists rule, out, err. repeat split; assumption. }
  exact (proj1 (Forall_forall _ _) HP _ Hin).
Qed.

(** X10: every saved search a run creates is scheduled, has the name
    given with [-n], the schedule that passed validation, the fixed
    description, and as query the word [search] followed by the stripped
    output of a converter run that ended with status 0. *)
Theorem created_search_fields (w : World) (args : RawArgs) (fuel : nat)
  (name search cron descr : string) (sched : bool) :
  In (EvSavedSearchCreate name search cron sched descr) (fst (script w args fuel)) ->
  a_name args = Some name
  /\ cron = timer_of args /\ validate_cron cron = Ok cron
  /\ sched = true /\ descr = search_description
  /\ exists rule out err,
       a_rule args = Some rule
       /\ w_exec w (sigma_command rule (pipeline_of args)) = ExecExited 0 out err
       /\ search = "search " ++ py_strip out.
Proof. apply script_created_search. Qed.

(** X11: the only process a run starts is the converter, on the rule
    given with [-r], which is not empty, and with the pipeline given with
    [-p] or its default. *)
Theorem only_process_is_converter (w : World) (args : RawArgs) (fuel : nat)
  (command : list string) :
  In (EvSubprocessRun command) (fst (script w args fuel)) ->
  exists rule,
    a_rule args = Some rule /\ rule <> ""
    /\ command = sigma_command rule (pipeline_of args).
Proof.
  intros Hin.
  pose (P := fun e =>
    match e with
    | EvSubprocessRun command =>
        exists rule,
          a_rule args = Some rule /\ rule <> ""
          /\ command = sigma_command rule (pipeline_of args)
    | _ => True
    end).
  assert (HP : Forall P (fst (script w args fuel))).
  { apply main_events; unfold P; try (intros; exact I).
    intros name rule Hd Hn Hr Hne Hv. repeat split; try (intros; exact I).
    exists rule. repeat split; assumption. }
  exact (proj1 (Forall_forall _ _) HP _ Hin).
Qed.

Lemma script_job_query (w : World) (args : RawArgs) (fuel : nat) (query : pyobj) :
  In (EvJobCreate query) (fst (script w args fuel)) ->
  exists rule out err,
    a_rule args = Some rule
    /\ w_exec w (sigma_command rule (pipeline_of args)) = ExecExited 0 out err
    /\ query = PStr ("search " ++ py_strip out).
Proof.
  intros Hin.
  pose (P := fun e =>
    match e with
    | EvJobCreate query =>
        exists rule out err,
          a_rule args = Some rule
          /\ w_exec w (sigma_command rule (pipeline_of args)) = ExecExited 0 out err
          /\ query = PStr ("search " ++ py_strip out)
    | _ => True
    end).
  assert (HP : Forall P (fst (script w args fuel))).
  { apply main_events; unfold P; try (intros; exact I).
    intros name rule Hd Hn Hr Hne Hv. repeat split; try (intros; exact I).
    exists rule, out, err. repeat split; assumption. }
  exact (proj1 (Forall_forall _ _) HP _ Hin).
Qed.

(** X12: the job a run submits has the query of the saved search it
    created just before: the one is never run without the other, nor
    with another text. *)
Theorem job_runs_the_saved_query (w : World) (args : RawArgs) (fuel : nat)
  (query : pyobj) (t1 t2 : trace) :
  fst (script w args fuel) = (t1 ++ EvJobCreate query :: t2)%list ->
  exists name search cron,
    query = PStr search
    /\ In (EvSavedSearchCreate name search cron true search_description) t1.
Proof.
  intros Et.
  assert (Hin : In (EvJobCreate query) (fst (script w args fuel))).
  { rewrite Et. apply in_or_app. right. left. reflexivity. }
  destruct (script_job_query _ _ _ _ Hin) as (rule & out & err & Hr & Hx & ->).
  assert (Hpre : always_preceded is_create is_submit (fst (script w args fuel))).
  { apply (staged_preceded _ _ 5%nat); try (exact (script_staged w args fuel));
      try discriminate;
      intros e; destruct e; simpl; intros E; first [reflexivity | discriminate E]. }
  specialize (Hpre t1 _ t2 Et eq_refl).
  apply existsb_exists in Hpre as (e & Hin1 & He).
  destruct e as [| | | | |name search cron sched descr| | | | | | | |];
    try discriminate He.
  assert (Hin2 : In (EvSavedSearchCreate name search cron sched descr)
                    (fst (script w args fuel))).
  { rewrite Et. apply in_or_app. left. exact Hin1. }
  destruct (script_created_search _ _ _ _ _ _ _ _ Hin2)
    as (_ & _ & _ & -> & -> & rule' & out' & err' & Hr' & Hx' & ->).
  rewrite Hr in Hr'. inversion Hr'; subst rule'.
  rewrite Hx in Hx'. inversion Hx'; subst out' err'.
  exists name, ("search " ++ py_strip out), cron. split; [reflexivity | exact Hin1].
Qed.

End Invariants.

(** ** How a run can end *)

Lemma quiet_app t1 t2 : quiet (t1 ++ t2)%list <-> quiet t1 /\ quiet t2.
Proof.
  unfold quiet. rewrite forallb_app. split.
  - intros H. apply andb_prop in H. exact H.
  - intros [H1 H2]. rewrite H1, H2. reflexivity.
Qed.

Section Endings.
Context `{FloatOps}.

Lemma we_bind {A B} (x : M A) (f : A -> M B) :
  well_ended x -> (forall a, well_ended (f a)) -> well_ended (bind x f).
Proof.
  unfold well_ended. intros Hx Hf.
  destruct x as [t [a|e|]]; unfold bind; cbn [fst snd] in *; try exact Hx.
  specialize (Hf a). destruct (f a) as [t' [b|e|]]; cbn [fst snd] in *.
  - apply quiet_app. split; assumption.
  - destruct Hf as [(t0 & e' & m & -> & -> & Hq)|[(t0 & -> & Hq)|(Hv & Hq)]].
    + left. exists (t ++ t0)%list, e', m. rewrite app_assoc.
      repeat split. apply quiet_app. split; assumption.
    + right. left. exists (t ++ t0)%list. rewrite app_assoc.
      split; [reflexivity|]. apply quiet_app. split; assumption.
    + right. right. split; [exact Hv|]. apply quiet_app. split; assumption.
  - apply quiet_app. split; assumption.
Qed.

Lemma we_try {A} (x : M A) (h : exn -> option (M A)) :
  well_ended x ->
  (forall c, h (SystemExit c) = None) ->
  (forall m, h (ValueError m) = None) ->
  (forall e k, h e = Some k -> exists msg, k = ([EvLog ERROR msg], Exc (SystemExit 1))) ->
  well_ended (try_except x h).
Proof.
  unfold well_ended. intros Hx Hexit Hval Hh.
  destruct x as [t [a|e|]]; cbn [fst snd try_except] in *; try exact Hx.
  destruct (h e) as [k|] eqn:E; [|exact Hx].
  destruct (Hh _ _ E) as (msg & ->). cbn [fst snd].
  destruct Hx as [(t0 & e' & m & _ & -> & _)|[(t0 & -> & Hq)|((m & ->) & _)]].
  - rewrite Hexit in E. discriminate E.
  - left. exists t0, e, msg. rewrite <- app_assoc. repeat split. exact Hq.
  - rewrite Hval in E. discriminate E.
Qed.

Lemma we_call {A} ev (r : pyresult A) :
  is_failure ev = false -> well_ended (call ev r).
Proof.
  unfold well_ended, quiet. intros Hev. destruct r as [a|e]; cbn.
  - rewrite Hev. reflexivity.
  - right. left. exists [ev]. split; [reflexivity|]. unfold quiet. cbn.
    rewrite Hev. reflexivity.
Qed.

Lemma we_ret {A} (a : A) : well_ended (ret a).
Proof. reflexivity. Qed.

Lemma we_info msg : well_ended (logging_info msg).
Proof. reflexivity. Qed.

Lemma we_value_error {A} m : well_ended (raise (ValueError m) : M A).
Proof. right. right. split; [eexists; reflexivity | reflexivity]. Qed.

Lemma we_int s : well_ended (lift (int_of_str s)).
Proof.
  unfold int_of_str. destruct (py_int s); [apply we_ret | apply we_value_error].
Qed.

Lemma we_float s : well_ended (lift (float_of_str s)).
Proof.
  unfold float_of_str. destruct (py_float s); [apply we_ret | apply we_value_error].
Qed.

Ltac we_handler :=
  let e := fresh "e" in
  let k := fresh "k" in
  let E := fresh "E" in
  intros e k E; destruct e; try discriminate E; inversion E; subst;
  try match goal with
      | |- context [if ?c then _ else _] => destruct c
      end;
  eexists; reflexivity.

Ltac we_step :=
  first
    [ apply we_ret
    | apply we_info
    | apply we_int
    | apply we_float
    | apply we_call; reflexivity
    | apply we_bind; [|intro] ].

Lemma we_get_credentials w : well_ended (get_credentials w).
Proof.
  unfold get_credentials.
  apply we_bind; [reflexivity|]. intros _.
  apply we_bind.
  { destruct (w_getenv w "SPLUNK_USER") as [[|c u]|]; we_step. }
  intros username. apply we_bind.
  { destruct (w_getenv w "SPLUNK_PASS") as [[|c u]|]; we_step. }
  intros password. apply we_ret.
Qed.

Lemma we_connect w host u p : well_ended (connect_to_splunk w host u p).
Proof.
  unfold connect_to_splunk.
  destruct (py_split1 ":" host) as [|h [|port [|x l]]]; try apply we_value_error.
  apply we_try; [|reflexivity|reflexivity|we_handler].
  repeat we_step.
Qed.

Lemma we_convert w rule pipeline :
  well_ended (convert_sigma_to_splunk w rule pipeline).
Proof.
  unfold convert_sigma_to_splunk, subprocess_run.
  apply we_try; [|reflexivity|reflexivity|we_handler].
  repeat we_step.
Qed.

Lemma we_create service name query timer :
  well_ended (create_scheduled_search service name query timer).
Proof.
  unfold create_scheduled_search.
  apply we_try; [|reflexivity|reflexivity|we_handler].
  repeat we_step.
Qed.

Lemma we_delete service name : well_ended (delete_saved_search service name).
Proof.
  unfold delete_saved_search.
  apply we_try; [|reflexivity|reflexivity|we_handler].
  repeat we_step.
Qed.

Lemma we_wait_ready w job fuel : forall k, well_ended (wait_ready w job fuel k).
Proof.
  induction fuel as [|fuel IH]; intros k; [reflexivity|].
  cbn [wait_ready]. apply we_bind; [apply we_call; reflexivity|].
  intros ready. destruct ready; cbn [negb]; [apply we_ret|].
  apply we_bind; [apply we_call; reflexivity|]. intros _. apply IH.
Qed.

Lemma we_read_stats job : well_ended (read_stats job).
Proof. unfold read_stats. repeat we_step. Qed.

Lemma we_execute w service query fuel :
  well_ended (execute_search w service query fuel).
Proof.
  unfold execute_search.
  apply we_bind; [apply we_call; reflexivity|]. intros job.
  apply we_bind; [apply we_info|]. intros _.
  apply we_bind; [apply we_wait_ready|]. intros _.
  apply we_bind; [apply we_read_stats|]. intros stats.
  apply we_bind; [apply we_info|]. intros _.
  destruct (String.eqb (st_isDone stats) "1"); [apply we_info | apply we_ret].
Qed.

Lemma we_after_parse w ns fuel : well_ended (after_parse w ns fuel).
Proof.
  unfold after_parse.
  apply we_bind; [apply we_get_credentials|]. intros [username password].
  apply we_bind; [apply we_connect|]. intros service.
  unfold action. destruct (ns_delete ns); [apply we_delete|].
  destruct (ns_rule ns) as [[|c r]|]; try apply we_ret.
  unfold create_steps.
  apply we_bind; [apply we_convert|]. intros q.
  apply we_bind; [apply we_create|]. intros sq.
  apply we_execute.
Qed.

Lemma main_after_parse w args ns fuel :
  parse_args args = ([], Ret ns) -> main w args fuel = after_parse w ns fuel.
Proof.
  intros Hp. unfold main. rewrite Hp, bind_ret_l. cbn [app].
  symmetry. apply surjective_pairing.
Qed.

End Endings.

Lemma quiet_in t e : quiet t -> In e t -> is_failure e = false.
Proof.
  unfold quiet. intros Hq Hin.
  apply (proj1 (forallb_forall _ _) Hq) in Hin.
  apply negb_true_iff in Hin. exact Hin.
Qed.

Section RunEnd.
Context `{FloatOps}.

(** Every run ends in one of the ways of [run_end]. *)
Lemma script_run_end w args fuel :
  run_end (fst (script w args fuel)) (snd (script w args fuel)).
Proof.
  destruct (parse_args_cases args) as [(ns & Hp & _)|(m & Hm)].
  2:{ rewrite (script_usage_error w args fuel m Hm). constructor. }
  pose proof (we_after_parse w ns fuel) as Hw.
  unfold script. rewrite (main_after_parse _ _ _ _ Hp).
  unfold well_ended in Hw.
  destruct (after_parse w ns fuel) as [t [a|e|]]; cbn [fst snd try_except] in *.
  - apply EndSuccess. exact Hw.
  - destruct Hw as [(t0 & e' & m & -> & -> & Hq)|[(t0 & -> & Hq)|((m & ->) & Hq)]].
    + cbn. apply EndError. exact Hq.
    + destruct e; cbn [fst snd];
        try (apply EndTraceback; [exact Hq | discriminate | discriminate]).
      * cbn. rewrite <- app_assoc. apply EndInterrupt. exact Hq.
      * apply EndExit. exact Hq.
    + cbn. apply EndValueError. exact Hq.
  - apply EndRunning. exact Hw.
Qed.

(** X13: a run ends with status 0, 1 or 2, unless the world itself
    raised [SystemExit] with another status. *)
Theorem exit_status_values (w : World) (args : RawArgs) (fuel : nat) (c : Z) :
  snd (script w args fuel) = Exit c ->
  c = 0 \/ c = 1 \/ c = 2
  \/ In (EvRaise (SystemExit c)) (fst (script w args fuel)).
Proof.
  pose proof (script_run_end w args fuel) as Hr.
  destruct (script w args fuel) as [t st]. cbn [fst snd] in *.
  intros ->. inversion Hr; subst; auto.
  right. right. right. apply in_or_app. right. left. reflexivity.
Qed.

(** X14: an error line of the log is always the last thing a run does: it
    comes right after the exception it reports, nothing failed before,
    and the status is 1. *)
Theorem error_line_is_last (w : World) (args : RawArgs) (fuel : nat) (m : string) :
  In (EvLog ERROR m) (fst (script w args fuel)) ->
  snd (script w args fuel) = Exit 1
  /\ exists t e,
       fst (script w args fuel) = (t ++ [EvRaise e; EvLog ERROR m])%list
       /\ quiet t.
Proof.
  pose proof (script_run_end w args fuel) as Hr.
  destruct (script w args fuel) as [t st]. cbn [fst snd] in *.
  intros Hin.
  assert (Hq : forall t0, quiet t0 -> ~ In (EvLog ERROR m) t0).
  { intros t0 Hq0 Hin0. pose proof (quiet_in _ _ Hq0 Hin0) as E. discriminate E. }
  inversion Hr; subst;
    try (exfalso; eapply Hq; eassumption);
    try (apply in_app_or in Hin as [Hin|Hin];
         [exfalso; eapply Hq; eassumption|]).
  - destruct Hin as [Hin|[]]. discriminate Hin.
  - destruct Hin as [Hin|[Hin|[]]]; [discriminate Hin|].
    inversion Hin; subst. split; [reflexivity|]. eexists _, _. split; [reflexivity|].
    assumption.
  - destruct Hin as [Hin|[Hin|[]]]; discriminate Hin.
  - destruct Hin as [Hin|[]]. discriminate Hin.
  - destruct Hin as [Hin|[]]. discriminate Hin.
Qed.

(** X15: a run stops at the first exception the world raises: nothing
    failed before it, at most one log line follows it, and the status is
    not 0 (unless the exception is [SystemExit(0)] itself). *)
Theorem stops_at_first_exception (w : World) (args : RawArgs) (fuel : nat)
  (e : exn) :
  In (EvRaise e) (fst (script w args fuel)) ->
  (exists t,
     quiet t
     /\ (fst (script w args fuel) = (t ++ [EvRaise e])%list
         \/ exists l m, fst (script w args fuel) = (t ++ [EvRaise e; EvLog l m])%list))
  /\ (snd (script w args fuel) = Exit 0 -> e = SystemExit 0).
Proof.
  pose proof (script_run_end w args fuel) as Hr.
  destruct (script w args fuel) as [t st]. cbn [fst snd] in *.
  intros Hin.
  assert (Hq : forall t0, quiet t0 -> ~ In (EvRaise e) t0).
  { intros t0 Hq0 Hin0. pose proof (quiet_in _ _ Hq0 Hin0) as E. discriminate E. }
  inversion Hr; subst;
    try (exfalso; eapply Hq; eassumption);
    try (apply in_app_or in Hin as [Hin|Hin];
         [exfalso; eapply Hq; eassumption|]).
  - destruct Hin as [Hin|[]]. discriminate Hin.
  - destruct Hin as [Hin|[Hin|[]]]; [|discriminate Hin].
    inversion Hin; subst. split; [|discriminate].
    eexists. split; [eassumption|]. right. eexists _, _. reflexivity.
  - destruct Hin as [Hin|[Hin|[]]]; [|discriminate Hin].
    inversion Hin; subst. split; [|discriminate].
    eexists. split; [eassumption|]. right. eexists _, _. reflexivity.
  - destruct Hin as [Hin|[]]. inversion Hin; subst.
    split; [|intros E; inversion E; reflexivity].
    eexists. split; [eassumption|]. left. reflexivity.
  - destruct Hin as [Hin|[]]. inversion Hin; subst. split; [|discriminate].
    eexists. split; [eassumption|]. left. reflexivity.
Qed.

End RunEnd.

(** ** Edges of the flows *)

Section Edges.
Context `{FloatOps}.

Lemma wait_ready_never w job fuel : forall k,
  (forall i, job_is_ready job i = Ok false) ->
  (forall i, w_sleep w i = Ok tt) ->
  wait_ready w job fuel k = (polls fuel, Spin).
Proof.
  induction fuel as [|fuel IH]; intros k Hnot Hsleep; [reflexivity|].
  cbn [wait_ready]. rewrite Hnot. cbn -[wait_ready polls].
  rewrite Hsleep. cbn -[wait_ready polls].
  rewrite (IH (S k) Hnot Hsleep). reflexivity.
Qed.

(** X16: the polling loop has no bound: on a job that is never ready,
    whatever the number of rounds allowed, [execute_search] has polled
    and slept that many times, is still polling, and has logged no
    progress line. *)
Theorem never_ready_never_returns (w : World) (service : Service) (query : pyobj)
  (job : Job) (fuel : nat) :
  jobs_create service query = Ok job ->
  (forall i, job_is_ready job i = Ok false) ->
  (forall i, w_sleep w i = Ok tt) ->
  execute_search w service query fuel
  = ((EvJobCreate query :: EvLog INFO waiting_msg :: polls fuel)%list, Spin).
Proof.
  intros Hjob Hnot Hsleep. unfold execute_search. rewrite Hjob.
  cbn -[wait_ready read_stats polls].
  rewrite (wait_ready_never w job fuel 0 Hnot Hsleep). reflexivity.
Qed.

(** X17: in the delete flow, once connected, a successful delete is all
    that happens: one request for the name given with [-n], one line of
    log, status 0. *)
Theorem delete_flow_success (w : World) (args : RawArgs) (ns : Namespace)
  (service : Service) (t : trace) (fuel : nat) :
  connected w args ns service t ->
  ns_delete ns = true ->
  saved_searches_delete service (ns_name ns) = Ok tt ->
  script w args fuel
  = ((t ++ [EvSavedSearchDelete (ns_name ns);
            EvLog INFO (deleted_msg (ns_name ns))])%list,
     Exit 0).
Proof.
  intros Hc Hd Hok. apply script_success.
  rewrite (main_connected _ _ _ _ _ fuel Hc).
  unfold action, delete_saved_search. rewrite Hd, Hok. reflexivity.
Qed.

(** X18: a rule path that is the empty string is taken as no rule: the
    run connects, does nothing more and ends with status 0. *)
Theorem empty_rule_does_nothing (w : World) (args : RawArgs) (ns : Namespace)
  (service : Service) (t : trace) (fuel : nat) :
  connected w args ns service t ->
  ns_delete ns = false -> ns_rule ns = Some "" ->
  script w args fuel = (t, Exit 0).
Proof.
  intros Hc Hd Hr. apply script_success.
  rewrite (main_connected _ _ _ _ _ fuel Hc).
  unfold action. rewrite Hd, Hr. cbn. rewrite app_nil_r. reflexivity.
Qed.

(** X19: [connect_to_splunk] handles a refused connection, a timeout and
    rejected credentials only: any other error of the connection ends the
    process with a traceback and no line of log. *)
Theorem connect_unhandled_error (w : World) (args : RawArgs) (fuel : nat)
  (ns : Namespace) (tc : trace) (u p h port : string) (e : exn) :
  parse_args args = ([], Ret ns) ->
  get_credentials w = (tc, Ret (u, p)) ->
  py_split1 ":" (ns_host ns) = [h; port] ->
  w_connect w h port u p = Raise e ->
  connect_handles e = false -> is_error e = true ->
  script w args fuel
  = ((tc ++ [EvConnect h port u p; EvRaise e])%list, Traceback e).
Proof.
  intros Hp Hc Hs Hk Hh He.
  unfold script, main. rewrite Hp, bind_ret_l, Hc, bind_ret_l.
  cbn beta iota. unfold connect_to_splunk. rewrite Hs, Hk.
  destruct e; try discriminate Hh; try discriminate He; reflexivity.
Qed.

(** X20: [delete_saved_search] handles a missing search only: any other
    error of the delete request, an HTTP error for one, ends the process
    with a traceback and no line of log. *)
Theorem delete_unhandled_error (w : World) (args : RawArgs) (ns : Namespace)
  (service : Service) (t : trace) (fuel : nat) (e : exn) :
  connected w args ns service t ->
  ns_delete ns = true ->
  saved_searches_delete service (ns_name ns) = Raise e ->
  delete_handles e = false -> is_error e = true ->
  script w args fuel
  = ((t ++ [EvSavedSearchDelete (ns_name ns); EvRaise e])%list, Traceback e).
Proof.
  intros Hc Hd Hk Hh He.
  unfold script. rewrite (main_connected _ _ _ _ _ fuel Hc).
  unfold action, delete_saved_search. rewrite Hd, Hk.
  destruct e; try discriminate Hh; try discriminate He; reflexivity.
Qed.


Lemma lstrip_all p s : all_chars p s = true -> lstrip p s = "".
Proof.
  induction s as [|c s IH]; simpl; intros Ha; [reflexivity|].
  apply andb_prop in Ha as [Hc Hs]. rewrite Hc. apply IH. exact Hs.
Qed.

(** X22: the output of the converter is not examined: when it is empty
    or all white space, the run goes on and creates a saved search whose
    query is the word [search] alone. *)
Theorem blank_output_creates_empty_search (w : World) (args : RawArgs)
  (ns : Namespace) (service : Service) (t : trace) (fuel : nat)
  (rule out err : string) :
  connected w args ns service t ->
  ns_delete ns = false -> ns_rule ns = Some rule -> rule <> "" ->
  w_exec w (sigma_command rule (ns_pipeline ns)) = ExecExited 0 out err ->
  all_chars is_space out = true ->
  In (EvSavedSearchCreate (ns_name ns) "search " (ns_timer ns) true
                          search_description)
     (fst (script w args fuel)).
Proof.
  intros Hc Hd Hr Hne Hx Hb.
  assert (Hs : py_strip out = "").
  { unfold py_strip. rewrite (lstrip_all _ _ Hb). reflexivity. }
  assert (Hm : In (EvSavedSearchCreate (ns_name ns) "search " (ns_timer ns) true
                                       search_description)
                  (fst (main w args fuel))).
  { rewrite (main_connected _ _ _ _ _ fuel Hc). cbn [fst].
    apply in_or_app. right.
    rewrite (action_create_flow _ _ _ _ _ Hd Hr Hne).
    rewrite (create_steps_after_convert _ _ _ _ _ _ _ _ _ (convert_ok _ _ _ _ _ Hx)).
    rewrite bind_ret_l. cbn [fst]. apply in_or_app. right. rewrite Hs.
    rewrite bind_trace. apply in_or_app. left.
    unfold create_scheduled_search.
    destruct (saved_searches_create service (ns_name ns) ("search " ++ "")
                (ns_timer ns) true search_description) as [d|e].
    - left. reflexivity.
    - destruct e as [| | | | | | | |st m|st m| |]; cbn;
        try destruct (st =? 409); left; reflexivity. }
  unfold script. destruct (main w args fuel) as [tm [a|e|]]; cbn [fst] in *;
    try exact Hm.
  destruct e; cbn; try exact Hm. apply in_or_app. left. exact Hm.
Qed.

End Edges.

(** ** What a status of 0 means *)

Lemma bind_ret_inv {A B} (x : M A) (f : A -> M B) (t : trace) (b : B) :
  bind x f = (t, Ret b) ->
  exists t1 a t2, x = (t1, Ret a) /\ f a = (t2, Ret b) /\ t = (t1 ++ t2)%list.
Proof.
  destruct x as [t1 [a|e|]]; unfold bind; try discriminate.
  destruct (f a) as [t2 r] eqn:E. intros Hb. inversion Hb; subst.
  exists t1, a, t2. split; [reflexivity|]. split; [exact E | reflexivity].
Qed.

Lemma delete_ret_inv service name t :
  delete_saved_search service name = (t, Ret tt) ->
  t = [EvSavedSearchDelete name; EvLog INFO (deleted_msg name)].
Proof.
  unfold delete_saved_search.
  destruct (saved_searches_delete service name) as [[]|e]; cbn.
  - intros E. inversion E. reflexivity.
  - destruct e; cbn; discriminate.
Qed.

Section Success.
Context `{FloatOps}.

Lemma execute_ret_inv w service query fuel t :
  execute_search w service query fuel = (t, Ret tt) ->
  In (EvJobCreate query) t
  /\ exists stats, In (EvLog INFO (progress_line stats)) t.
Proof.
  unfold execute_search. intros E.
  apply bind_ret_inv in E as (t1 & job & t2 & E1 & E2 & ->).
  apply bind_ret_inv in E2 as (t3 & [] & t4 & _ & E4 & ->).
  apply bind_ret_inv in E4 as (t5 & [] & t6 & _ & E6 & ->).
  apply bind_ret_inv in E6 as (t7 & stats & t8 & _ & E8 & ->).
  apply bind_ret_inv in E8 as (t9 & [] & t10 & E9 & _ & ->).
  split.
  - apply in_or_app. left.
    destruct (jobs_create service query) as [j|e]; inversion E1.
    left. reflexivity.
  - exists stats. inversion E9. rewrite !in_app_iff. cbn. tauto.
Qed.

(** A run that ends with status 0 has returned from [main], unless the
    world raised [SystemExit(0)]. *)
Lemma script_exit0_main w args fuel :
  snd (script w args fuel) = Exit 0 ->
  ~ In (EvRaise (SystemExit 0)) (fst (script w args fuel)) ->
  exists ns t,
    parse_args args = ([], Ret ns)
    /\ after_parse w ns fuel = (t, Ret tt)
    /\ fst (script w args fuel) = t.
Proof.
  destruct (parse_args_cases args) as [(ns & Hp & _)|(m & Hm)].
  2:{ rewrite (script_usage_error w args fuel m Hm). discriminate. }
  intros Hs Hno. exists ns.
  pose proof (we_after_parse w ns fuel) as Hw.
  unfold script in *. rewrite (main_after_parse _ _ _ _ Hp) in *.
  unfold well_ended in Hw.
  destruct (after_parse w ns fuel) as [t [[]|e|]]; cbn [fst snd try_except] in *.
  - exists t. split; [exact Hp|]. split; reflexivity.
  - exfalso.
    destruct Hw as [(t0 & e' & m & -> & -> & Hq)|[(t0 & -> & Hq)|((m & ->) & Hq)]].
    + cbn in Hs. discriminate Hs.
    + destruct e; cbn in Hs, Hno; try discriminate Hs.
      inversion Hs; subst. apply Hno. apply in_or_app. right. left. reflexivity.
    + cbn in Hs. discriminate Hs.
  - discriminate Hs.
Qed.

(** X23: for a run that went past the command line, that is one that
    loaded the environment, a status of 0 means the work is done (unless
    the world itself raised [SystemExit(0)]): with [-d] the run ended
    with the delete of the search named with [-n] and the line that
    reports it; with a rule it created the saved search, submitted a job
    with the same query and logged a progress line.  A run that stops in
    [argparse], as one with [-h] does with status 0, loads nothing. *)
Theorem status_zero_means_done (w : World) (args : RawArgs) (fuel : nat) :
  In EvLoadDotenv (fst (script w args fuel)) ->
  snd (script w args fuel) = Exit 0 ->
  ~ In (EvRaise (SystemExit 0)) (fst (script w args fuel)) ->
  (a_delete args = true ->
   exists name t,
     a_name args = Some name
     /\ fst (script w args fuel)
        = (t ++ [EvSavedSearchDelete name; EvLog INFO (deleted_msg name)])%list)
  /\ (forall rule,
        a_rule args = Some rule -> rule <> "" ->
        exists name search stats,
          a_name args = Some name
          /\ In (EvSavedSearchCreate name search (timer_of args) true
                                     search_description)
                (fst (script w args fuel))
          /\ In (EvJobCreate (PStr search)) (fst (script w args fuel))
          /\ In (EvLog INFO (progress_line stats)) (fst (script w args fuel))).
Proof.
  intros _ Hs Hno.
  destruct (script_exit0_main w args fuel Hs Hno) as (ns & t & Hp & Ha & Et).
  rewrite Et. clear Hs Hno Et.
  destruct (parse_args_ret _ _ _ Hp)
    as (_ & Hname & _ & _ & Hrule & Hdel & Htimer & _ & _ & Hd1 & _).
  unfold after_parse in Ha.
  apply bind_ret_inv in Ha as (tc & [u p] & t1 & _ & Ea & ->).
  apply bind_ret_inv in Ea as (tk & service & t2 & _ & Eact & ->).
  unfold action in Eact. split.
  - intros Hd. rewrite Hdel, Hd in Eact. apply delete_ret_inv in Eact as ->.
    exists (ns_name ns), (tc ++ tk)%list. split; [exact Hname|].
    rewrite app_assoc. reflexivity.
  - intros rule Hr Hne.
    assert (Hd : a_delete args = false).
    { destruct (a_delete args); [|reflexivity].
      rewrite (Hd1 eq_refl) in Hr. discriminate Hr. }
    rewrite Hdel, Hd, Hrule, Hr in Eact.
    destruct rule as [|c r]; [contradiction Hne; reflexivity|].
    unfold create_steps in Eact.
    apply bind_ret_inv in Eact as (tq & q & t3 & _ & Ecr & ->).
    apply bind_ret_inv in Ecr as (ts & sq & t4 & Es & Ee & ->).
    pose proof (create_ret_inv service (ns_name ns) q (ns_timer ns) sq) as Hc.
    rewrite Es in Hc. destruct (Hc eq_refl) as [-> Hin]. cbn [fst] in Hin.
    apply execute_ret_inv in Ee as (Hj & stats & Hl).
    exists (ns_name ns), ("search " ++ q), stats. rewrite <- Htimer.
    split; [exact Hname|]. rewrite !in_app_iff. tauto.
Qed.

End Success.

(** ** The properties on runs of the script *)

Ltac in_list := vm_compute; repeat first [left; reflexivity | right].

Ltac not_in_list Hin :=
  vm_compute in Hin; repeat (destruct Hin as [Hin|Hin]; [discriminate Hin|]);
  exact Hin.

Lemma connect_uses_validated_address_witness :
  host_of demo_args = "127.0.0.1" ++ ":" ++ "8089"
  /\ no_char ":" "127.0.0.1"
  /\ (exists n, py_int "8089" = Some n /\ 1 <= n <= 65535)
  /\ exists tc, get_credentials demo_world = (tc, Ret ("admin", "changeme")).
Proof.
  apply (connect_uses_validated_address (H := decimal_floats) demo_world demo_args
           10 "127.0.0.1" "8089" "admin" "changeme").
  in_list.
Defined.

Lemma prompts_only_when_unset_witness :
  (user_prompt = user_prompt /\ env_set prompting_world "SPLUNK_USER" = false)
  /\ (pass_prompt = pass_prompt /\ env_set prompting_world "SPLUNK_PASS" = false).
Proof.
  split.
  - apply (proj1 (prompts_only_when_unset (H := decimal_floats) prompting_world
                    demo_args 10 user_prompt)).
    in_list.
  - apply (proj2 (prompts_only_when_unset (H := decimal_floats) prompting_world
                    demo_args 10 pass_prompt)).
    in_list.
Defined.

Lemma flows_do_not_mix_witness :
  (a_delete demo_delete_args = true /\ a_name demo_delete_args = Some "alerts")
  /\ a_delete demo_args = false.
Proof.
  split.
  - apply (proj1 (flows_do_not_mix (H := decimal_floats) demo_world
                    demo_delete_args 10) "alerts").
    in_list.
  - apply (proj2 (flows_do_not_mix (H := decimal_floats) demo_world demo_args 10)
                 EvIsReady); [in_list | reflexivity].
Defined.

Lemma created_search_fields_witness :
  a_name demo_args = Some "alerts"
  /\ "*/30 * * * *" = timer_of demo_args
  /\ validate_cron "*/30 * * * *" = Ok "*/30 * * * *"
  /\ true = true /\ search_description = search_description
  /\ exists rule out err,
       a_rule demo_args = Some rule
       /\ w_exec demo_world (sigma_command rule (pipeline_of demo_args))
          = ExecExited 0 out err
       /\ "search foo=bar" = "search " ++ py_strip out.
Proof.
  apply (created_search_fields (H := decimal_floats) demo_world demo_args 10
           "alerts" "search foo=bar" "*/30 * * * *" search_description true).
  in_list.
Defined.

Lemma only_process_is_converter_witness :
  exists rule,
    a_rule demo_args = Some rule /\ rule <> ""
    /\ sigma_command "r.yml" "--without-pipeline"
       = sigma_command rule (pipeline_of demo_args).
Proof.
  apply (only_process_is_converter (H := decimal_floats) demo_world demo_args 10
           (sigma_command "r.yml" "--without-pipeline")).
  in_list.
Defined.

Lemma job_runs_the_saved_query_witness :
  exists name search cron,
    PStr "search foo=bar" = PStr search
    /\ In (EvSavedSearchCreate name search cron true search_description)
          (firstn 7 (fst (script (H := decimal_floats) demo_world demo_args 10))).
Proof.
  apply (job_runs_the_saved_query (H := decimal_floats) demo_world demo_args 10
           (PStr "search foo=bar")
           (firstn 7 (fst (script (H := decimal_floats) demo_world demo_args 10)))
           (skipn 8 (fst (script (H := decimal_floats) demo_world demo_args 10)))).
  vm_compute. reflexivity.
Defined.

Lemma exit_status_values_witness :
  1 = 0 \/ 1 = 1 \/ 1 = 2
  \/ In (EvRaise (SystemExit 1))
        (fst (script (H := decimal_floats) refusing_world demo_args 10)).
Proof.
  apply (exit_status_values (H := decimal_floats) refusing_world demo_args 10 1).
  reflexivity.
Defined.

Lemma error_line_is_last_witness :
  snd (script (H := decimal_floats) refusing_world demo_args 10) = Exit 1
  /\ exists t e,
       fst (script (H := decimal_floats) refusing_world demo_args 10)
       = (t ++ [EvRaise e;
                EvLog ERROR
                  "Connection to Splunk failed: [Errno 111] Connection refused"])%list
       /\ quiet t.
Proof.
  apply (error_line_is_last (H := decimal_floats) refusing_world demo_args 10
           "Connection to Splunk failed: [Errno 111] Connection refused").
  in_list.
Defined.

Lemma stops_at_first_exception_witness :
  (exists t,
     quiet t
     /\ (fst (script (H := decimal_floats) refusing_world demo_args 10)
         = (t ++ [EvRaise (ConnectionRefusedError
                             "[Errno 111] Connection refused")])%list
         \/ exists l m,
              fst (script (H := decimal_floats) refusing_world demo_args 10)
              = (t ++ [EvRaise (ConnectionRefusedError
                                  "[Errno 111] Connection refused");
                       EvLog l m])%list))
  /\ (snd (script (H := decimal_floats) refusing_world demo_args 10) = Exit 0 ->
      ConnectionRefusedError "[Errno 111] Connection refused" = SystemExit 0).
Proof.
  apply (stops_at_first_exception (H := decimal_floats) refusing_world demo_args 10
           (ConnectionRefusedError "[Errno 111] Connection refused")).
  in_list.
Defined.

Lemma never_ready_never_returns_witness :
  execute_search (H := decimal_floats) demo_world
                 (make_service None None never_ready_job)
                 (PStr "search foo=bar") 3
  = ((EvJobCreate (PStr "search foo=bar") :: EvLog INFO waiting_msg
        :: polls 3)%list, Spin).
Proof.
  apply (never_ready_never_returns (H := decimal_floats) demo_world
           (make_service None None never_ready_job) (PStr "search foo=bar")
           never_ready_job 3);
    [reflexivity | intros i; reflexivity | intros i; reflexivity].
Defined.

Lemma delete_flow_success_witness :
  script (H := decimal_floats) demo_world demo_delete_args 10
  = ((demo_prefix
        ++ [EvSavedSearchDelete (ns_name demo_delete_namespace);
            EvLog INFO (deleted_msg (ns_name demo_delete_namespace))])%list,
     Exit 0).
Proof.
  apply (delete_flow_success (H := decimal_floats) demo_world demo_delete_args
           demo_delete_namespace demo_service demo_prefix 10);
    [apply demo_delete_connected | reflexivity | reflexivity].
Defined.

Lemma empty_rule_does_nothing_witness :
  script (H := decimal_floats) demo_world demo_empty_rule_args 10
  = (demo_prefix, Exit 0).
Proof.
  apply (empty_rule_does_nothing (H := decimal_floats) demo_world
           demo_empty_rule_args demo_empty_rule_namespace demo_service
           demo_prefix 10); [|reflexivity|reflexivity].
  exists [EvLoadDotenv],
         [EvConnect "127.0.0.1" "8089" "admin" "changeme";
          EvLog INFO "Successfully connected to Splunk."],
         "admin", "changeme".
  repeat split; reflexivity.
Defined.

Lemma connect_unhandled_error_witness :
  script (H := decimal_floats) unresolved_world demo_args 10
  = (([EvLoadDotenv]
        ++ [EvConnect "127.0.0.1" "8089" "admin" "changeme";
            EvRaise name_error])%list,
     Traceback name_error).
Proof.
  apply (connect_unhandled_error (H := decimal_floats) unresolved_world demo_args
           10 demo_namespace [EvLoadDotenv] "admin" "changeme" "127.0.0.1" "8089"
           name_error); reflexivity.
Defined.

Lemma delete_unhandled_error_witness :
  script (H := decimal_floats) forbidding_world demo_delete_args 10
  = ((demo_prefix
        ++ [EvSavedSearchDelete (ns_name demo_delete_namespace);
            EvRaise forbidden])%list,
     Traceback forbidden).
Proof.
  apply (delete_unhandled_error (H := decimal_floats) forbidding_world
           demo_delete_args demo_delete_namespace forbidding_service demo_prefix
           10 forbidden);
    [apply demo_delete_connected | reflexivity | reflexivity | reflexivity
     | reflexivity].
Defined.


Lemma blank_output_creates_empty_search_witness :
  In (EvSavedSearchCreate (ns_name demo_namespace) "search "
                          (ns_timer demo_namespace) true search_description)
     (fst (script (H := decimal_floats) blank_world demo_args 10)).
Proof.
  apply (blank_output_creates_empty_search (H := decimal_floats) blank_world
           demo_args demo_namespace demo_service demo_prefix 10 "r.yml" "   " "");
    [apply demo_connected | reflexivity | reflexivity | discriminate
     | reflexivity | reflexivity].
Defined.

Lemma status_zero_means_done_witness :
  (exists name t,
     a_name demo_delete_args = Some name
     /\ fst (script (H := decimal_floats) demo_world demo_delete_args 10)
        = (t ++ [EvSavedSearchDelete name; EvLog INFO (deleted_msg name)])%list)
  /\ exists name search (stats : Stats (H := decimal_floats)),
       a_name demo_args = Some name
       /\ In (EvSavedSearchCreate name search (timer_of demo_args) true
                                  search_description)
             (fst (script (H := decimal_floats) demo_world demo_args 10))
       /\ In (EvJobCreate (PStr search))
             (fst (script (H := decimal_floats) demo_world demo_args 10))
       /\ In (EvLog INFO (progress_line stats))
             (fst (script (H := decimal_floats) demo_world demo_args 10)).
Proof.
  split.
  - refine (proj1 (status_zero_means_done (H := decimal_floats) demo_world
                     demo_delete_args 10 _ eq_refl _) eq_refl).
    + in_list.
    + intros Hin. not_in_list Hin.
  - refine (proj2 (status_zero_means_done (H := decimal_floats) demo_world
                     demo_args 10 _ eq_refl _) "r.yml" eq_refl _).
    + in_list.
    + intros Hin. not_in_list Hin.
    + discriminate.
Defined.
